(** * A verification development for the LLM documentation agent

    The repository is a Python pipeline: clone a repository, classify its
    files, ask a language model about entry points and workflows, assemble
    documents and publish them.  This file embeds the functions the
    specification makes promises about and proves those promises (or shows
    where the code departs from them).

    Conventions of the embedding:
    - a Python [str] is a [string]; a character stands for the code point of
      the same number, so texts are restricted to code points below 256;
    - a Python list is a [list], a [dict] whose order is observable is an
      association list in insertion order;
    - a function that may raise returns a [result]; a function with effects
      (model calls, sleeping, logging) threads an explicit state. *)

From Stdlib Require Import String Ascii List ZArith Lia Bool Arith PeanoNat.
From Stdlib Require Import Floats Permutation.

Set Warnings "-register-all".
Import ListNotations.
Open Scope list_scope.
Open Scope string_scope.

(** ** Python string operations used by the sources *)

Module PyStr.

(** Characters that cannot be written inside a literal here. *)
Definition LF : ascii := ascii_of_nat 10.
Definition dquote : ascii := ascii_of_nat 34.
Definition backslash : ascii := ascii_of_nat 92.

Definition str1 (c : ascii) : string := String c EmptyString.
Definition nl : string := str1 LF.

Fixpoint map_chars (f : ascii -> ascii) (s : string) : string :=
  match s with
  | EmptyString => EmptyString
  | String c s' => String (f c) (map_chars f s')
  end.

(** [s.startswith(p)] *)
Definition startswith (s p : string) : bool := prefix p s.

(** [s[i:]] for [0 <= i] *)
Fixpoint drop (i : nat) (s : string) : string :=
  match i, s with
  | O, _ => s
  | S _, EmptyString => EmptyString
  | S k, String _ s' => drop k s'
  end.

(** [s.endswith(p)]: the last [len(p)] characters of [s] are [p]. *)
Definition endswith (s p : string) : bool :=
  (String.length p <=? String.length s)%nat
  && (drop (String.length s - String.length p) s =? p).

(** [p in s] for strings: [p] occurs somewhere in [s]. *)
Fixpoint contains (p s : string) : bool :=
  prefix p s ||
  match s with
  | EmptyString => false
  | String _ s' => contains p s'
  end.

(** [s.replace(old, new)] for a non-empty [old]: occurrences are found left to
    right and do not overlap.  [skip] counts the characters of a matched
    occurrence that are still to be passed over. *)
Fixpoint replace_from (old new : string) (skip : nat) (s : string) : string :=
  match s with
  | EmptyString => EmptyString
  | String c s' =>
      match skip with
      | S k => replace_from old new k s'
      | O =>
          if prefix old s
          then new ++ replace_from old new (String.length old - 1) s'
          else String c (replace_from old new 0 s')
      end
  end.

(** With an empty [old], Python puts [new] before every character and at the
    end. *)
Fixpoint intersperse_all (new s : string) : string :=
  match s with
  | EmptyString => new
  | String c s' => new ++ String c (intersperse_all new s')
  end.

Definition replace (old new s : string) : string :=
  match old with
  | EmptyString => intersperse_all new s
  | _ => replace_from old new 0 s
  end.

(** [s.split(sep)] for a non-empty [sep] ([cur] is the field being read). *)
Fixpoint split_from (sep : string) (skip : nat) (cur : string) (s : string)
  : list string :=
  match s with
  | EmptyString => [cur]
  | String c s' =>
      match skip with
      | S k => split_from sep k cur s'
      | O =>
          if prefix sep s
          then cur :: split_from sep (String.length sep - 1) EmptyString s'
          else split_from sep 0 (cur ++ str1 c) s'
      end
  end.

Definition split (sep s : string) : list string := split_from sep 0 EmptyString s.

(** [sep.join(parts)] *)
Fixpoint join (sep : string) (parts : list string) : string :=
  match parts with
  | [] => EmptyString
  | [p] => p
  | p :: rest => p ++ sep ++ join sep rest
  end.

(** [c.isspace()] on code points below 256: the ASCII controls 9-13 and
    28-31, the space, NEL (133) and the no-break space (160). *)
Definition isspace (c : ascii) : bool :=
  let n := nat_of_ascii c in
  ((9 <=? n) && (n <=? 13) || (28 <=? n) && (n <=? 32)
   || (n =? 133) || (n =? 160))%nat.

Fixpoint lstrip (s : string) : string :=
  match s with
  | EmptyString => EmptyString
  | String c s' => if isspace c then lstrip s' else s
  end.

Fixpoint rstrip (s : string) : string :=
  match s with
  | EmptyString => EmptyString
  | String c s' =>
      match rstrip s' with
      | EmptyString => if isspace c then EmptyString else str1 c
      | t => String c t
      end
  end.

(** [s.strip()] *)
Definition strip (s : string) : string := rstrip (lstrip s).

(** [c.lower()] on code points below 256: A-Z, and the Latin-1 capitals
    192-222 except the multiplication sign 215. *)
Definition lower_char (c : ascii) : ascii :=
  let n := nat_of_ascii c in
  if ((65 <=? n) && (n <=? 90)
      || (192 <=? n) && (n <=? 222) && negb (n =? 215))%nat
  then ascii_of_nat (n + 32) else c.

Definition lower (s : string) : string := map_chars lower_char s.

(** Truth value of a string: empty is false. *)
Definition nonempty (s : string) : bool :=
  match s with EmptyString => false | _ => true end.

(** Iterating over a text file: the lines, each with its line feed; the last
    one may lack it. *)
Fixpoint lines_from (cur : string) (s : string) : list string :=
  match s with
  | EmptyString => match cur with EmptyString => [] | _ => [cur] end
  | String c s' =>
      if Ascii.eqb c LF then (cur ++ nl) :: lines_from EmptyString s'
      else lines_from (cur ++ str1 c) s'
  end.

Definition readlines (s : string) : list string := lines_from EmptyString s.

(** [p.rfind(c)], -1 when [c] does not occur; [i] is the index of the head. *)
Fixpoint rfind_from (c : ascii) (i : Z) (s : string) : Z :=
  match s with
  | EmptyString => (-1)%Z
  | String d s' =>
      let j := rfind_from c (i + 1)%Z s' in
      if (0 <=? j)%Z then j else if Ascii.eqb d c then i else (-1)%Z
  end.

Definition rfind (c : ascii) (s : string) : Z := rfind_from c 0%Z s.

(** [s[:i]] for [0 <= i] *)
Fixpoint take (i : nat) (s : string) : string :=
  match i, s with
  | O, _ => EmptyString
  | S _, EmptyString => EmptyString
  | S k, String c s' => String c (take k s')
  end.

End PyStr.

(** ** Results and exceptions *)

Module Py.

(** The exception classes that occur.  [KeyboardInterrupt] stands for the
    classes outside [Exception], which [except Exception] does not catch. *)
Inductive exn :=
| UnicodeDecodeError
| IsADirectoryError
| IndexError
| ApiError (msg : string)
| SyntaxError
| KeyboardInterrupt.

Definition is_Exception (e : exn) : bool :=
  match e with KeyboardInterrupt => false | _ => true end.

Inductive result (A : Type) :=
| Ok (a : A)
| Raise (e : exn).
Arguments Ok {A} a.
Arguments Raise {A} e.

Definition rbind {A B} (r : result A) (k : A -> result B) : result B :=
  match r with Ok a => k a | Raise e => Raise e end.

(** Code with effects: a function of the state of the world that returns or
    raises and leaves a new state. *)
Definition M (S A : Type) : Type := S -> result A * S.

Definition ret {S A} (a : A) : M S A := fun st => (Ok a, st).

Definition bind {S A B} (m : M S A) (k : A -> M S B) : M S B :=
  fun st =>
    match m st with
    | (Ok a, st') => k a st'
    | (Raise e, st') => (Raise e, st')
    end.

Definition raise {S A} (e : exn) : M S A := fun st => (Raise e, st).

(** A [dict] counting by key, in insertion order. *)
Fixpoint dict_incr (k : string) (d : list (string * nat)) : list (string * nat) :=
  match d with
  | [] => [(k, 1)]
  | (k', n) :: d' => if k' =? k then (k', S n) :: d' else (k', n) :: dict_incr k d'
  end.

End Py.

(** ** The file tree the classifier walks *)

Module FS.

(** What reading a file in text mode gives: either the whole file decodes
    (to a text whose line ends are line feeds, as text mode delivers them),
    or it does not.  For a file that does not, [head_ok] tells whether
    [read(1024)] still succeeds, and [lossy] is the text read with
    [errors='ignore']. *)
Inductive content :=
| Text (s : string)
| Undecodable (head_ok : bool) (lossy : string).

Inductive node :=
| File (name : string) (size : Z) (c : content)
| Dir (name : string) (children : list node).

Definition node_name (n : node) : string :=
  match n with File name _ _ => name | Dir name _ => name end.

Definition children (n : node) : list node :=
  match n with File _ _ _ => [] | Dir _ cs => cs end.

(** One file as the walk hands it over: its path relative to the root, its
    name, [os.path.getsize] and its content. *)
Record entry := mkEntry {
  rel_path : string;
  base_name : string;
  getsize : Z;
  data : content
}.

(** [os.path.relpath(os.path.join(root, file), repo_path)], where [rel] is the
    directory's own path relative to the root (empty for the root). *)
Definition rel_join (rel name : string) : string :=
  match rel with
  | EmptyString => name
  | _ => rel ++ "/" ++ name
  end.

Fixpoint files_in (rel : string) (cs : list node) : list entry :=
  match cs with
  | [] => []
  | File name size c :: r => mkEntry (rel_join rel name) name size c :: files_in rel r
  | Dir _ _ :: r => files_in rel r
  end.

(** The sub-directories of one directory, in listing order, each handed to
    [enter] with its name.  The loop body runs [dirs.remove('.git')] before
    the walk goes down, so the first sub-directory of that name is left out;
    [git_removed] tells whether it has been met. *)
Section Subdirs.

Context {A : Type} (enter : string -> node -> list A).

Fixpoint subdirs (l : list node) (git_removed : bool) : list A :=
  match l with
  | [] => []
  | File _ _ _ :: rest => subdirs rest git_removed
  | (Dir name _ as sub) :: rest =>
      if (name =? ".git") && negb git_removed
      then subdirs rest true
      else (enter name sub ++ subdirs rest git_removed)%list
  end.

(** The same without leaving anything out. *)
Fixpoint all_subdirs (l : list node) : list A :=
  match l with
  | [] => []
  | File _ _ _ :: rest => all_subdirs rest
  | (Dir name _ as sub) :: rest => (enter name sub ++ all_subdirs rest)%list
  end.

End Subdirs.

(** [os.walk] top down, as the loops of the classifier and of the inferrer use
    it: in every directory the files are handed over first, then the
    sub-directories that are left are entered. *)
Fixpoint walk (rel : string) (d : node) : list entry :=
  match d with
  | File _ _ _ => []
  | Dir _ cs =>
      (files_in rel cs
       ++ subdirs (fun name sub => walk (rel_join rel name) sub) cs false)%list
  end.

(** Every file under a directory, version-control metadata included. *)
Fixpoint all_files (rel : string) (d : node) : list entry :=
  match d with
  | File _ _ _ => []
  | Dir _ cs =>
      (files_in rel cs
       ++ all_subdirs (fun name sub => all_files (rel_join rel name) sub) cs)%list
  end.

(** [os.path.exists(os.path.join(repo_path, name))] and what is there. *)
Fixpoint lookup (name : string) (cs : list node) : option node :=
  match cs with
  | [] => None
  | n :: r => if node_name n =? name then Some n else lookup name r
  end.

End FS.

(** ** The structure classifier ([src/repository_handler.py]) *)

Module RepositoryHandler.
Import PyStr Py FS.

Record file_record := mkFile {
  file_path : string;
  file_type : string;
  file_size : Z
}.

Record dependencies := mkDeps {
  python : list string;
  r : list string;
  system : list string
}.

Record repo_structure := mkStructure {
  name : string;
  path : string;
  files : list file_record;
  languages : list (string * nat);
  entry_points : list string;
  deps : dependencies
}.

(** The handler object: the fields [__init__] sets, and the tree found at
    [repo_path]. *)
Record handler := mkHandler {
  repo_name : string;
  repo_path : string;
  tree : node
}.

(** [_is_binary_file]: [True] exactly when reading the first 1024 characters
    raises [UnicodeDecodeError]. *)
Definition _is_binary_file (c : content) : bool :=
  match c with
  | Text _ => false
  | Undecodable head_ok _ => negb head_ok
  end.

(** [os.path.splitext(p)[1]]: the text from the last dot on, provided the dot
    comes after the last separator and some character other than a dot
    stands between them. *)
Definition splitext_ext (p : string) : string :=
  let sepIndex := rfind "/" p in
  let dotIndex := rfind "." p in
  if (dotIndex >? sepIndex)%Z then
    let stem := substring (Z.to_nat (sepIndex + 1)) (Z.to_nat (dotIndex - (sepIndex + 1))) p in
    if existsb (fun c => negb (Ascii.eqb c ".")) (list_ascii_of_string stem)
    then drop (Z.to_nat dotIndex) p
    else EmptyString
  else EmptyString.

Definition mem (x : string) (l : list string) : bool := existsb (String.eqb x) l.

(** [_determine_file_type] *)
Definition _determine_file_type (filename : string) : string :=
  let ext := lower (splitext_ext filename) in
  if mem ext [".py"] then "python"
  else if mem ext [".r"; ".rmd"] then "r"
  else if mem ext [".sh"; ".bash"] then "shell"
  else if mem ext [".c"; ".cpp"; ".cc"; ".h"; ".hpp"] then "c++"
  else if mem ext [".java"] then "java"
  else if mem ext [".js"; ".ts"] then "javascript"
  else if mem ext [".md"; ".markdown"] then "markdown"
  else if mem ext [".json"] then "json"
  else if mem ext [".yml"; ".yaml"] then "yaml"
  else if mem ext [".txt"] then "text"
  else if mem ext [".csv"; ".tsv"] then "data"
  else "other".

(** One round of the [for file in files] loop: the state is the [files] list
    and the [languages] dict. *)
Definition visit (st : list file_record * list (string * nat)) (e : entry)
  : list file_record * list (string * nat) :=
  if _is_binary_file (data e) || (getsize e >? 1000000)%Z then st
  else
    let file_type := _determine_file_type (base_name e) in
    ((fst st ++ [mkFile (rel_path e) file_type (getsize e)])%list,
     dict_incr file_type (snd st)).

(** [_identify_entry_points] *)
Fixpoint _identify_entry_points (files : list file_record) : list string :=
  match files with
  | [] => []
  | file :: rest =>
      let p := file_path file in
      if endswith p "main.py" || endswith p "run.py" || endswith p "app.py"
      then p :: _identify_entry_points rest
      else if startswith p "bin/" && mem (file_type file) ["python"; "r"; "shell"]
      then p :: _identify_entry_points rest
      else if endswith p "setup.py"
      then p :: _identify_entry_points rest
      else _identify_entry_points rest
  end.

(** [open(path, 'r')] followed by reading everything. *)
Definition read_text (n : node) : result string :=
  match n with
  | Dir _ _ => Raise IsADirectoryError
  | File _ _ (Text s) => Ok s
  | File _ _ (Undecodable _ _) => Raise UnicodeDecodeError
  end.

(** The loop over the lines of [requirements.txt]. *)
Fixpoint requirement_lines (lines : list string) : list string :=
  match lines with
  | [] => []
  | line :: rest =>
      let line := strip line in
      if nonempty line && negb (startswith line "#")
      then line :: requirement_lines rest
      else requirement_lines rest
  end.

(** The loop over the lines of the [Imports:] section of [DESCRIPTION]. *)
Fixpoint import_lines (lines : list string) : list string :=
  match lines with
  | [] => []
  | line :: rest =>
      let line := hd EmptyString (split "," (strip line)) in
      if nonempty line then line :: import_lines rest else import_lines rest
  end.

(** [content.split('Imports:')[1].split('\n\n')[0]] *)
Definition imports_section (content : string) : result string :=
  match split "Imports:" content with
  | _ :: after :: _ => Ok (hd EmptyString (split (nl ++ nl) after))
  | _ => Raise IndexError
  end.

(** [_identify_dependencies] *)
Definition _identify_dependencies (h : handler) : result dependencies :=
  rbind
    (match lookup "requirements.txt" (children (tree h)) with
     | Some f => rbind (read_text f) (fun text => Ok (requirement_lines (readlines text)))
     | None => Ok []
     end)
    (fun py =>
  rbind
    (match lookup "DESCRIPTION" (children (tree h)) with
     | Some f =>
         rbind (read_text f) (fun content =>
         if contains "Imports:" content
         then rbind (imports_section content) (fun section =>
              Ok (import_lines (split nl section)))
         else Ok [])
     | None => Ok []
     end)
    (fun rdeps => Ok (mkDeps py rdeps []))).

(** [analyze_repository_structure]: the walk, then entry points and
    dependencies.  An exception is logged and raised again, so the caller
    sees the same exception. *)
Definition analyze_repository_structure (h : handler) : result repo_structure :=
  let st := fold_left visit (walk EmptyString (tree h)) ([], []) in
  let entry_points := _identify_entry_points (fst st) in
  rbind (_identify_dependencies h) (fun dependencies =>
  Ok (mkStructure (repo_name h) (repo_path h) (fst st) (snd st) entry_points dependencies)).

(** What one round of the loop appends for a file it keeps, and the test
    under which it keeps it. *)
Definition record_of (e : entry) : file_record :=
  mkFile (rel_path e) (_determine_file_type (base_name e)) (getsize e).

Definition kept (e : entry) : bool :=
  negb (_is_binary_file (data e) || (getsize e >? 1000000)%Z).

(** The first character of a line that is not white space. *)
Fixpoint first_visible (line : string) : option ascii :=
  match line with
  | EmptyString => None
  | String c rest => if isspace c then first_visible rest else Some c
  end.

(** A line of a requirements file that is neither blank nor a comment: it has
    a visible character and the first one is not the comment marker. *)
Definition requirement (line : string) : bool :=
  match first_visible line with
  | Some c => negb (Ascii.eqb c "#")
  | None => false
  end.

(** The number of such lines in a text, a line ending at each line feed. *)
Definition count_requirements (text : string) : nat :=
  List.length (filter requirement (split nl text)).

(** The text of a line before its first comma. *)
Fixpoint before_comma (line : string) : string :=
  match line with
  | EmptyString => EmptyString
  | String c rest => if Ascii.eqb c "," then EmptyString else String c (before_comma rest)
  end.

(** Every comma-delimited entry of every line of a section, stripped, the
    empty ones left out: what collecting each entry would give. *)
Definition every_entry (section : string) : list string :=
  filter nonempty
    (flat_map (fun line => map strip (split "," line)) (split nl section)).

End RepositoryHandler.

(** ** JSON values, as [json.loads] returns them *)

Module Json.

Inductive value :=
| JNull
| JBool (b : bool)
| JInt (z : Z)
| JFloat (f : float)
| JStr (s : string)
| JList (items : list value)
| JDict (fields : list (string * value)).

(** Python's truth value of an object. *)
Definition truthy (v : value) : bool :=
  match v with
  | JNull => false
  | JBool b => b
  | JInt z => negb (z =? 0)%Z
  | JFloat f => negb (PrimFloat.eqb f PrimFloat.zero)
  | JStr s => PyStr.nonempty s
  | JList items => match items with [] => false | _ => true end
  | JDict fields => match fields with [] => false | _ => true end
  end.

Fixpoint assoc (k : string) (d : list (string * value)) : option value :=
  match d with
  | [] => None
  | (k', v) :: d' => if k' =? k then Some v else assoc k d'
  end.

(** [v.get(k, default)]: only a [dict] has the method; on anything else the
    attribute lookup raises, which is [None] here. *)
Definition get (v : value) (k : string) (default : value) : option value :=
  match v with
  | JDict d => Some (match assoc k d with Some x => x | None => default end)
  | _ => None
  end.

Fixpoint assoc_set (k : string) (x : value) (d : list (string * value))
  : list (string * value) :=
  match d with
  | [] => [(k, x)]
  | (k', v) :: d' => if k' =? k then (k', x) :: d' else (k', v) :: assoc_set k x d'
  end.

(** [v[k] = x] with a string key: succeeds on a [dict] only. *)
Definition setitem (v : value) (k : string) (x : value) : option value :=
  match v with
  | JDict d => Some (JDict (assoc_set k x d))
  | _ => None
  end.

End Json.

(** ** Effects: the model endpoint, sleeping and the log *)

Module Effects.
Import Py Json.

(** The four prompt templates of the workflow analyzer, each with the values
    its f-string interpolates. *)
Inductive prompt :=
| EntryPointPrompt (path content : string)
| WorkflowPrompt (path : string) (description : value) (content : string)
| ScalingPrompt (workflows : list value)
| BottleneckPrompt (workflows : list value).

Inductive level := DEBUG | INFO | WARNING | ERROR.

(** The log lines, by their format string and arguments. *)
Inductive message :=
| QueryingLLM (p : prompt)
| ErrorQueryingLLM (attempt max_retries : nat) (e : exn)
| RetryingIn (seconds : Z)
| MaximumRetryAttemptsReached
| AnalyzingWorkflowFor (repo_path : string)
| WorkflowAnalysisComplete (workflows : nat)
| ErrorAnalyzingWorkflow (e : exn)
| CouldNotParseEntryPoint (path : string)
| CouldNotParseWorkflow (path : string)
| CouldNotParseScaling
| CouldNotParseBottlenecks.

Inductive event :=
| Attempt (p : prompt)
| Sleep (seconds : Z)
| Log (l : level) (m : message).

(** The state is the history of events, oldest first. *)
Definition state := list event.

(** What one call of [client.chat.completions.create] followed by
    [response.choices[0].message.content] gives: the content (which the API
    allows to be [None]) or an exception. *)
Inductive outcome :=
| Completion (content : option string)
| Failure (e : exn).

Definition M (A : Type) : Type := Py.M state A.

Definition emit (e : event) : M unit := fun st => (Ok tt, (st ++ [e])%list).

Definition log (l : level) (m : message) : M unit := emit (Log l m).

End Effects.

Declare Scope monad_scope.
Delimit Scope monad_scope with monad.
Notation "x <- m ;; k" := (Py.bind m (fun x => k))
  (at level 61, m at next level, right associativity) : monad_scope.
Notation "m ;; k" := (Py.bind m (fun _ => k))
  (at level 61, right associativity) : monad_scope.

(** ** The model client ([src/llm_agent.py]) *)

Module LLMAgent.
Import Py Json Effects.
Local Open Scope monad_scope.

Section Client.

(** The endpoint: its answer may depend on everything that happened so far. *)
Variable endpoint : state -> prompt -> outcome.

(** The fields [__init__] sets. *)
Record agent := mkAgent {
  max_retries : nat;
  retry_delay : Z
}.

Definition new_agent : agent := mkAgent 3 5.

(** The body of [for attempt in range(self.max_retries)], over the attempts
    still to come.  When the range is used up without a return the method
    returns [None]. *)
Fixpoint attempts (self : agent) (p : prompt) (range : list nat) : M (option string) :=
  match range with
  | [] => ret None
  | attempt :: rest =>
      fun st =>
        let called := (st ++ [Attempt p])%list in
        match endpoint st p with
        | Completion content => (Ok content, called)
        | Failure e =>
            if is_Exception e then
              (log WARNING (ErrorQueryingLLM (attempt + 1) (max_retries self) e) ;;
               if (attempt <? max_retries self - 1)%nat then
                 log INFO (RetryingIn (retry_delay self)) ;;
                 emit (Sleep (retry_delay self)) ;;
                 attempts self p rest
               else
                 log ERROR MaximumRetryAttemptsReached ;;
                 raise e) called
            else (Raise e, called)
        end
  end.

(** [query] *)
Definition query (self : agent) (p : prompt) : M (option string) :=
  log DEBUG (QueryingLLM p) ;;
  attempts self p (seq 0 (max_retries self)).

(** Reading a history: the outcome the endpoint gave at each attempt among
    the events [new] that follow the history [st]. *)
Fixpoint outcomes (st : state) (new : list event) : list outcome :=
  match new with
  | [] => []
  | Attempt p :: rest => endpoint st p :: outcomes (st ++ [Attempt p])%list rest
  | ev :: rest => outcomes (st ++ [ev])%list rest
  end.

End Client.

(** The attempts and the waits of a history, the log lines left out. *)
Definition is_call_or_sleep (ev : event) : bool :=
  match ev with
  | Attempt _ | Sleep _ => true
  | Log _ _ => false
  end.

Definition calls_and_sleeps (tr : list event) : list event :=
  filter is_call_or_sleep tr.

Definition is_attempt (ev : event) : bool :=
  match ev with Attempt _ => true | _ => false end.

(** The number of calls of the endpoint in a history. *)
Definition count_attempts (tr : list event) : nat :=
  List.length (filter is_attempt tr).

(** [k] attempts with a wait of [delay] between consecutive ones. *)
Fixpoint alternating (p : prompt) (delay : Z) (k : nat) : list event :=
  match k with
  | 0 => []
  | 1 => [Attempt p]
  | S k' => Attempt p :: Sleep delay :: alternating p delay k'
  end.

Definition failed (o : outcome) : bool :=
  match o with Failure _ => true | Completion _ => false end.

(** [query] writes one debug line when it is entered, and nothing else
    writes that line: the calls of the Model Client in a history are counted
    by it. *)
Definition is_query (ev : event) : bool :=
  match ev with Log DEBUG (QueryingLLM _) => true | _ => false end.

Definition count_queries (tr : list event) : nat :=
  List.length (filter is_query tr).

End LLMAgent.

(** ** The workflow inferrer ([workflow_analyzer.py]) *)

Module WorkflowAnalyzer.
Import PyStr Py FS Json Effects LLMAgent.
Local Open Scope monad_scope.

Record analysis_file := mkAnalysisFile {
  af_path : string;
  af_content : string
}.

Record entry_point := mkEntryPoint {
  ep_path : string;
  main_function : value;
  accepts_arguments : value;
  description : value;
  expected_inputs : value;
  expected_outputs : value
}.

Record workflow_analysis := mkAnalysis {
  entry_points : list entry_point;
  workflows : list value;
  scaling_limitations : value;
  bottlenecks : value
}.

(** [_is_binary_file], the same test as the classifier's. *)
Definition _is_binary_file (c : content) : bool :=
  match c with
  | Text _ => false
  | Undecodable head_ok _ => negb head_ok
  end.

(** [_is_code_file] *)
Definition _is_code_file (filename : string) : bool :=
  RepositoryHandler.mem (lower (RepositoryHandler.splitext_ext filename))
    [".py"; ".r"; ".rmd"; ".sh"; ".bash"; ".c"; ".cpp"; ".h"; ".hpp"; ".java"; ".js"; ".ts"].

(** Reading with [errors='ignore'] never fails to decode. *)
Definition read_ignore (c : content) : string :=
  match c with
  | Text s => s
  | Undecodable _ lossy => lossy
  end.

(** [_get_analysis_files], over the walk of the tree. *)
Fixpoint _get_analysis_files (walked : list entry) : list analysis_file :=
  match walked with
  | [] => []
  | e :: rest =>
      if _is_binary_file (data e) || (getsize e >? 1000000)%Z
      then _get_analysis_files rest
      else if _is_code_file (base_name e)
      then mkAnalysisFile (rel_path e) (read_ignore (data e)) :: _get_analysis_files rest
      else _get_analysis_files rest
  end.

(** The looser name test of the inferrer. *)
Definition looks_like_entry_point (file : analysis_file) : bool :=
  let p := lower (af_path file) in
  contains "main" p || contains "run" p || contains "app" p.

(** The candidates: the files that pass the name test or, when none does,
    all analysis files. *)
Definition potential_entry_points (analysis_files : list analysis_file)
  : list analysis_file :=
  match filter looks_like_entry_point analysis_files with
  | [] => analysis_files
  | found => found
  end.

Section Analyzer.

Variable endpoint : state -> prompt -> outcome.

(** [json.loads], from the standard library: [None] when it raises. *)
Variable json_loads : string -> option value.

(** [json.loads(response)] on what [query] returned; a response that is
    [None] makes it raise as well. *)
Definition loads (response : option string) : option value :=
  match response with
  | Some text => json_loads text
  | None => None
  end.

Definition llm_agent : agent := new_agent.

(** What the [try] block of [_analyze_entry_points] computes from a parsed
    reply: [None] when it raises, otherwise the entries to append. *)
Definition entry_point_of (file : analysis_file) (reply : value)
  : option (list entry_point) :=
  match get reply "is_entry_point" (JBool false) with
  | None => None
  | Some flag =>
      if truthy flag then
        match get reply "main_function" (JStr EmptyString),
              get reply "accepts_arguments" (JBool false),
              get reply "description" (JStr EmptyString),
              get reply "expected_inputs" (JList []),
              get reply "expected_outputs" (JList []) with
        | Some mf, Some aa, Some d, Some ei, Some eo =>
            Some [mkEntryPoint (af_path file) mf aa d ei eo]
        | _, _, _, _, _ => None
        end
      else Some []
  end.

(** The loop [for file in potential_entry_points], with the list built so
    far. *)
Fixpoint entry_points_loop (candidates : list analysis_file)
    (entry_points : list entry_point) : M (list entry_point) :=
  match candidates with
  | [] => ret entry_points
  | file :: rest =>
      response <- query endpoint llm_agent (EntryPointPrompt (af_path file) (af_content file)) ;;
      match loads response with
      | Some reply =>
          match entry_point_of file reply with
          | Some found => entry_points_loop rest (entry_points ++ found)%list
          | None =>
              log WARNING (CouldNotParseEntryPoint (af_path file)) ;;
              entry_points_loop rest entry_points
          end
      | None =>
          log WARNING (CouldNotParseEntryPoint (af_path file)) ;;
          entry_points_loop rest entry_points
      end
  end.

(** [_analyze_entry_points] *)
Definition _analyze_entry_points (analysis_files : list analysis_file)
  : M (list entry_point) :=
  entry_points_loop (potential_entry_points analysis_files) [].

(** [next((f for f in analysis_files if f['path'] == path), None)] *)
Definition find_file (analysis_files : list analysis_file) (path : string)
  : option analysis_file :=
  find (fun f => af_path f =? path) analysis_files.

(** The loop of [_analyze_workflows]. *)
Fixpoint workflows_loop (analysis_files : list analysis_file)
    (entry_points : list entry_point) (workflows : list value) : M (list value) :=
  match entry_points with
  | [] => ret workflows
  | entry_point :: rest =>
      match find_file analysis_files (ep_path entry_point) with
      | None => workflows_loop analysis_files rest workflows
      | Some entry_file =>
          response <- query endpoint llm_agent
                        (WorkflowPrompt (af_path entry_file) (description entry_point)
                                        (af_content entry_file)) ;;
          match loads response with
          | Some reply =>
              match setitem reply "entry_point" (JStr (ep_path entry_point)) with
              | Some workflow =>
                  workflows_loop analysis_files rest (workflows ++ [workflow])%list
              | None =>
                  log WARNING (CouldNotParseWorkflow (ep_path entry_point)) ;;
                  workflows_loop analysis_files rest workflows
              end
          | None =>
              log WARNING (CouldNotParseWorkflow (ep_path entry_point)) ;;
              workflows_loop analysis_files rest workflows
          end
      end
  end.

(** [_analyze_workflows] *)
Definition _analyze_workflows (analysis_files : list analysis_file)
    (entry_points : list entry_point) : M (list value) :=
  workflows_loop analysis_files entry_points [].

(** [_analyze_scaling_limitations] *)
Definition _analyze_scaling_limitations (workflows : list value) : M value :=
  match workflows with
  | [] => ret (JDict [])
  | _ =>
      response <- query endpoint llm_agent (ScalingPrompt workflows) ;;
      match loads response with
      | Some scaling_limitations => ret scaling_limitations
      | None => log WARNING CouldNotParseScaling ;; ret (JDict [])
      end
  end.

(** [_analyze_bottlenecks] *)
Definition _analyze_bottlenecks (workflows : list value) : M value :=
  match workflows with
  | [] => ret (JList [])
  | _ =>
      response <- query endpoint llm_agent (BottleneckPrompt workflows) ;;
      match loads response with
      | Some bottlenecks => ret bottlenecks
      | None => log WARNING CouldNotParseBottlenecks ;; ret (JList [])
      end
  end.

(** [try: ... except Exception as e: logger.error(...); raise] *)
Definition logging_errors {A} (body : M A) : M A :=
  fun st =>
    match body st with
    | (Ok a, st') => (Ok a, st')
    | (Raise e, st') =>
        if is_Exception e
        then (Raise e, (st' ++ [Log ERROR (ErrorAnalyzingWorkflow e)])%list)
        else (Raise e, st')
    end.

(** [analyze_workflow], for the analyzer built on [repo_path] with the tree
    found there. *)
Definition analyze_workflow (repo_path : string) (tree : node) : M workflow_analysis :=
  log INFO (AnalyzingWorkflowFor repo_path) ;;
  logging_errors (
    let analysis_files := _get_analysis_files (walk EmptyString tree) in
    entry_points <- _analyze_entry_points analysis_files ;;
    workflows <- _analyze_workflows analysis_files entry_points ;;
    scaling_limitations <- _analyze_scaling_limitations workflows ;;
    bottlenecks <- _analyze_bottlenecks workflows ;;
    log INFO (WorkflowAnalysisComplete (List.length workflows)) ;;
    ret (mkAnalysis entry_points workflows scaling_limitations bottlenecks)).

End Analyzer.

(** The number of Model Client calls of a run as the specification states
    it: two per accepted entry point and two aggregate calls. *)
Definition claimed_calls (res : workflow_analysis) : nat :=
  2 * List.length (entry_points res) + 2.

(** The aggregate calls of a run: both are made when some workflow was
    parsed, none otherwise. *)
Definition aggregate_calls (res : workflow_analysis) : nat :=
  match workflows res with
  | [] => 0
  | _ => 2
  end.

End WorkflowAnalyzer.

(** ** The command line program ([main.py]) *)

Module Main.
Import PyStr Py.

(** The parsed command line. *)
Record args := mkArgs {
  repo_url : string;
  output_dir : string;
  api_key : option string;
  model : string;
  temp : float;
  skip_clone : bool
}.

(** Truth value of an optional string: [None] and the empty string are
    false. *)
Definition supplied (v : option string) : bool :=
  match v with
  | Some s => nonempty s
  | None => false
  end.

(** [a or b] *)
Definition or_else (a b : option string) : option string :=
  if supplied a then a else b.

Inductive log_line :=
| NoApiKeyProvided
| DocumentationSaved (output_dir : string)
| ErrorInDocumentationProcess (e : exn).

Section Program.

(** Everything outside the program: the file system, the network, the log. *)
Variable world : Type.
Variable logger_error : log_line -> world -> world.
Variable logger_info : log_line -> world -> world.

(** The components [main] drives.  Each takes what its constructor and its
    method take and may change the world or raise. *)
Variables repo_structure workflow_analysis output_analysis documentation : Type.
Variable clone_repository :
  string -> bool -> world -> result string * world.
Variable analyze_repository_structure :
  string -> bool -> world -> result repo_structure * world.
Variable analyze_workflow :
  string -> string -> string -> float -> world -> result workflow_analysis * world.
Variable analyze_outputs :
  string -> string -> string -> float -> world -> result output_analysis * world.
Variable generate_documentation :
  string -> repo_structure -> workflow_analysis -> output_analysis ->
  string -> string -> float -> world -> result documentation * world.
Variable publish_documentation :
  string -> string -> documentation -> world -> result unit * world.

Definition W (A : Type) : Type := M world A.

(** The [try] block of [main]. *)
Definition pipeline (a : args) (key : string) : W unit :=
  bind (clone_repository (repo_url a) (skip_clone a)) (fun repo_path =>
  bind (analyze_repository_structure (repo_url a) (skip_clone a)) (fun structure =>
  bind (analyze_workflow repo_path key (model a) (temp a)) (fun workflow =>
  bind (analyze_outputs repo_path key (model a) (temp a)) (fun outputs =>
  bind (generate_documentation repo_path structure workflow outputs
             key (model a) (temp a)) (fun docs =>
  bind (publish_documentation (output_dir a) repo_path docs) (fun _ =>
  fun w => (Ok tt, logger_info (DocumentationSaved (output_dir a)) w))))))).

(** [main], after [parse_arguments] returned [a], with [getenv] the value of
    [OPENAI_API_KEY] in the environment. *)
Definition main (a : args) (getenv : option string) : W unit :=
  fun w =>
    let key := or_else (api_key a) getenv in
    match key with
    | Some k =>
        if nonempty k then
          match pipeline a k w with
          | (Ok _, w') => (Ok tt, w')
          | (Raise e, w') =>
              if is_Exception e
              then (Ok tt, logger_error (ErrorInDocumentationProcess e) w')
              else (Raise e, w')
          end
        else (Ok tt, logger_error NoApiKeyProvided w)
    | None => (Ok tt, logger_error NoApiKeyProvided w)
    end.

End Program.

End Main.

(** ** Path operations of [os.path] (POSIX) *)

Module PyPath.
Import PyStr.

(** [os.path.join(a, b)]; with more arguments it is applied from the left. *)
Definition join (a b : string) : string :=
  if startswith b "/" then b
  else if negb (nonempty a) || endswith a "/" then a ++ b
  else a ++ "/" ++ b.

(** [os.path.basename(p)] *)
Definition basename (p : string) : string :=
  drop (Z.to_nat (rfind "/" p + 1)) p.

Definition all_slashes (s : string) : bool :=
  forallb (fun c => Ascii.eqb c "/") (list_ascii_of_string s).

(** [s.rstrip('/')] *)
Fixpoint rstrip_slashes (s : string) : string :=
  match s with
  | EmptyString => EmptyString
  | String c s' =>
      match rstrip_slashes s' with
      | EmptyString => if Ascii.eqb c "/" then EmptyString else str1 c
      | t => String c t
      end
  end.

(** [os.path.dirname(p)] *)
Definition dirname (p : string) : string :=
  let head := take (Z.to_nat (rfind "/" p + 1)) p in
  if nonempty head && negb (all_slashes head) then rstrip_slashes head else head.

End PyPath.

(** ** A check the Python compiler makes before a module runs *)

Module PySyntax.
Import PyStr.

Inductive mode :=
| Code
| Comment
| Quoted (q : ascii) (triple : bool).

Definition opening (c : ascii) : bool :=
  Ascii.eqb c "(" || Ascii.eqb c "[" || Ascii.eqb c "{".

Definition closing (c : ascii) : bool :=
  Ascii.eqb c ")" || Ascii.eqb c "]" || Ascii.eqb c "}".

Definition is_quote (c : ascii) : bool :=
  Ascii.eqb c dquote || Ascii.eqb c "'".

(** The number of brackets left open at the end of a text, counted as the
    tokenizer does: a bracket inside a string literal or a comment does not
    count, a backslash in a string literal hides the next character, and
    three quotes open a literal that three quotes close.  [skip] characters
    are passed over first.  [None]: a bracket is closed that was not
    opened. *)
Fixpoint depth_from (m : mode) (skip depth : nat) (s : string) : option nat :=
  match s with
  | EmptyString => Some depth
  | String c rest =>
      match skip with
      | S k => depth_from m k depth rest
      | O =>
          match m with
          | Code =>
              if Ascii.eqb c "#" then depth_from Comment 0 depth rest
              else if is_quote c then
                if prefix (String c (str1 c)) rest
                then depth_from (Quoted c true) 2 depth rest
                else depth_from (Quoted c false) 0 depth rest
              else if opening c then depth_from Code 0 (S depth) rest
              else if closing c then
                match depth with
                | O => None
                | S d => depth_from Code 0 d rest
                end
              else depth_from Code 0 depth rest
          | Comment =>
              if Ascii.eqb c LF then depth_from Code 0 depth rest
              else depth_from Comment 0 depth rest
          | Quoted q triple =>
              if Ascii.eqb c backslash then depth_from m 1 depth rest
              else if Ascii.eqb c q then
                if triple then
                  if prefix (String q (str1 q)) rest
                  then depth_from Code 2 depth rest
                  else depth_from m 0 depth rest
                else depth_from Code 0 depth rest
              else depth_from m 0 depth rest
          end
      end
  end.

Definition bracket_depth (lines : list string) : option nat :=
  depth_from Code 0 0 (join nl lines).

(** A file compiles only if no bracket is left open where it ends; a file
    that fails this raises [SyntaxError] when the module is imported. *)
Definition brackets_balanced (lines : list string) : bool :=
  match bracket_depth lines with
  | Some O => true
  | _ => false
  end.

End PySyntax.

(** ** The publisher ([documentation_publisher.py]) *)

Module Publisher.
Import PyStr Py.
Local Open Scope monad_scope.

(** [_safe_filename]: four chained [replace] calls, in the source's order. *)
Definition _safe_filename (filename : string) : string :=
  replace ":" "_" (replace (str1 backslash) "_" (replace "/" "_" (replace " " "_" filename))).

(** The sanitizer as the specification words it: space, slash, backslash and
    colon become an underscore, every other character stays. *)
Definition unsafe_char (c : ascii) : bool :=
  Ascii.eqb c " " || Ascii.eqb c "/" || Ascii.eqb c backslash || Ascii.eqb c ":".

Definition sanitize_char (c : ascii) : ascii :=
  if unsafe_char c then "_"%char else c.

Definition sanitize_spec (s : string) : string := map_chars sanitize_char s.

(** The documentation bundle; a map is the list of its items in insertion
    order. *)
Record documentation := mkDocumentation {
  main_readme : string;
  installation_guide : string;
  scaling_guide : string;
  troubleshooting_guide : string;
  workflow_docs : list (string * string);
  output_docs : list (string * string);
  code_docs : list (string * string)
}.

(** The fields [__init__] sets. *)
Record publisher := mkPublisher {
  output_dir : string;
  repo_path : string;
  docs_dir : string;
  code_docs_dir : string;
  workflow_docs_dir : string;
  output_docs_dir : string
}.

Definition new_publisher (output_dir repo_path : string) : publisher :=
  let docs_dir := PyPath.join output_dir "docs" in
  mkPublisher output_dir repo_path docs_dir
    (PyPath.join docs_dir "code")
    (PyPath.join docs_dir "workflows")
    (PyPath.join docs_dir "outputs").

Inductive log_line :=
| PublishingTo (dir : string)
| PublishedTo (dir : string)
| ErrorPublishing (e : exn).

(** What the publisher does to the world, in order. *)
Inductive op :=
| MakeDirs (path : string)
| Write (path content : string)
| Copy (src dst : string)
| Info (l : log_line)
| Error (l : log_line).

Definition history := list op.

Definition is_copy (o : op) : bool :=
  match o with Copy _ _ => true | _ => false end.

(** [_create_list_links], reading lines 152 and 153 of the file as the one
    statement of the loop body they were meant to be: line 152 is cut off
    after the opening parenthesis and repeats line 153, which has lost its
    indentation. *)
Definition _create_list_links (items : list (string * string)) (prefix : string) : string :=
  join nl
    (map (fun item =>
            let name := fst item in
            let safe_name := _safe_filename name in
            "- [" ++ name ++ "](" ++ prefix ++ "/" ++ safe_name ++ ".md)")
         items).

(** [directories[dir_name].append(path)], making the entry when it is
    missing. *)
Fixpoint group_append (dir_name path : string) (directories : list (string * list string))
  : list (string * list string) :=
  match directories with
  | [] => [(dir_name, [path])]
  | (d, files) :: rest =>
      if d =? dir_name then (d, files ++ [path])%list :: rest
      else (d, files) :: group_append dir_name path rest
  end.

Definition group_by_directory (code_docs : list (string * string))
  : list (string * list string) :=
  fold_left
    (fun directories item =>
       let path := fst item in
       let dir_name :=
         if nonempty (PyPath.dirname path) then PyPath.dirname path else "root" in
       group_append dir_name path directories)
    code_docs [].

(** [_create_code_list] *)
Definition _create_code_list (code_docs : list (string * string)) : string :=
  join nl
    (flat_map
       (fun group =>
          let dir_name := fst group in
          ((if dir_name =? "root" then "### Root" else ("### " ++ dir_name)%string)
           :: map (fun path =>
                     let file_name := PyPath.basename path in
                     let safe_name := _safe_filename file_name in
                     let relative_path :=
                       PyPath.join "code"
                         (replace file_name (safe_name ++ ".md")%string path) in
                     ("- [" ++ file_name ++ "](" ++ relative_path ++ ")")%string)
                  (snd group))
          ++ [EmptyString])%list
       (group_by_directory code_docs)).

(** The texts of the three index pages. *)
Definition main_index (documentation : documentation) : string :=
  "# Documentation Index" ++ nl ++ nl
  ++ "## Installation and Setup" ++ nl
  ++ "- [Installation Guide](installation.md)" ++ nl ++ nl
  ++ "## Workflows" ++ nl
  ++ _create_list_links (workflow_docs documentation) "workflows" ++ nl ++ nl
  ++ "## Output Files" ++ nl
  ++ _create_list_links (output_docs documentation) "outputs" ++ nl ++ nl
  ++ "## Advanced Topics" ++ nl
  ++ "- [Scaling Guide](scaling.md)" ++ nl
  ++ "- [Troubleshooting Guide](troubleshooting.md)" ++ nl ++ nl
  ++ "## Code Documentation" ++ nl
  ++ _create_code_list (code_docs documentation) ++ nl.

Definition workflow_index (documentation : documentation) : string :=
  "# Workflow Documentation" ++ nl ++ nl
  ++ _create_list_links (workflow_docs documentation) EmptyString ++ nl.

Definition output_index (documentation : documentation) : string :=
  "# Output Files Documentation" ++ nl ++ nl
  ++ _create_list_links (output_docs documentation) EmptyString ++ nl.

Section Disk.

(** The file system: whether an operation raises, given what happened
    before; whether a path exists; what a walk of a directory lists (each
    directory with its files); and [os.path.relpath]. *)
Variable fails : history -> op -> option exn.
Variable path_exists : history -> string -> bool.
Variable os_walk : history -> string -> list (string * list string).
Variable relpath : string -> string -> string.

Definition perform (o : op) : M history unit :=
  fun h =>
    match fails h o with
    | Some e => (Raise e, (h ++ [o])%list)
    | None => (Ok tt, (h ++ [o])%list)
    end.

Definition note (o : op) : M history unit := fun h => (Ok tt, (h ++ [o])%list).

(** [os.makedirs(path, exist_ok=True)] and [with open(path, 'w') as f:
    f.write(content)]. *)
Definition makedirs (path : string) : M history unit := perform (MakeDirs path).
Definition write (path content : string) : M history unit := perform (Write path content).
Definition copy (src dst : string) : M history unit := perform (Copy src dst).

(** A [for] loop over a list. *)
Fixpoint for_each {A} (body : A -> M history unit) (items : list A) : M history unit :=
  match items with
  | [] => ret tt
  | x :: rest => body x ;; for_each body rest
  end.

(** [_create_index_files] *)
Definition _create_index_files (self : publisher) (documentation : documentation)
  : M history unit :=
  write (PyPath.join (docs_dir self) "index.md") (main_index documentation) ;;
  write (PyPath.join (workflow_docs_dir self) "index.md") (workflow_index documentation) ;;
  write (PyPath.join (output_docs_dir self) "index.md") (output_index documentation).

(** The branch under [if os.path.exists(self.repo_path)]. *)
Definition mirror (self : publisher) : M history unit :=
  let repo_docs_dir := PyPath.join (repo_path self) "docs" in
  makedirs repo_docs_dir ;;
  copy (PyPath.join (output_dir self) "README.md")
       (PyPath.join (repo_path self) "README.md") ;;
  (fun h =>
     for_each
       (fun listing =>
          for_each
            (fun file =>
               let src_path := PyPath.join (fst listing) file in
               let rel_path := relpath src_path (docs_dir self) in
               let dst_path := PyPath.join repo_docs_dir rel_path in
               makedirs (PyPath.dirname dst_path) ;;
               copy src_path dst_path)
            (snd listing))
       (os_walk h (docs_dir self)) h).

(** [try: ... except Exception as e: logger.error(...); raise] *)
Definition logging_errors {A} (body : M history A) : M history A :=
  fun h =>
    match body h with
    | (Ok a, h') => (Ok a, h')
    | (Raise e, h') =>
        if is_Exception e
        then (Raise e, (h' ++ [Error (ErrorPublishing e)])%list)
        else (Raise e, h')
    end.

(** [publish_documentation] *)
Definition publish_documentation (self : publisher) (documentation : documentation)
  : M history unit :=
  note (Info (PublishingTo (output_dir self))) ;;
  logging_errors (
    makedirs (output_dir self) ;;
    makedirs (docs_dir self) ;;
    makedirs (code_docs_dir self) ;;
    makedirs (workflow_docs_dir self) ;;
    makedirs (output_docs_dir self) ;;
    write (PyPath.join (output_dir self) "README.md") (main_readme documentation) ;;
    write (PyPath.join (docs_dir self) "installation.md") (installation_guide documentation) ;;
    write (PyPath.join (docs_dir self) "scaling.md") (scaling_guide documentation) ;;
    write (PyPath.join (docs_dir self) "troubleshooting.md")
          (troubleshooting_guide documentation) ;;
    for_each
      (fun item =>
         let safe_name := _safe_filename (fst item) in
         write (PyPath.join (workflow_docs_dir self) (safe_name ++ ".md")) (snd item))
      (workflow_docs documentation) ;;
    for_each
      (fun item =>
         let safe_name := _safe_filename (fst item) in
         write (PyPath.join (output_docs_dir self) (safe_name ++ ".md")) (snd item))
      (output_docs documentation) ;;
    for_each
      (fun item =>
         let file_path := fst item in
         let dir_path := PyPath.dirname file_path in
         (if nonempty dir_path
          then makedirs (PyPath.join (code_docs_dir self) dir_path)
          else ret tt) ;;
         let safe_name := _safe_filename (PyPath.basename file_path) in
         write (PyPath.join (PyPath.join (code_docs_dir self) dir_path) (safe_name ++ ".md"))
               (snd item))
      (code_docs documentation) ;;
    _create_index_files self documentation ;;
    (fun h =>
       if path_exists h (repo_path self) then mirror self h else (Ok tt, h)) ;;
    note (Info (PublishedTo (output_dir self)))).

End Disk.

(** The file as it is shipped, from line 148 to its end (the text before
    leaves no bracket open); [dq] is the double quote. *)
Definition dq : string := str1 dquote.

Definition shipped_source : list string :=
  [(* 148 *) "    def _create_list_links(self, items, prefix):";
   (* 149 *) "        " ++ dq ++ dq ++ dq ++ "Create a list of links from items" ++ dq ++ dq ++ dq;
   (* 150 *) "        links = []";
   (* 151 *) "        for name in items:";
   (* 152 *) "            safe_name = self._safe_filename(";
   (* 153 *) "safe_name = self._safe_filename(name)";
   (* 154 *) "            links.append(f" ++ dq ++ "- [{name}]({prefix}/{safe_name}.md)" ++ dq ++ ")";
   (* 155 *) "        ";
   (* 156 *) "        return " ++ dq ++ "\n" ++ dq ++ ".join(links)";
   (* 157 *) "    ";
   (* 158 *) "    def _create_code_list(self, code_docs):";
   (* 159 *) "        " ++ dq ++ dq ++ dq ++ "Create a list of links for code documentation" ++ dq ++ dq ++ dq;
   (* 160 *) "        links = []";
   (* 161 *) "        ";
   (* 162 *) "        # Group by directory";
   (* 163 *) "        directories = {}";
   (* 164 *) "        for path in code_docs:";
   (* 165 *) "            dir_name = os.path.dirname(path) or " ++ dq ++ "root" ++ dq;
   (* 166 *) "            if dir_name not in directories:";
   (* 167 *) "                directories[dir_name] = []";
   (* 168 *) "            directories[dir_name].append(path)";
   (* 169 *) "        ";
   (* 170 *) "        # Create links";
   (* 171 *) "        for dir_name, files in directories.items():";
   (* 172 *) "            if dir_name == " ++ dq ++ "root" ++ dq ++ ":";
   (* 173 *) "                links.append(f" ++ dq ++ "### Root" ++ dq ++ ")";
   (* 174 *) "            else:";
   (* 175 *) "                links.append(f" ++ dq ++ "### {dir_name}" ++ dq ++ ")";
   (* 176 *) "            ";
   (* 177 *) "            for path in files:";
   (* 178 *) "                file_name = os.path.basename(path)";
   (* 179 *) "                safe_name = self._safe_filename(file_name)";
   (* 180 *) "                relative_path = os.path.join(" ++ dq ++ "code" ++ dq ++ ", path.replace(file_name, safe_name + " ++ dq ++ ".md" ++ dq ++ "))";
   (* 181 *) "                links.append(f" ++ dq ++ "- [{file_name}]({relative_path})" ++ dq ++ ")";
   (* 182 *) "            ";
   (* 183 *) "            links.append(" ++ dq ++ dq ++ ")";
   (* 184 *) "        ";
   (* 185 *) "        return " ++ dq ++ "\n" ++ dq ++ ".join(links)";
   (* 186 *) EmptyString].

(** The same lines without line 152. *)
Definition without_line_152 : list string :=
  (firstn 4 shipped_source ++ skipn 5 shipped_source)%list.

Section Shipped.

Variable fails : history -> op -> option exn.
Variable path_exists : history -> string -> bool.
Variable os_walk : history -> string -> list (string * list string).
Variable relpath : string -> string -> string.

(** Calling [publish_documentation] of the module as shipped: the module is
    compiled when it is imported, and the method can only run if that
    succeeds. *)
Definition shipped_publish_documentation (self : publisher) (documentation : documentation)
  : M history unit :=
  if PySyntax.brackets_balanced shipped_source
  then publish_documentation fails path_exists os_walk relpath self documentation
  else raise SyntaxError.

End Shipped.

(** The output tree the specification describes: the directory skeleton, the
    fixed-name documents, one document per entry of each map, and the three
    index pages. *)
Definition output_tree (self : publisher) (documentation : documentation) : list op :=
  ([MakeDirs (output_dir self); MakeDirs (docs_dir self); MakeDirs (code_docs_dir self);
    MakeDirs (workflow_docs_dir self); MakeDirs (output_docs_dir self);
    Write (PyPath.join (output_dir self) "README.md") (main_readme documentation);
    Write (PyPath.join (docs_dir self) "installation.md") (installation_guide documentation);
    Write (PyPath.join (docs_dir self) "scaling.md") (scaling_guide documentation);
    Write (PyPath.join (docs_dir self) "troubleshooting.md")
          (troubleshooting_guide documentation)]
   ++ flat_map
        (fun item =>
           [Write (PyPath.join (workflow_docs_dir self)
                     (_safe_filename (fst item) ++ ".md")%string) (snd item)])
        (workflow_docs documentation)
   ++ flat_map
        (fun item =>
           [Write (PyPath.join (output_docs_dir self)
                     (_safe_filename (fst item) ++ ".md")%string) (snd item)])
        (output_docs documentation)
   ++ flat_map
        (fun item =>
           (if nonempty (PyPath.dirname (fst item))
            then [MakeDirs (PyPath.join (code_docs_dir self) (PyPath.dirname (fst item)))]
            else [])
           ++ [Write (PyPath.join
                        (PyPath.join (code_docs_dir self) (PyPath.dirname (fst item)))
                        (_safe_filename (PyPath.basename (fst item)) ++ ".md")%string)
                     (snd item)])
        (code_docs documentation)
   ++ [Write (PyPath.join (docs_dir self) "index.md") (main_index documentation);
       Write (PyPath.join (workflow_docs_dir self) "index.md") (workflow_index documentation);
       Write (PyPath.join (output_docs_dir self) "index.md") (output_index documentation)])%list.

(** A computation that returns, having added [ops] to the history. *)
Definition runs (m : M history unit) (ops : list op) : Prop :=
  forall h, m h = (Ok tt, (h ++ ops)%list).

End Publisher.

(** ** Concrete repositories and runs, used to exercise the statements *)

Module Examples.
Import PyStr Py FS RepositoryHandler.

(** A script, an image that does not decode, a data dump over the size
    ceiling, and version-control metadata. *)
Definition mixed_tree : node :=
  Dir "demo"
    [File "main.py" 120 (Text "print(1)");
     File "logo.png" 2048 (Undecodable false EmptyString);
     File "dump.csv" 1000001 (Text "a,b");
     Dir ".git" [File "HEAD" 23 (Text "ref: refs/heads/main")]].

Definition mixed_handler : handler := mkHandler "demo" "/work/repos/demo" mixed_tree.

Definition logo_entry : entry :=
  mkEntry "logo.png" "logo.png" 2048 (Undecodable false EmptyString).

Definition dump_entry : entry := mkEntry "dump.csv" "dump.csv" 1000001 (Text "a,b").

(** Scenario A: [main.py] and a requirements file with two requirements, a
    comment and a blank line. *)
Definition two_requirements : string :=
  "numpy" ++ nl ++ "  # pinned below" ++ nl ++ nl ++ "pandas>=1.0" ++ nl.

Definition scenario_A_children : list node :=
  [File "requirements.txt" 40 (Text two_requirements);
   Dir ".git" [File "HEAD" 23 (Text "ref: refs/heads/main")];
   File "main.py" 9 (Text "print(1)")].

Definition scenario_A : handler :=
  mkHandler "demo" "/work/repos/demo" (Dir "demo" scenario_A_children).

(** An R package description: two packages on the line of the field name,
    then one package per line, then a blank line. *)
Definition description_pre : string := "Package: demo" ++ nl.

Definition description_section : string :=
  " dplyr, ggplot2" ++ nl ++ "    tidyr (>= 1.0)," ++ nl ++ "    purrr".

Definition description_tail : string := (nl ++ nl) ++ "License: MIT" ++ nl.

Definition description_text : string :=
  description_pre ++ "Imports:" ++ description_section ++ description_tail.

Definition r_package : handler :=
  mkHandler "demo" "/work/repos/demo"
    (Dir "demo" [File "DESCRIPTION" 96 (Text description_text)]).

End Examples.

Module RunExamples.
Import PyStr Py FS Json Effects LLMAgent WorkflowAnalyzer.

Definition quoted (s : string) : string := str1 dquote ++ s ++ str1 dquote.

(** Replies of the model: a judgment "is an entry point", a judgment "is
    not", a workflow, an empty list, and prose that is not JSON. *)
Definition yes_reply : string := "{" ++ quoted "is_entry_point" ++ ": true}".
Definition no_reply : string := "{" ++ quoted "is_entry_point" ++ ": false}".
Definition workflow_reply : string :=
  "{" ++ quoted "workflow_name" ++ ": " ++ quoted "demo" ++ "}".
Definition empty_list_reply : string := "[]".
Definition prose_reply : string := "Sure! Here is the analysis you asked for.".

(** A decoder for the examples: it decodes the JSON replies above as
    [json.loads] does and rejects every other text. *)
Definition example_loads (text : string) : option value :=
  if text =? yes_reply then Some (JDict [("is_entry_point", JBool true)])
  else if text =? no_reply then Some (JDict [("is_entry_point", JBool false)])
  else if text =? workflow_reply then Some (JDict [("workflow_name", JStr "demo")])
  else if text =? empty_list_reply then Some (JList [])
  else None.

(** An endpoint that answers its n-th call with the n-th outcome of a
    script, and fails once the script is used up. *)
Definition scripted (script : list outcome) : state -> prompt -> outcome :=
  fun st _ => nth (count_attempts st) script (Failure (ApiError "no more replies")).

Definition main_file : analysis_file := mkAnalysisFile "main.py" "print(1)".
Definition app_file : analysis_file := mkAnalysisFile "app.py" "serve()".

(** The model answers in prose about [main.py] and accepts [app.py]. *)
Definition prose_then_yes : list outcome :=
  [Completion (Some prose_reply); Completion (Some yes_reply)].

(** A repository with one script, which the model judges not to be an entry
    point. *)
Definition one_script : node := Dir "demo" [File "main.py" 9 (Text "print(1)")].

Definition rejected : list outcome := [Completion (Some no_reply)].

(** A repository with two candidates and a text file.  The first call times
    out and is retried; [main.py] is accepted, the reply about [app.py] is
    prose; the workflow of [main.py] parses, and so do both aggregate
    replies. *)
Definition two_scripts : node :=
  Dir "demo"
    [File "main.py" 9 (Text "print(1)");
     File "app.py" 7 (Text "serve()");
     File "notes.txt" 5 (Text "todo")].

Definition full_run : list outcome :=
  [Failure (ApiError "timeout");
   Completion (Some yes_reply);
   Completion (Some prose_reply);
   Completion (Some workflow_reply);
   Completion (Some empty_list_reply);
   Completion (Some empty_list_reply)].

End RunExamples.

(** A bundle with the two workflow names of scenario C, and a file system on
    which nothing fails and the repository path does not exist. *)
Module PublishExamples.
Import Publisher.

Definition bundle : documentation :=
  mkDocumentation "readme" "install" "scaling" "troubleshooting"
    [("Data Import", "first"); ("Data Import ", "second")]
    [("csv", "tables")]
    [("src/load data.py", "loader"); ("main.py", "entry")].

Definition healthy : history -> op -> option Py.exn := fun _ _ => None.
Definition absent : history -> string -> bool := fun _ _ => false.
Definition no_listing : history -> string -> list (string * list string) := fun _ _ => [].
Definition same_path : string -> string -> string := fun path _ => path.

End PublishExamples.

(** A world for the command line program that only counts what happens. *)
Module MainExamples.
Import Py Main.

Record world := mkWorld {
  clones : nat;
  model_calls : nat;
  files_written : nat;
  log : list log_line
}.

Definition logger (l : log_line) (w : world) : world :=
  mkWorld (clones w) (model_calls w) (files_written w) (log w ++ [l])%list.

Definition clone (url : string) (skip : bool) (w : world) : result string * world :=
  (Ok ("repos/" ++ url),
   mkWorld (S (clones w)) (model_calls w) (files_written w) (log w)).

Definition classify (url : string) (skip : bool) (w : world) : result unit * world :=
  (Ok tt, w).

Definition ask (repo_path key model : string) (temp : float) (w : world)
  : result unit * world :=
  (Ok tt, mkWorld (clones w) (S (model_calls w)) (files_written w) (log w)).

Definition generate (repo_path : string) (structure workflow outputs : unit)
    (key model : string) (temp : float) (w : world) : result unit * world :=
  (Ok tt, mkWorld (clones w) (S (model_calls w)) (files_written w) (log w)).

Definition publish (output_dir repo_path : string) (docs : unit) (w : world)
  : result unit * world :=
  (Ok tt, mkWorld (clones w) (model_calls w) (S (files_written w)) (log w)).

Definition program : args -> option string -> world -> result unit * world :=
  main world logger logger unit unit unit unit clone classify ask ask generate publish.

Definition no_key : args :=
  mkArgs "https://example.org/demo.git" "./output" None "gpt-4" 0.5%float false.

Definition with_key : args :=
  mkArgs "https://example.org/demo.git" "./output" (Some "sk-demo") "gpt-4" 0.5%float false.

Definition fresh : world := mkWorld 0 0 0 [].

End MainExamples.

(** ** The repository acquirer ([src/repository_handler.py], [__init__] to
    [clone_repository]) *)

Module Acquirer.
Import PyStr Py.
Local Open Scope monad_scope.

(** [_extract_repo_name]: the last field of the URL split at slashes, with
    every [.git] taken out. *)
Definition _extract_repo_name (repo_url : string) : string :=
  replace ".git" EmptyString (last (split "/" repo_url) EmptyString).

(** The object [__init__] builds, with [cwd] the value of [os.getcwd()]. *)
Record handler := mkHandler {
  repo_url : string;
  skip_clone : bool;
  repo_name : string;
  repo_path : string
}.

Definition new_handler (cwd repo_url : string) (skip_clone : bool) : handler :=
  let repo_name := _extract_repo_name repo_url in
  mkHandler repo_url skip_clone repo_name
    (PyPath.join (PyPath.join cwd "repos") repo_name).

Inductive log_line :=
| UsingExisting (path : string)
| Cloning (url path : string)
| Cloned (path : string)
| ErrorCloning (e : exn).

(** What the acquirer does to the world, in order. *)
Inductive op :=
| Rmtree (path : string)
| MakeDirs (path : string)
| CloneFrom (url path : string)
| Info (l : log_line)
| Error (l : log_line).

Definition history := list op.

Definition is_rmtree (o : op) : bool :=
  match o with Rmtree _ => true | _ => false end.

Definition is_effect (o : op) : bool :=
  match o with Info _ | Error _ => false | _ => true end.

Section Disk.

(** Whether an operation raises, given what happened before, and whether a
    path exists. *)
Variable fails : history -> op -> option exn.
Variable path_exists : history -> string -> bool.

Definition perform (o : op) : M history unit :=
  fun h =>
    match fails h o with
    | Some e => (Raise e, (h ++ [o])%list)
    | None => (Ok tt, (h ++ [o])%list)
    end.

Definition note (o : op) : M history unit := fun h => (Ok tt, (h ++ [o])%list).

(** [try: ... except Exception as e: logger.error(...); raise] *)
Definition logging_errors {A} (body : M history A) : M history A :=
  fun h =>
    match body h with
    | (Ok a, h') => (Ok a, h')
    | (Raise e, h') =>
        if is_Exception e
        then (Raise e, (h' ++ [Error (ErrorCloning e)])%list)
        else (Raise e, h')
    end.

(** [clone_repository] *)
Definition clone_repository (self : handler) : M history string :=
  fun h =>
    if path_exists h (repo_path self) && skip_clone self then
      (note (Info (UsingExisting (repo_path self))) ;; ret (repo_path self)) h
    else
      (note (Info (Cloning (repo_url self) (repo_path self))) ;;
       logging_errors (
         (fun h' =>
            if path_exists h' (repo_path self)
            then perform (Rmtree (repo_path self)) h'
            else (Ok tt, h')) ;;
         perform (MakeDirs (PyPath.dirname (repo_path self))) ;;
         perform (CloneFrom (repo_url self) (repo_path self)) ;;
         note (Info (Cloned (repo_path self))) ;;
         ret (repo_path self))) h.

End Disk.

End Acquirer.

(** ** Notions to state facts about a repository descriptor *)

Module Descriptor.
Import PyStr Py FS RepositoryHandler.

(** [languages.get(t, 0)] *)
Fixpoint language_count (t : string) (languages : list (string * nat)) : nat :=
  match languages with
  | [] => 0
  | (k, n) :: rest => if k =? t then n else language_count t rest
  end.

(** The number of file records of category [t]. *)
Definition records_of_type (t : string) (files : list file_record) : nat :=
  List.length (filter (fun f => file_type f =? t) files).

Definition total (languages : list (string * nat)) : nat :=
  list_sum (map snd languages).

(** What the loop of the classifier keeps true of its two accumulators: the
    counts are those of the records, no category is listed twice, and the
    counts add up to the number of records. *)
Definition counted (st : list file_record * list (string * nat)) : Prop :=
  (forall t, language_count t (snd st) = records_of_type t (fst st))
  /\ NoDup (map fst (snd st))
  /\ total (snd st) = List.length (fst st).

(** The categories the documentation generator treats as code. *)
Definition code_categories : list string :=
  ["python"; "r"; "shell"; "c++"; "java"; "javascript"].

End Descriptor.

(** ** The model client, continued ([src/llm_agent.py]) *)

Module LLMAgentText.
Import PyStr Py Json Effects LLMAgent.

(** The waits of a history. *)
Definition is_sleep (ev : event) : bool :=
  match ev with Sleep _ => true | _ => false end.

Definition count_sleeps (tr : list event) : nat :=
  List.length (filter is_sleep tr).

(** The code fence of Markdown: three backquotes. *)
Definition fence : string := "```".

(** [block.strip().lower().startswith(('python', 'r', 'bash', 'sh'))] *)
Definition tagged (block : string) : bool :=
  existsb (startswith (lower (strip block))) ["python"; "r"; "bash"; "sh"].

(** The loop [for i in range(1, len(code_blocks), 2)] of
    [add_inline_comments], over the blocks from index [i] on: [None] when
    the loop ends without a return; indexing past the last block raises. *)
Fixpoint first_tagged (blocks : list string) : option (result string) :=
  match blocks with
  | [] => None
  | block :: rest =>
      if tagged block then
        Some (match rest with
              | [] => Raise IndexError
              | next :: _ => Ok (strip next)
              end)
      else
        match rest with
        | [] => None
        | _ :: rest' => first_tagged rest'
        end
  end.

(** What [add_inline_comments] returns, given the response of its query. *)
Definition extract_code (response : string) : result string :=
  if contains fence response then
    let code_blocks := split fence response in
    if (3 <=? List.length code_blocks)%nat then
      match first_tagged (tl code_blocks) with
      | Some r => r
      | None => Ok (strip (nth 1 code_blocks EmptyString))
      end
    else Ok response
  else Ok response.

End LLMAgentText.

(** Worlds for the acquirer: one where the checkout is there and everything
    works, one where it is there and the network is down. *)
Module AcquirerExamples.
Import Py Acquirer.

Definition healthy : history -> op -> option exn := fun _ _ => None.

Definition offline : history -> op -> option exn :=
  fun _ o =>
    match o with
    | CloneFrom _ _ => Some (ApiError "could not resolve host")
    | _ => None
    end.

Definition present : history -> string -> bool := fun _ _ => true.

Definition keeping : handler :=
  new_handler "/work" "https://github.com/octo/demo.git" true.

Definition refreshing : handler :=
  new_handler "/work" "https://github.com/octo/demo.git" false.

End AcquirerExamples.

Module DescriptorExamples.
Import PyStr Py FS RepositoryHandler.

(** A checkout whose requirements file is a compiled artefact that does not
    decode, next to a script. *)
Definition binary_manifest : handler :=
  mkHandler "demo" "/work/repos/demo"
    (Dir "demo"
       [File "main.py" 9 (Text "print(1)");
        File "requirements.txt" 64 (Undecodable false EmptyString)]).

(** A package description whose first import is followed by a space and a
    comma. *)
Definition spaced_imports : string :=
  "Package: demo" ++ nl ++ "Imports: dplyr ,ggplot2" ++ nl ++ "  tidyr" ++ nl.

Definition spaced_package : handler :=
  mkHandler "demo" "/work/repos/demo"
    (Dir "demo" [File "DESCRIPTION" 48 (Text spaced_imports)]).

End DescriptorExamples.

(** ** Notions to state facts about the inferrer *)

Module Inferrer.
Import PyStr Py FS Json Effects LLMAgent WorkflowAnalyzer.

(** A workflow that names one of the entry points [eps] under its key
    [entry_point], the entry point being the path of an analysis file. *)
Definition tied (analysis_files : list analysis_file) (eps : list entry_point)
    (workflow : value) : Prop :=
  exists ep,
    In ep eps
    /\ In (ep_path ep) (map af_path analysis_files)
    /\ forall default, get workflow "entry_point" default = Some (JStr (ep_path ep)).

(** An exception that some call of the endpoint raised. *)
Definition from_endpoint (endpoint : state -> prompt -> outcome) (e : exn) : Prop :=
  exists st0 p, endpoint st0 p = Failure e.

End Inferrer.

(** More runs of the inferrer: a model that is unreachable, and one that
    answers with a JSON list where an object is expected. *)
Module RunMoreExamples.
Import PyStr Py FS Json Effects LLMAgent WorkflowAnalyzer RunExamples.

Definition unreachable : list outcome := [].

Definition list_then_yes : list outcome :=
  [Completion (Some empty_list_reply); Completion (Some yes_reply)].

(** [main.py] accepted as an entry point, every field at its default. *)
Definition main_entry : entry_point :=
  mkEntryPoint "main.py" (JStr EmptyString) (JBool false) (JStr EmptyString)
    (JList []) (JList []).

Definition one_workflow : list outcome := [Completion (Some workflow_reply)].

End RunMoreExamples.

(** A command line run whose clone fails. *)
Module MainMoreExamples.
Import Py Main MainExamples.

Definition failing_clone (url : string) (skip : bool) (w : world) : result string * world :=
  (Raise (ApiError "repository not found"), w).

Definition program_offline : args -> option string -> world -> result unit * world :=
  main world logger logger unit unit unit unit failing_clone classify ask ask generate publish.

End MainMoreExamples.

(** ** Starting the program ([python main.py]) *)

Module Startup.
Import PyStr Py.

(** The Python files of the repository, by their path from its root.  The
    first line of [workflow_analyzer.py] and of [documentation_publisher.py]
    names them [src/workflow_analyzer.py] and [src/documentation_publisher.py];
    they are at the root, next to [main.py]. *)
Definition repository : list string :=
  ["documentation_publisher.py";
   "main.py";
   "workflow_analyzer.py";
   "src/documentation_generator.py";
   "src/llm_agent.py";
   "src/repository_handler.py"].

(** The file a dotted module name stands for under the directory of the
    script, which comes first on the module search path. *)
Definition module_file (name : string) : string := replace "." "/" name ++ ".py".

(** What ends the interpreter before the program is done: a module that is
    not found, or an exception that leaves the module being executed. *)
Inductive failure :=
| ModuleNotFoundError (name : string)
| Uncaught (e : exn).

(** Where a module is found: in a file of the repository, or outside it
    (the standard library and the installed packages). *)
Inductive module_spec :=
| Source (file : string)
| External.

(** How a run of the interpreter on a script ends: with the traceback of an
    exception raised at a line of the script, or with what the rest of the
    script did. *)
Inductive run (A : Type) :=
| Traceback (line : nat) (e : failure)
| Completed (a : A).
Arguments Traceback {A} line e.
Arguments Completed {A} a.

Section Interpreter.

(** The modules that exist outside the repository and import without an
    error. *)
Variable available : string -> bool.

(** What executing a file of the repository that was found gives, its own
    imports included: [None] when it runs to its end. *)
Variable run_module : string -> option failure.

(** Finding a module.  A file of the repository comes first; the package
    [src] is the directory of that name in the repository, so a module
    [src.x] is looked for there and nowhere else. *)
Definition find_spec (name : string) : option module_spec :=
  if existsb (String.eqb (module_file name)) repository
  then Some (Source (module_file name))
  else if startswith name "src." then None
  else if available name then Some External
  else None.

(** The import statements of [main.py], each with its line. *)
Definition main_imports : list (nat * string) :=
  [(2, "os");
   (3, "argparse");
   (4, "logging");
   (5, "dotenv");
   (6, "src.repository_handler");
   (7, "src.documentation_generator");
   (8, "src.workflow_analyzer");
   (9, "src.output_analyzer");
   (10, "src.documentation_publisher")].

(** Executing import statements in order: the line and the failure of the
    first one that raises. *)
Fixpoint import_all (statements : list (nat * string)) : option (nat * failure) :=
  match statements with
  | [] => None
  | (line, name) :: rest =>
      match find_spec name with
      | None => Some (line, ModuleNotFoundError name)
      | Some External => import_all rest
      | Some (Source file) =>
          match run_module file with
          | Some e => Some (line, e)
          | None => import_all rest
          end
      end
  end.

(** [python main.py]: the imports of lines 2 to 10, then the rest of the
    file, [body]: [load_dotenv()], the configuration of logging with its
    [FileHandler] and, in the last line, the call of [main].  An exception
    that leaves an import ends the run; nothing after it is executed. *)
Definition main_py {A : Type} (body : A) : run A :=
  match import_all main_imports with
  | Some (line, e) => Traceback line e
  | None => Completed body
  end.

End Interpreter.

End Startup.

(** * Properties *)

(** ** Facts about the string operations *)

Module PyStrFacts.
Import PyStr.

Lemma map_chars_compose (f g : ascii -> ascii) (s : string) :
  map_chars f (map_chars g s) = map_chars (fun c => f (g c)) s.
Proof.
  induction s as [|c s IH]; simpl; [reflexivity | now rewrite IH].
Qed.

Lemma map_chars_ext (f g : ascii -> ascii) (s : string) :
  (forall c, f c = g c) -> map_chars f s = map_chars g s.
Proof.
  intros E; induction s as [|c s IH]; simpl; [reflexivity | now rewrite E, IH].
Qed.

Lemma map_chars_length (f : ascii -> ascii) (s : string) :
  String.length (map_chars f s) = String.length s.
Proof.
  induction s as [|c s IH]; simpl; [reflexivity | now rewrite IH].
Qed.

Lemma map_chars_app (f : ascii -> ascii) (s t : string) :
  map_chars f (s ++ t) = map_chars f s ++ map_chars f t.
Proof.
  induction s as [|c s IH]; simpl; [reflexivity | now rewrite IH].
Qed.

Lemma prefix_str1 (o c : ascii) (s : string) :
  prefix (str1 o) (String c s) = Ascii.eqb c o.
Proof.
  unfold str1; simpl.
  destruct (ascii_dec o c) as [->|N].
  - rewrite Ascii.eqb_refl. now destruct s.
  - symmetry. apply Ascii.eqb_neq. congruence.
Qed.

(** Replacing one character by one character is a character-wise map. *)
Lemma replace_one_char (o n : ascii) (s : string) :
  replace (str1 o) (str1 n) s = map_chars (fun c => if Ascii.eqb c o then n else c) s.
Proof.
  unfold replace, str1 at 1.
  induction s as [|c s IH]; [reflexivity|].
  cbn [replace_from map_chars].
  change (String o EmptyString) with (str1 o).
  rewrite prefix_str1.
  destruct (Ascii.eqb c o); simpl; now rewrite <- IH.
Qed.

Lemma str_length_app (s t : string) :
  String.length (s ++ t) = String.length s + String.length t.
Proof.
  induction s as [|c s IH]; simpl; [reflexivity | now rewrite IH].
Qed.

Lemma str_app_empty_r (s : string) : s ++ EmptyString = s.
Proof.
  induction s as [|c s IH]; simpl; [reflexivity | now rewrite IH].
Qed.

Lemma str_app_assoc (s t u : string) : (s ++ t) ++ u = s ++ (t ++ u).
Proof.
  induction s as [|c s IH]; simpl; [reflexivity | now rewrite IH].
Qed.

Lemma prefix_app_long (p : string) :
  forall x y, String.length p <= String.length x -> prefix p (x ++ y) = prefix p x.
Proof.
  induction p as [|a p IH]; intros x y H.
  - destruct x; simpl; now destruct y.
  - destruct x as [|b x]; simpl in *; [lia|].
    destruct (ascii_dec a b); [apply IH; lia | reflexivity].
Qed.

Lemma prefix_app_self (p b : string) : prefix p (p ++ b) = true.
Proof.
  induction p as [|a p IH]; simpl.
  - now destruct b.
  - destruct (ascii_dec a a); [exact IH | congruence].
Qed.

Lemma contains_cons (p : string) (c : ascii) (s : string) :
  contains p (String c s) = false ->
  prefix p (String c s) = false /\ contains p s = false.
Proof.
  cbn [contains]. intros H. now apply orb_false_iff in H.
Qed.

Lemma split_skip (sep b : string) (x : string) :
  forall cur, split_from sep (String.length x) cur (x ++ b) = split_from sep 0 cur b.
Proof.
  induction x as [|c x IH]; intros cur; simpl; [reflexivity | apply IH].
Qed.

Lemma split_none (sep s : string) :
  forall cur, contains sep s = false -> split_from sep 0 cur s = [cur ++ s].
Proof.
  induction s as [|c s IH]; intros cur H.
  - simpl. now rewrite str_app_empty_r.
  - apply contains_cons in H. destruct H as (Hp & Hc).
    cbn [split_from]. rewrite Hp, IH by exact Hc.
    now rewrite str_app_assoc.
Qed.

Lemma split_first (sep' : string) (z : ascii) (a b : string) :
  forall cur,
    contains (sep' ++ str1 z) (a ++ sep') = false ->
    split_from (sep' ++ str1 z) 0 cur (a ++ (sep' ++ str1 z) ++ b)
    = (cur ++ a) :: split_from (sep' ++ str1 z) 0 EmptyString b.
Proof.
  set (sep := sep' ++ str1 z).
  assert (Hlen : String.length sep = S (String.length sep')).
  { unfold sep. rewrite str_length_app. simpl. lia. }
  induction a as [|c a IH]; intros cur H.
  - rewrite str_app_empty_r. cbn [append].
    destruct sep as [|c0 t] eqn:Esep; [discriminate|].
    cbn [append split_from].
    change (String c0 (t ++ b)) with (String c0 t ++ b).
    rewrite prefix_app_self.
    replace (String.length (String c0 t) - 1) with (String.length t) by (simpl; lia).
    now rewrite split_skip.
  - apply contains_cons in H. destruct H as (Hp & Hc).
    cbn [append split_from].
    assert (Hp' : prefix sep (String c (a ++ sep ++ b)) = false).
    { unfold sep at 2. rewrite str_app_assoc.
      rewrite <- str_app_assoc.
      change (String c ((a ++ sep') ++ str1 z ++ b))
        with (String c (a ++ sep') ++ (str1 z ++ b)).
      rewrite prefix_app_long; [exact Hp|].
      simpl. rewrite str_length_app. lia. }
    rewrite Hp', IH by exact Hc.
    now rewrite str_app_assoc.
Qed.

Lemma contains_prefix (p s : string) : prefix p s = true -> contains p s = true.
Proof. destruct s; simpl; intros ->; reflexivity. Qed.

Lemma prefix_app_mono (p : string) :
  forall x y, prefix p x = true -> prefix p (x ++ y) = true.
Proof.
  induction p as [|a p IH]; intros x y H.
  - destruct (x ++ y); reflexivity.
  - destruct x as [|b x]; simpl in *; [discriminate|].
    destruct (ascii_dec a b); [now apply IH | discriminate].
Qed.

Lemma contains_app_l_false (p a b : string) :
  contains p (a ++ b) = false -> contains p a = false.
Proof.
  induction a as [|c a IH]; intros H.
  - destruct p as [|x p]; [|reflexivity].
    simpl in H. destruct b; discriminate.
  - cbn [append] in H. apply contains_cons in H. destruct H as (Hp & Hc).
    cbn [contains]. rewrite (IH Hc), orb_false_r.
    destruct (prefix p (String c a)) eqn:E; [|reflexivity].
    apply (prefix_app_mono _ _ b) in E. cbn [append] in E. congruence.
Qed.

End PyStrFacts.

(** ** The publisher *)

Module PublisherFacts.
Import PyStr PyStrFacts Py Publisher.

Lemma safe_filename_charwise (s : string) : _safe_filename s = sanitize_spec s.
Proof.
  unfold _safe_filename, sanitize_spec.
  change ":" with (str1 ":") at 1.
  change "_" with (str1 "_").
  change "/" with (str1 "/").
  change " " with (str1 " ").
  rewrite !replace_one_char, !map_chars_compose.
  apply map_chars_ext.
  intros [[] [] [] [] [] [] [] []]; reflexivity.
Qed.

Lemma sanitize_char_idempotent (c : ascii) :
  sanitize_char (sanitize_char c) = sanitize_char c.
Proof.
  destruct c as [[] [] [] [] [] [] [] []]; reflexivity.
Qed.

(** C6. The file-name sanitizer is idempotent.  It is the character-wise map
    that turns space, slash, backslash and colon into an underscore and keeps
    every other character, so it keeps the length (runs of underscores are
    not collapsed) and a name with a trailing space is sent to a different
    file name than the name without it, as "Data Import" and "Data Import "
    show. *)
Theorem safe_filename_idempotent :
  forall s : string,
    _safe_filename (_safe_filename s) = _safe_filename s
    /\ _safe_filename s = map_chars sanitize_char s
    /\ (forall c, sanitize_char c = if unsafe_char c then "_"%char else c)
    /\ String.length (_safe_filename s) = String.length s
    /\ _safe_filename (s ++ " ") = _safe_filename s ++ "_"
    /\ _safe_filename (s ++ " ") <> _safe_filename s
    /\ _safe_filename "Data Import" = "Data_Import"
    /\ _safe_filename "Data Import " = "Data_Import_".
Proof.
  intros s.
  assert (L : forall t, String.length (_safe_filename t) = String.length t).
  { intros t. rewrite safe_filename_charwise. apply map_chars_length. }
  assert (A : _safe_filename (s ++ " ") = _safe_filename s ++ "_").
  { rewrite !safe_filename_charwise. unfold sanitize_spec.
    now rewrite map_chars_app. }
  repeat split.
  - rewrite !safe_filename_charwise. unfold sanitize_spec.
    rewrite map_chars_compose. apply map_chars_ext, sanitize_char_idempotent.
  - apply safe_filename_charwise.
  - apply L.
  - exact A.
  - intros E. apply (f_equal String.length) in E.
    rewrite !L, str_length_app in E. simpl in E. lia.
Qed.

Local Open Scope list_scope.
Local Open Scope monad_scope.

Section DiskFacts.

Variable fails : history -> op -> option exn.
Variable path_exists : history -> string -> bool.
Variable os_walk : history -> string -> list (string * list string).
Variable relpath : string -> string -> string.

Lemma runs_ret : runs (ret tt) [].
Proof. intros h. unfold ret. now rewrite List.app_nil_r. Qed.

Lemma runs_note (o : op) : runs (note o) [o].
Proof. intros h. reflexivity. Qed.

Lemma runs_bind (m k : M history unit) (a b : list op) :
  runs m a -> runs k b -> runs (m ;; k) (a ++ b).
Proof.
  intros Hm Hk h. unfold bind. rewrite Hm, Hk. now rewrite List.app_assoc.
Qed.

Lemma runs_for_each {A} (body : A -> M history unit) (g : A -> list op) (items : list A) :
  (forall x, runs (body x) (g x)) -> runs (for_each body items) (flat_map g items).
Proof.
  intros H. induction items as [|x items IH]; simpl.
  - apply runs_ret.
  - apply runs_bind; [apply H | exact IH].
Qed.

Lemma runs_logging_errors (body : M history unit) (ops : list op) :
  runs body ops -> runs (logging_errors body) ops.
Proof. intros H h. unfold logging_errors. now rewrite H. Qed.

Hypothesis nothing_fails : forall h o, fails h o = None.

Lemma runs_perform (o : op) : runs (perform fails o) [o].
Proof. intros h. unfold perform. now rewrite nothing_fails. Qed.

Lemma runs_cons (m k : M history unit) (o : op) (b : list op) :
  runs m [o] -> runs k b -> runs (m ;; k) (o :: b).
Proof. apply (runs_bind m k [o] b). Qed.

(** Scenario D on the method once the module loads: when the repository path
    does not exist and no file operation fails, [publish_documentation]
    returns, and what it did is the output tree between its two log lines:
    nothing is copied. *)
Lemma publish_without_repository (self : publisher) (documentation : documentation) :
  (forall h, path_exists h (repo_path self) = false) ->
  forall h,
    publish_documentation fails path_exists os_walk relpath self documentation h
    = (Ok tt,
       h ++ Info (PublishingTo (output_dir self))
         :: output_tree self documentation ++ [Info (PublishedTo (output_dir self))]).
Proof.
  intros Habsent.
  change (runs (publish_documentation fails path_exists os_walk relpath self documentation)
            (Info (PublishingTo (output_dir self))
             :: output_tree self documentation ++ [Info (PublishedTo (output_dir self))])).
  unfold publish_documentation, output_tree, _create_index_files, makedirs, write.
  apply runs_cons; [apply runs_note|].
  apply runs_logging_errors.
  rewrite <- !List.app_assoc. cbn [app].
  repeat (apply runs_cons; [apply runs_perform|]).
  apply runs_bind.
  { apply runs_for_each. intros item. apply runs_perform. }
  apply runs_bind.
  { apply runs_for_each. intros item. apply runs_perform. }
  apply runs_bind.
  { apply runs_for_each. intros item. cbv zeta.
    apply runs_bind; [|apply runs_perform].
    destruct (nonempty _); [apply runs_perform | apply runs_ret]. }
  match goal with |- runs _ (?a :: ?b :: ?c :: ?d) =>
    apply (runs_bind _ _ [a; b; c] d) end.
  { repeat (apply runs_cons; [apply runs_perform|]). apply runs_perform. }
  apply (runs_bind _ _ [] [_]); [|apply runs_note].
  intros h. rewrite Habsent. now rewrite List.app_nil_r.
Qed.

Lemma output_tree_no_copy (self : publisher) (documentation : documentation) :
  existsb is_copy (output_tree self documentation) = false.
Proof.
  unfold output_tree. rewrite !existsb_app.
  assert (F : forall (A : Type) (g : A -> list op) (l : list A),
             (forall x, existsb is_copy (g x) = false) ->
             existsb is_copy (flat_map g l) = false).
  { intros A g l H. induction l as [|x l IH]; simpl; [reflexivity|].
    now rewrite existsb_app, H, IH. }
  rewrite !F; try reflexivity.
  intros item. rewrite existsb_app. now destruct (nonempty _).
Qed.

End DiskFacts.

(** C7 on the code as shipped.  Up to line 151 every bracket is closed; line
    152 opens a parenthesis, and at the end of the file it is still open
    (without that line the brackets balance).  So importing the module raises
    [SyntaxError]: [publish_documentation] cannot be called, and nothing is
    written, whatever the bundle and the file system are. *)
Theorem shipped_publisher_does_not_load :
  forall (fails : history -> op -> option exn)
         (path_exists : history -> string -> bool)
         (os_walk : history -> string -> list (string * list string))
         (relpath : string -> string -> string)
         (self : publisher) (documentation : documentation) (h : history),
    PySyntax.bracket_depth (firstn 4 shipped_source) = Some 0
    /\ PySyntax.bracket_depth (firstn 5 shipped_source) = Some 1
    /\ PySyntax.bracket_depth shipped_source = Some 1
    /\ PySyntax.brackets_balanced without_line_152 = true
    /\ shipped_publish_documentation fails path_exists os_walk relpath self documentation h
       = (Raise SyntaxError, h).
Proof. intros. repeat split; reflexivity. Qed.

Lemma publish_without_repository_example :
  exists ops,
    publish_documentation PublishExamples.healthy PublishExamples.absent
      PublishExamples.no_listing PublishExamples.same_path
      (new_publisher "./output" "repos/demo") PublishExamples.bundle []
    = (Ok tt, ops)
    /\ In (Write "./output/docs/workflows/Data_Import.md" "first") ops
    /\ In (Write "./output/docs/workflows/Data_Import_.md" "second") ops
    /\ existsb is_copy ops = false.
Proof.
  eexists. split.
  - exact (publish_without_repository PublishExamples.healthy PublishExamples.absent
             PublishExamples.no_listing PublishExamples.same_path
             (fun _ _ => eq_refl) _ PublishExamples.bundle (fun _ => eq_refl) []).
  - vm_compute. tauto.
Qed.

End PublisherFacts.

(** ** The structure classifier *)

Module RepositoryHandlerFacts.
Import PyStr PyStrFacts Py FS RepositoryHandler.

(** A structural induction principle for trees. *)
Lemma node_rect_forall (P : node -> Prop) :
  (forall name size c, P (File name size c)) ->
  (forall name cs, Forall P cs -> P (Dir name cs)) ->
  forall d, P d.
Proof.
  intros HF HD. fix IH 1. intros [name size c | name cs].
  - apply HF.
  - apply HD. induction cs as [|n cs IHcs]; constructor; [apply IH | exact IHcs].
Qed.

Lemma subdirs_incl {A} (enter enter' : string -> node -> list A) (l : list node) :
  Forall (fun d => forall name, incl (enter name d) (enter' name d)) l ->
  forall git_removed, incl (subdirs enter l git_removed) (all_subdirs enter' l).
Proof.
  induction 1 as [|d l Hd Hl IH]; intros g; simpl.
  - apply incl_refl.
  - destruct d as [n sz c | n cs]; [apply IH|].
    destruct ((n =? ".git") && negb g).
    + apply incl_appr, IH.
    + apply incl_app.
      * apply incl_appl, Hd.
      * apply incl_appr, IH.
Qed.

(** The walk only hands over files of the tree. *)
Lemma walk_incl (d : node) : forall rel, incl (walk rel d) (all_files rel d).
Proof.
  induction d as [name size c | name cs IH] using node_rect_forall; intros rel; simpl.
  - apply incl_refl.
  - apply incl_app; [apply incl_appl, incl_refl|].
    apply incl_appr, subdirs_incl.
    eapply Forall_impl; [|exact IH].
    intros sub H nm. apply H.
Qed.

Lemma fold_visit (l : list entry) :
  forall fs langs,
    fst (fold_left visit l (fs, langs)) = (fs ++ map record_of (filter kept l))%list.
Proof.
  induction l as [|e l IH]; intros fs langs; simpl.
  - now rewrite List.app_nil_r.
  - unfold visit at 2, kept.
    destruct (_is_binary_file (data e) || (getsize e >? 1000000)%Z); simpl.
    + apply IH.
    + rewrite IH, <- List.app_assoc. reflexivity.
Qed.

(** The file list of a descriptor: one record per kept file, in walk order. *)
Lemma files_of_structure (h : handler) (s : repo_structure) :
  analyze_repository_structure h = Ok s ->
  files s = map record_of (filter kept (walk EmptyString (tree h)))
  /\ entry_points s = _identify_entry_points (files s)
  /\ _identify_dependencies h = Ok (deps s).
Proof.
  unfold analyze_repository_structure.
  destruct (_identify_dependencies h) as [d|e]; simpl; [|discriminate].
  intros E; injection E as <-; simpl.
  rewrite fold_visit. simpl. auto.
Qed.

Lemma NoDup_map_inj {A B} (f : A -> B) (l : list A) (x y : A) :
  NoDup (map f l) -> In x l -> In y l -> f x = f y -> x = y.
Proof.
  induction l as [|a l IH]; simpl; [tauto|].
  intros ND Hx Hy E. inversion ND as [|? ? Hn ND']; subst.
  destruct Hx as [->|Hx], Hy as [->|Hy]; auto.
  - exfalso. apply Hn. rewrite E. now apply in_map.
  - exfalso. apply Hn. rewrite <- E. now apply in_map.
Qed.

Lemma strip_first_visible (l : string) :
  match first_visible l with
  | None => strip l = EmptyString
  | Some c => exists t, strip l = String c t
  end.
Proof.
  unfold strip. induction l as [|c l IH]; simpl; [reflexivity|].
  destruct (isspace c) eqn:Ec; [exact IH|].
  simpl. destruct (rstrip l) as [|d t].
  - rewrite Ec. now exists EmptyString.
  - now exists (String d t).
Qed.

(** The test of the loop over [requirements.txt] is the test "neither blank
    nor a comment". *)
Lemma requirement_test (l : string) :
  nonempty (strip l) && negb (startswith (strip l) "#") = requirement l.
Proof.
  unfold requirement. pose proof (strip_first_visible l) as H.
  destruct (first_visible l) as [c|].
  - destruct H as [t ->]. unfold startswith. change "#" with (str1 "#").
    now rewrite prefix_str1.
  - now rewrite H.
Qed.

Lemma requirement_lines_length (ls : list string) :
  List.length (requirement_lines ls) = List.length (filter requirement ls).
Proof.
  induction ls as [|l ls IH]; simpl; [reflexivity|].
  rewrite requirement_test. destruct (requirement l); simpl; now rewrite IH.
Qed.

Lemma first_visible_app_nl (l : string) : first_visible (l ++ nl) = first_visible l.
Proof.
  induction l as [|c l IH]; simpl; [reflexivity|].
  now rewrite IH.
Qed.

Lemma requirement_app_nl (l : string) : requirement (l ++ nl) = requirement l.
Proof. unfold requirement. now rewrite first_visible_app_nl. Qed.

(** Iterating over the file and splitting its text at line feeds find the
    same requirement lines. *)
Lemma lines_from_requirements (s : string) :
  forall cur,
    List.length (filter requirement (lines_from cur s))
    = List.length (filter requirement (split_from nl 0 cur s)).
Proof.
  induction s as [|c s IH]; intros cur.
  - simpl. destruct cur; reflexivity.
  - cbn [lines_from split_from]. unfold nl at 2. rewrite prefix_str1.
    destruct (Ascii.eqb c LF).
    + cbn [filter]. rewrite requirement_app_nl.
      change (String.length (str1 LF) - 1) with 0.
      destruct (requirement cur); cbn [List.length]; now rewrite IH.
    + apply IH.
Qed.

Lemma python_dependencies_count (text : string) :
  List.length (requirement_lines (readlines text)) = count_requirements text.
Proof.
  rewrite requirement_lines_length. apply lines_from_requirements.
Qed.

Lemma Permutation_length_3_inv {A} (a b c : A) (l : list A) :
  Permutation [a; b; c] l ->
  l = [a; b; c] \/ l = [a; c; b] \/ l = [b; a; c]
  \/ l = [b; c; a] \/ l = [c; a; b] \/ l = [c; b; a].
Proof.
  intros P.
  destruct (Permutation_vs_cons_inv (Permutation_sym P)) as (l1 & l2 & ->).
  apply Permutation_cons_app_inv, Permutation_length_2_inv in P.
  destruct l1 as [|x [|y [|z l1]]]; simpl in *;
    destruct P as [E|E]; try discriminate;
    try (injection E as E); subst; tauto.
Qed.

(** C2. A file under the repository root whose first 1KB does not decode as
    text, or whose size exceeds 1,000,000 bytes, gets no record in the file
    list that [analyze_repository_structure] returns, whatever else is true
    of it.  (Relative paths identify files: no two files of a tree share
    one.) *)
Theorem binary_or_oversized_excluded :
  forall (h : handler) (s : repo_structure) (e : entry),
    analyze_repository_structure h = Ok s ->
    NoDup (map rel_path (all_files EmptyString (tree h))) ->
    In e (all_files EmptyString (tree h)) ->
    (exists lossy, data e = Undecodable false lossy) \/ (getsize e > 1000000)%Z ->
    ~ In (rel_path e) (map file_path (files s)).
Proof.
  intros h s e Hs ND He Hbad Hin.
  apply files_of_structure in Hs. destruct Hs as (Hf & _).
  rewrite Hf, map_map in Hin. apply in_map_iff in Hin.
  destruct Hin as (e' & Hp & He'). simpl in Hp.
  apply filter_In in He'. destruct He' as (Hw & Hk).
  apply walk_incl in Hw.
  assert (e' = e) as -> by (eapply NoDup_map_inj; eauto).
  unfold kept in Hk. apply negb_true_iff, orb_false_iff in Hk.
  destruct Hk as (Hb & Hz).
  destruct Hbad as [(lossy & Hd) | Hbig].
  - rewrite Hd in Hb. discriminate.
  - rewrite Z.gtb_ltb in Hz. apply Z.ltb_ge in Hz. lia.
Qed.

Lemma binary_or_oversized_excluded_witness :
  exists s,
    analyze_repository_structure Examples.mixed_handler = Ok s
    /\ ~ In "logo.png" (map file_path (files s))
    /\ ~ In "dump.csv" (map file_path (files s)).
Proof.
  eexists. split; [reflexivity|].
  assert (ND : NoDup (map rel_path (all_files EmptyString (tree Examples.mixed_handler)))).
  { repeat constructor; simpl; intuition discriminate. }
  split.
  - apply (binary_or_oversized_excluded Examples.mixed_handler _ Examples.logo_entry
             eq_refl ND).
    + simpl. tauto.
    + left. now exists EmptyString.
  - apply (binary_or_oversized_excluded Examples.mixed_handler _ Examples.dump_entry
             eq_refl ND).
    + simpl. tauto.
    + right. simpl. lia.
Defined.

Lemma size_test_false (z : Z) : (z <= 1000000)%Z -> (z >? 1000000)%Z = false.
Proof. intros H. rewrite Z.gtb_ltb. apply Z.ltb_ge. exact H. Qed.

(** Running the classifier on a tree given by its listing, up to the two
    size tests, which stay symbolic. *)
Ltac classify :=
  unfold analyze_repository_structure, _identify_dependencies;
  cbn -[requirement_lines readlines Z.gtb visit];
  unfold visit;
  cbn -[requirement_lines readlines Z.gtb _determine_file_type].

(** C1. A repository whose tree holds exactly [main.py], with any decodable
    content under the size ceiling, and a [requirements.txt] with exactly two
    lines that are neither blank nor comments (in any listing order, with or
    without the version-control directory) yields a descriptor whose entry
    points are exactly [main.py] and whose python dependency list has length
    2. *)
Theorem scenario_A_main_and_requirements :
  forall (h : handler) (root : string) (cs git : list node)
         (size_main size_req : Z) (source requirements : string),
    tree h = Dir root cs ->
    Permutation (File "main.py" size_main (Text source)
                 :: File "requirements.txt" size_req (Text requirements) :: git) cs ->
    git = [] \/ (exists metadata, git = [Dir ".git" metadata]) ->
    (size_main <= 1000000)%Z ->
    count_requirements requirements = 2 ->
    exists s,
      analyze_repository_structure h = Ok s
      /\ entry_points s = ["main.py"]
      /\ List.length (python (deps s)) = 2.
Proof.
  intros [nm pth tr] root cs git size_main size_req source requirements
         Htree Hperm Hgit Hsize Hcount.
  simpl in Htree. subst tr.
  apply size_test_false in Hsize.
  rewrite <- python_dependencies_count in Hcount.
  destruct Hgit as [-> | (metadata & ->)].
  - apply Permutation_length_2_inv in Hperm.
    destruct Hperm as [-> | ->];
      classify; rewrite Hsize; destruct (size_req >? 1000000)%Z;
      cbn -[requirement_lines readlines _determine_file_type];
      eexists; (split; [reflexivity | split; [reflexivity | exact Hcount]]).
  - apply Permutation_length_3_inv in Hperm.
    destruct Hperm as [-> | [-> | [-> | [-> | [-> | ->]]]]];
      classify; rewrite Hsize; destruct (size_req >? 1000000)%Z;
      cbn -[requirement_lines readlines _determine_file_type];
      eexists; (split; [reflexivity | split; [reflexivity | exact Hcount]]).
Qed.

Lemma scenario_A_main_and_requirements_witness :
  exists s,
    analyze_repository_structure Examples.scenario_A = Ok s
    /\ entry_points s = ["main.py"]
    /\ List.length (python (deps s)) = 2.
Proof.
  apply (scenario_A_main_and_requirements Examples.scenario_A "demo"
           Examples.scenario_A_children
           [Dir ".git" [File "HEAD" 23 (Text "ref: refs/heads/main")]]
           9 40 "print(1)" Examples.two_requirements eq_refl).
  - exact (Permutation_cons_append
             [File "requirements.txt" 40 (Text Examples.two_requirements);
              Dir ".git" [File "HEAD" 23 (Text "ref: refs/heads/main")]]
             (File "main.py" 9 (Text "print(1)"))).
  - right. eexists. reflexivity.
  - lia.
  - reflexivity.
Defined.

Lemma hd_split_comma (s : string) :
  forall cur, hd EmptyString (split_from "," 0 cur s) = cur ++ before_comma s.
Proof.
  induction s as [|c s IH]; intros cur.
  - simpl. now rewrite str_app_empty_r.
  - cbn [split_from before_comma]. change "," with (str1 ",") at 1.
    rewrite prefix_str1. destruct (Ascii.eqb c ",").
    + simpl. now rewrite str_app_empty_r.
    + rewrite IH. now rewrite str_app_assoc.
Qed.

Lemma import_lines_spec (ls : list string) :
  import_lines ls = filter nonempty (map (fun line => before_comma (strip line)) ls).
Proof.
  induction ls as [|l ls IH]; simpl; [reflexivity|].
  unfold split. rewrite hd_split_comma. simpl append.
  destruct (nonempty (before_comma (strip l))); now rewrite IH.
Qed.

(** C8, as the code has it.  Take a [DESCRIPTION] whose only [Imports:] is
    followed by a section that runs to the first blank line or to the end of
    the file.  Dependency identification splits the section into lines and
    each line at its commas, and collects from each line one entry, the text
    before its first comma (stripped on the left, empty ones left out): a
    line listing several comma-separated packages contributes its first
    package only, so there are at most as many entries as lines. *)
Theorem imports_first_entry_per_line :
  forall (h : handler) (f : node) (content pre section tail : string) (d : dependencies),
    lookup "DESCRIPTION" (children (tree h)) = Some f ->
    read_text f = Ok content ->
    content = pre ++ "Imports:" ++ section ++ tail ->
    contains "Imports:" (pre ++ "Imports") = false ->
    contains "Imports:" (section ++ tail) = false ->
    (tail = EmptyString /\ contains (nl ++ nl) section = false)
    \/ (exists rest, tail = (nl ++ nl) ++ rest
                     /\ contains (nl ++ nl) (section ++ nl) = false) ->
    _identify_dependencies h = Ok d ->
    r d = filter nonempty (map (fun line => before_comma (strip line)) (split nl section))
    /\ List.length (r d) <= List.length (split nl section).
Proof.
  intros h f content pre section tail d Hl Hr -> Hpre Hone Htail Hd.
  assert (Hin : contains "Imports:" (pre ++ "Imports:" ++ section ++ tail) = true).
  { clear. induction pre as [|c pre IH].
    - change (contains "Imports:" ("Imports:" ++ (section ++ tail)) = true).
      apply contains_prefix, prefix_app_self.
    - change (contains "Imports:"
                (String c (pre ++ "Imports:" ++ section ++ tail)) = true).
      cbn [contains]. rewrite IH. apply orb_true_r. }
  assert (Hsplit : split "Imports:" (pre ++ "Imports:" ++ section ++ tail)
                   = [pre; section ++ tail]).
  { unfold split.
    etransitivity;
      [exact (split_first "Imports" ":" pre (section ++ tail) EmptyString Hpre)|].
    f_equal. exact (split_none _ _ EmptyString Hone). }
  assert (Hhd : hd EmptyString (split (nl ++ nl) (section ++ tail)) = section).
  { unfold split. destruct Htail as [(-> & Hsec) | (rest & -> & Hsec)].
    - rewrite str_app_empty_r, split_none; [reflexivity | exact Hsec].
    - etransitivity;
        [exact (f_equal (hd EmptyString)
                  (split_first nl LF section rest EmptyString Hsec))|].
      reflexivity. }
  assert (Hr' : r d = import_lines (split nl section)).
  { unfold _identify_dependencies in Hd. rewrite Hl, Hr in Hd.
    cbn [rbind] in Hd. rewrite Hin in Hd.
    unfold imports_section in Hd. rewrite Hsplit, Hhd in Hd. cbn [rbind] in Hd.
    destruct (match lookup "requirements.txt" (children (tree h)) with
              | Some f0 => _ | None => _ end) as [py|e]; cbn [rbind] in Hd;
      [|discriminate].
    injection Hd as <-. reflexivity. }
  rewrite Hr', import_lines_spec. split; [reflexivity|].
  etransitivity; [apply filter_length_le|]. now rewrite length_map.
Qed.

Lemma imports_first_entry_per_line_witness :
  exists d,
    _identify_dependencies Examples.r_package = Ok d
    /\ r d = ["dplyr"; "tidyr (>= 1.0)"; "purrr"].
Proof.
  eexists. split; [reflexivity|].
  refine (proj1 (imports_first_entry_per_line Examples.r_package _
                   Examples.description_text Examples.description_pre
                   Examples.description_section Examples.description_tail _
                   eq_refl eq_refl eq_refl eq_refl eq_refl _ eq_refl)).
  right. eexists. split; reflexivity.
Defined.

(** C8 as it is worded fails: with two packages on one line the second one
    is an entry of the section and is not collected. *)
Lemma imports_every_entry_counterexample :
  exists d section,
    _identify_dependencies Examples.r_package = Ok d
    /\ imports_section Examples.description_text = Ok section
    /\ In "ggplot2" (every_entry section)
    /\ ~ In "ggplot2" (r d).
Proof.
  eexists. eexists. split; [reflexivity|]. split; [reflexivity|]. split.
  - vm_compute. tauto.
  - vm_compute. intuition discriminate.
Qed.

End RepositoryHandlerFacts.

(** ** The model client *)

Module LLMAgentFacts.
Import Py Json Effects LLMAgent.
Local Open Scope list_scope.

Section ClientFacts.

Variable endpoint : state -> prompt -> outcome.

Ltac close_run :=
  eexists; split; [rewrite <- !List.app_assoc; reflexivity|];
  cbn;
  repeat match goal with E : endpoint _ _ = _ |- _ => rewrite E; clear E end;
  cbn; repeat split; auto; lia.

(** C3. For every prompt, [query] calls the endpoint at most 3 times (and at
    least once).  The calls and waits of the run alternate: between two
    consecutive attempts there is exactly one wait, of 5.  Every attempt but
    the last one failed.  When [query] returns, it returns the content of
    the last attempt, so nothing is called after a success; when it raises,
    it raises the error of the last attempt, and that is the third attempt
    unless the error is outside [Exception]. *)
Theorem query_retries_at_most_three_times :
  forall (p : prompt) (st : state),
  exists new : list event,
    snd (query endpoint new_agent p st) = (st ++ new)%list
    /\ count_attempts new = List.length (outcomes endpoint st new)
    /\ (1 <= count_attempts new <= 3)%nat
    /\ calls_and_sleeps new = alternating p 5 (List.length (outcomes endpoint st new))
    /\ forallb failed (removelast (outcomes endpoint st new)) = true
    /\ match fst (query endpoint new_agent p st) with
       | Ok content =>
           last (outcomes endpoint st new) (Failure IndexError) = Completion content
       | Raise e =>
           last (outcomes endpoint st new) (Completion None) = Failure e
           /\ (List.length (outcomes endpoint st new) = 3 \/ is_Exception e = false)
       end.
Proof.
  intros p st.
  unfold query, new_agent, bind, log, emit, raise. cbn -[app].
  destruct (endpoint (st ++ [Log DEBUG (QueryingLLM p)]) p) as [c1|e1] eqn:E1;
    [close_run|].
  destruct (is_Exception e1) eqn:X1; [|close_run].
  cbn -[app].
  match goal with |- context [endpoint ?s p] =>
    lazymatch s with context [Sleep] => destruct (endpoint s p) as [c2|e2] eqn:E2 end
  end; [close_run|].
  destruct (is_Exception e2) eqn:X2; [|close_run].
  cbn -[app].
  match goal with |- context [endpoint ?s p] =>
    lazymatch s with context [ErrorQueryingLLM 2] => destruct (endpoint s p) as [c3|e3] eqn:E3 end
  end; [close_run|].
  destruct (is_Exception e3) eqn:X3; close_run.
Qed.

Lemma count_queries_app (a b : list event) :
  count_queries (a ++ b) = count_queries a + count_queries b.
Proof. unfold count_queries. now rewrite filter_app, length_app. Qed.

Ltac tally :=
  unfold count_queries; rewrite ?filter_app, ?List.length_app; simpl; lia.

Lemma attempts_count_queries (self : agent) (p : prompt) (range : list nat) :
  forall st, count_queries (snd (attempts endpoint self p range st)) = count_queries st.
Proof.
  induction range as [|attempt rest IH]; intros st; [reflexivity|].
  cbn [attempts].
  destruct (endpoint st p) as [content|e]; cbn [snd].
  - tally.
  - destruct (is_Exception e); cbn [snd].
    + unfold bind, log, emit, raise. cbn -[app Nat.ltb Nat.sub Nat.add].
      destruct (attempt <? max_retries self - 1)%nat.
      * cbn -[app Nat.ltb Nat.sub Nat.add]. rewrite IH. tally.
      * cbn -[app Nat.ltb Nat.sub Nat.add]. tally.
    + tally.
Qed.

Lemma query_count_queries (self : agent) (p : prompt) (st : state) :
  count_queries (snd (query endpoint self p st)) = count_queries st + 1.
Proof.
  unfold query, bind, log, emit. cbn -[app attempts].
  destruct (attempts _ _ _ _ _) as [[c|e] st'] eqn:E.
  all: apply (f_equal snd) in E; cbn [snd] in *; rewrite <- E.
  all: rewrite attempts_count_queries; tally.
Qed.

End ClientFacts.

End LLMAgentFacts.

(** ** The workflow inferrer *)

Module WorkflowAnalyzerFacts.
Import PyStr Py FS Json Effects LLMAgent LLMAgentFacts WorkflowAnalyzer.
Local Open Scope list_scope.

Section AnalyzerFacts.

Variable endpoint : state -> prompt -> outcome.
Variable json_loads : string -> option value.

Local Abbreviation query' := (query endpoint llm_agent).

(** The state after an [Ok] or a [Raise] of [query]: one more query either way. *)
Lemma query_result_count (p : prompt) (st st' : state) (res : result (option string)) :
  query' p st = (res, st') -> count_queries st' = count_queries st + 1.
Proof.
  intros E. apply (f_equal snd) in E. simpl in E. rewrite <- E.
  apply query_count_queries.
Qed.

Lemma entry_point_of_path (file : analysis_file) (reply : value) (found : list entry_point) :
  entry_point_of file reply = Some found ->
  forall ep, In ep found -> ep_path ep = af_path file.
Proof.
  unfold entry_point_of. destruct reply; simpl; try discriminate.
  destruct (truthy _); intros E; injection E as <-; simpl; [|tauto].
  intros ep [<-|[]]. reflexivity.
Qed.

Lemma entry_points_loop_count (cands : list analysis_file) :
  forall acc st eps st',
    entry_points_loop endpoint json_loads cands acc st = (Ok eps, st') ->
    count_queries st' = count_queries st + List.length cands
    /\ forall ep, In ep eps -> In ep acc \/ In (ep_path ep) (map af_path cands).
Proof.
  induction cands as [|file rest IH]; intros acc st eps st' E.
  - injection E as <- <-. split; [simpl; lia | auto].
  - cbn [entry_points_loop] in E. unfold bind at 1 in E.
    destruct (query' _ st) as [[reply|e] st1] eqn:Q; [|discriminate].
    apply query_result_count in Q.
    assert (W : forall st2,
      entry_points_loop endpoint json_loads rest acc
        (st1 ++ [Log WARNING (CouldNotParseEntryPoint (af_path file))]) = (Ok eps, st2) ->
      count_queries st2 = count_queries st + List.length (file :: rest)
      /\ forall ep, In ep eps -> In ep acc \/ In (ep_path ep) (map af_path (file :: rest))).
    { intros st2 E2. apply IH in E2. destruct E2 as (C & P). split.
      - rewrite C, count_queries_app, Q. unfold count_queries. simpl. lia.
      - intros ep H. destruct (P ep H); simpl; auto. }
    destruct (loads json_loads reply) as [v|]; [|exact (W _ E)].
    destruct (entry_point_of file v) as [found|] eqn:F; [|exact (W _ E)].
    apply IH in E. destruct E as (C & P). split.
    + rewrite C, Q. simpl. lia.
    + intros ep H. destruct (P ep H) as [H'|H']; [|simpl; auto].
      apply in_app_or in H'. destruct H' as [H'|H']; [auto|].
      right. left. symmetry. eapply entry_point_of_path; eauto.
Qed.

Lemma find_file_some (files : list analysis_file) (path : string) :
  In path (map af_path files) -> exists f, find_file files path = Some f.
Proof.
  unfold find_file. induction files as [|f files IH]; simpl; [tauto|].
  intros [<-|H].
  - rewrite String.eqb_refl. eauto.
  - destruct (af_path f =? path); eauto.
Qed.

Lemma workflows_loop_count (files : list analysis_file) (eps : list entry_point) :
  forall wfs st wfs' st',
    (forall ep, In ep eps -> In (ep_path ep) (map af_path files)) ->
    workflows_loop endpoint json_loads files eps wfs st = (Ok wfs', st') ->
    count_queries st' = count_queries st + List.length eps.
Proof.
  induction eps as [|ep rest IH]; intros wfs st wfs' st' P E.
  - injection E as <- <-. simpl. lia.
  - cbn [workflows_loop] in E.
    destruct (find_file_some files (ep_path ep)) as (f & Hf); [apply P; now left|].
    rewrite Hf in E.
    unfold bind at 1 in E.
    destruct (query' _ st) as [[reply|e] st1] eqn:Q; [|discriminate].
    apply query_result_count in Q.
    assert (P' : forall ep', In ep' rest -> In (ep_path ep') (map af_path files))
      by (intros; apply P; now right).
    assert (W : forall st2,
      workflows_loop endpoint json_loads files rest wfs
        (st1 ++ [Log WARNING (CouldNotParseWorkflow (ep_path ep))]) = (Ok wfs', st2) ->
      count_queries st2 = count_queries st + List.length (ep :: rest)).
    { intros st2 E2. apply IH in E2; [|exact P'].
      rewrite E2, count_queries_app, Q. unfold count_queries. simpl. lia. }
    destruct (loads json_loads reply) as [v|]; [|exact (W _ E)].
    destruct (setitem v _ _) as [workflow|]; [|exact (W _ E)].
    apply IH in E; [|exact P']. rewrite E, Q. simpl. lia.
Qed.

Lemma scaling_count (wfs : list value) (st st' : state) (v : value) :
  _analyze_scaling_limitations endpoint json_loads wfs st = (Ok v, st') ->
  count_queries st' = count_queries st + match wfs with [] => 0 | _ => 1 end.
Proof.
  destruct wfs as [|w wfs]; cbn [_analyze_scaling_limitations].
  - intros E. injection E as <- <-. lia.
  - unfold bind at 1. destruct (query' _ st) as [[reply|e] st1] eqn:Q; [|discriminate].
    apply query_result_count in Q.
    destruct (loads json_loads reply); intros E; injection E as <- <-.
    + lia.
    + rewrite count_queries_app, Q. unfold count_queries. simpl. lia.
Qed.

Lemma bottlenecks_count (wfs : list value) (st st' : state) (v : value) :
  _analyze_bottlenecks endpoint json_loads wfs st = (Ok v, st') ->
  count_queries st' = count_queries st + match wfs with [] => 0 | _ => 1 end.
Proof.
  destruct wfs as [|w wfs]; cbn [_analyze_bottlenecks].
  - intros E. injection E as <- <-. lia.
  - unfold bind at 1. destruct (query' _ st) as [[reply|e] st1] eqn:Q; [|discriminate].
    apply query_result_count in Q.
    destruct (loads json_loads reply); intros E; injection E as <- <-.
    + lia.
    + rewrite count_queries_app, Q. unfold count_queries. simpl. lia.
Qed.

Lemma potential_entry_points_incl (files : list analysis_file) :
  incl (potential_entry_points files) files.
Proof.
  unfold potential_entry_points.
  destruct (filter looks_like_entry_point files) as [|f l] eqn:E.
  - apply incl_refl.
  - rewrite <- E. intros x H. apply filter_In in H. tauto.
Qed.


(** C5, as the code has it.  A run of the Workflow Inferrer that completes
    makes one Model Client call per candidate, one more per accepted entry
    point, and the two aggregate calls when at least one workflow was
    parsed (none otherwise). *)
Theorem calls_of_a_run :
  forall (repo_path : string) (tree : node) (st st' : state) (res : workflow_analysis),
    analyze_workflow endpoint json_loads repo_path tree st = (Ok res, st') ->
    count_queries st'
    = count_queries st
      + List.length (potential_entry_points (_get_analysis_files (walk EmptyString tree)))
      + List.length (entry_points res)
      + aggregate_calls res.
Proof.
  intros repo_path tree st st' res.
  unfold analyze_workflow, bind at 1, log, emit. cbn [fst snd].
  set (files := _get_analysis_files (walk EmptyString tree)).
  set (st0 := st ++ [Log INFO (AnalyzingWorkflowFor repo_path)]).
  assert (C0 : count_queries st0 = count_queries st).
  { unfold st0. rewrite count_queries_app. unfold count_queries. simpl. lia. }
  unfold logging_errors.
  match goal with |- (match ?body st0 with _ => _ end) = _ -> _ =>
    destruct (body st0) as [[res'|e] st1] eqn:E end.
  2:{ destruct (is_Exception e); discriminate. }
  intros R. injection R as -> ->.
  unfold bind at 1 in E. unfold _analyze_entry_points in E.
  destruct (entry_points_loop _ _ _ _ st0) as [[eps|e] s1] eqn:E1; [|discriminate].
  apply entry_points_loop_count in E1. destruct E1 as (C1 & P1).
  unfold bind at 1 in E. unfold _analyze_workflows in E.
  destruct (workflows_loop _ _ _ _ _ s1) as [[wfs|e] s2] eqn:E2; [|discriminate].
  apply workflows_loop_count in E2.
  2:{ intros ep H. destruct (P1 ep H) as [[]|H'].
      apply in_map_iff in H'. destruct H' as (f & <- & Hf).
      apply in_map. now apply potential_entry_points_incl. }
  unfold bind at 1 in E.
  destruct (_analyze_scaling_limitations _ _ _ s2) as [[sc|e] s3] eqn:E3; [|discriminate].
  apply scaling_count in E3.
  unfold bind at 1 in E.
  destruct (_analyze_bottlenecks _ _ _ s3) as [[bn|e] s4] eqn:E4; [|discriminate].
  apply bottlenecks_count in E4.
  unfold bind, log, emit, ret in E. injection E as <- <-.
  rewrite count_queries_app. unfold aggregate_calls. cbn [entry_points workflows].
  rewrite E4, E3, E2, C1, C0. unfold count_queries at 2. simpl.
  destruct wfs; lia.
Qed.

(** C10. With no parsed workflow, the scaling analysis returns the empty
    structure and the bottleneck analysis the empty list, and the history is
    left as it was: no query is issued, and nothing is logged either. *)
Theorem no_workflows_no_query :
  forall st : state,
    _analyze_scaling_limitations endpoint json_loads [] st = (Ok (JDict []), st)
    /\ _analyze_bottlenecks endpoint json_loads [] st = (Ok (JList []), st).
Proof. intros st. split; reflexivity. Qed.

End AnalyzerFacts.

Import RunExamples.


Lemma calls_of_a_run_witness :
  exists res st',
    analyze_workflow (scripted full_run) example_loads "/work/repos/demo" two_scripts []
    = (Ok res, st')
    /\ count_queries st' = 0 + 2 + 1 + 2
    /\ count_attempts st' = 6.
Proof.
  eexists. eexists. split; [reflexivity|]. split; [|reflexivity].
  exact (calls_of_a_run (scripted full_run) example_loads "/work/repos/demo"
           two_scripts [] _ _ eq_refl).
Defined.

(** C5 as it is worded fails.  A run whose only candidate is rejected makes
    one call, where two per accepted entry point plus two would be 2; a run
    with one accepted and one unusable candidate makes five, where the
    formula gives 4. *)
Lemma claimed_calls_counterexample :
  (exists res st',
     analyze_workflow (scripted rejected) example_loads "/work/repos/demo" one_script []
     = (Ok res, st')
     /\ count_queries st' = 1 /\ claimed_calls res = 2)
  /\ (exists res st',
        analyze_workflow (scripted full_run) example_loads "/work/repos/demo" two_scripts []
        = (Ok res, st')
        /\ count_queries st' = 5 /\ claimed_calls res = 4).
Proof.
  split; eexists; eexists; (split; [reflexivity | split; reflexivity]).
Qed.

End WorkflowAnalyzerFacts.

(** ** The command line program *)

Module MainFacts.
Import PyStr Py Main.

Section ProgramFacts.

Variable world : Type.
Variables logger_error logger_info : log_line -> world -> world.
Variables repo_structure workflow_analysis output_analysis documentation : Type.
Variable clone_repository :
  string -> bool -> world -> result string * world.
Variable analyze_repository_structure :
  string -> bool -> world -> result repo_structure * world.
Variable analyze_workflow :
  string -> string -> string -> float -> world -> result workflow_analysis * world.
Variable analyze_outputs :
  string -> string -> string -> float -> world -> result output_analysis * world.
Variable generate_documentation :
  string -> repo_structure -> workflow_analysis -> output_analysis ->
  string -> string -> float -> world -> result documentation * world.
Variable publish_documentation :
  string -> string -> documentation -> world -> result unit * world.

Local Abbreviation run :=
  (main world logger_error logger_info
     repo_structure workflow_analysis output_analysis documentation
     clone_repository analyze_repository_structure analyze_workflow analyze_outputs
     generate_documentation publish_documentation).

(** The function [main], once it is called, with no credential on the
    command line and none in the environment (absent or empty): it reports
    the missing credential through the logger and returns.  Whatever the
    components are, the world it leaves is the world it found plus that one
    report, which the configured handlers print and append to the log file:
    nothing was cloned, no model was called and no file of the documentation
    was written.  The program as shipped does not get this far, see
    [StartupFacts]. *)
Lemma missing_credential_stops_before_any_work :
  forall (a : args) (getenv : option string) (w : world),
    supplied (api_key a) = false ->
    supplied getenv = false ->
    run a getenv w = (Ok tt, logger_error NoApiKeyProvided w)
    /\ forall (X : Type) (observe : world -> X),
         (forall l w', observe (logger_error l w') = observe w') ->
         observe (snd (run a getenv w)) = observe w.
Proof.
  intros a getenv w Ha He.
  assert (E : run a getenv w = (Ok tt, logger_error NoApiKeyProvided w)).
  { unfold main, or_else. rewrite Ha.
    destruct getenv as [k|]; [|reflexivity].
    simpl in He. now rewrite He. }
  split; [exact E|].
  intros X observe H. rewrite E. apply H.
Qed.

End ProgramFacts.

Import MainExamples.

Lemma missing_credential_stops_before_any_work_example :
  program no_key None fresh = (Ok tt, mkWorld 0 0 0 [NoApiKeyProvided])
  /\ program with_key None fresh
     = (Ok tt, mkWorld 1 3 1 [DocumentationSaved "./output"]).
Proof.
  split; [|reflexivity].
  exact (proj1 (missing_credential_stops_before_any_work world logger logger
                  unit unit unit unit clone classify ask ask generate publish
                  no_key None fresh eq_refl eq_refl)).
Qed.

End MainFacts.

(** ** More facts about the string operations *)

Module PyStrMore.
Import PyStr PyStrFacts.

Lemma contains_char_cons (o c : ascii) (s : string) :
  contains (str1 o) (String c s) = Ascii.eqb c o || contains (str1 o) s.
Proof. cbn [contains]. now rewrite prefix_str1. Qed.

Lemma contains_char_app (o : ascii) (a b : string) :
  contains (str1 o) (a ++ b) = contains (str1 o) a || contains (str1 o) b.
Proof.
  induction a as [|c a IH]; [reflexivity|].
  cbn [append]. rewrite !contains_char_cons, IH. apply orb_assoc.
Qed.

(** The fields of a split at a character do not contain it. *)
Lemma split_char_fields (o : ascii) (s : string) :
  forall cur,
    contains (str1 o) cur = false ->
    Forall (fun f => contains (str1 o) f = false) (split_from (str1 o) 0 cur s).
Proof.
  induction s as [|c s IH]; intros cur H.
  - repeat constructor. exact H.
  - cbn [split_from]. rewrite prefix_str1.
    destruct (Ascii.eqb c o) eqn:E.
    + constructor; [exact H|]. apply IH. reflexivity.
    + apply IH. rewrite contains_char_app, H.
      change (str1 c) with (String c EmptyString).
      rewrite contains_char_cons, E. reflexivity.
Qed.

Lemma split_from_nonempty (sep : string) (s : string) :
  forall skip cur, split_from sep skip cur s <> [].
Proof.
  induction s as [|c s IH]; intros skip cur; cbn [split_from]; [discriminate|].
  destruct skip; [|apply IH].
  destruct (prefix sep (String c s)); [discriminate | apply IH].
Qed.

(** Taking occurrences out of a text adds no character. *)
Lemma remove_keeps_absent (o : ascii) (old s : string) :
  forall skip,
    contains (str1 o) s = false ->
    contains (str1 o) (replace_from old EmptyString skip s) = false.
Proof.
  induction s as [|c s IH]; intros skip H; [reflexivity|].
  rewrite contains_char_cons in H. apply orb_false_iff in H. destruct H as (Hc & Hs).
  cbn [replace_from]. destruct skip; [|now apply IH].
  destruct (prefix old (String c s)).
  - cbn [append]. now apply IH.
  - rewrite contains_char_cons, Hc. now apply IH.
Qed.

(** Replacing the first occurrence: what precedes it is kept, and the
    replacement goes on after it. *)
Lemma replace_first (old' : string) (z : ascii) (new a b : string) :
  contains (old' ++ str1 z) (a ++ old') = false ->
  replace_from (old' ++ str1 z) new 0 (a ++ (old' ++ str1 z) ++ b)
  = a ++ new ++ replace_from (old' ++ str1 z) new 0 b.
Proof.
  set (old := old' ++ str1 z).
  assert (Hskip : forall x k, String.length x = k ->
            replace_from old new k (x ++ b) = replace_from old new 0 b).
  { induction x as [|c x IHx]; intros k Hk; subst k; [reflexivity|]. simpl. now apply IHx. }
  induction a as [|c a IH]; intros H.
  - cbn [append].
    destruct old as [|c0 t] eqn:Eold.
    { unfold old in Eold. destruct old'; discriminate. }
    cbn [append replace_from].
    change (String c0 (t ++ b)) with (String c0 t ++ b).
    rewrite prefix_app_self.
    replace (String.length (String c0 t) - 1) with (String.length t) by (simpl; lia).
    now rewrite Hskip.
  - apply contains_cons in H. destruct H as (Hp & Hc).
    cbn [append replace_from].
    assert (Hp' : prefix old (String c (a ++ old ++ b)) = false).
    { unfold old at 2. rewrite str_app_assoc, <- str_app_assoc.
      change (String c ((a ++ old') ++ str1 z ++ b))
        with (String c (a ++ old') ++ (str1 z ++ b)).
      rewrite prefix_app_long; [exact Hp|].
      unfold old. simpl. rewrite !str_length_app. simpl. lia. }
    rewrite Hp', IH by exact Hc. reflexivity.
Qed.

Lemma replace_none (old new s : string) :
  contains old s = false -> replace_from old new 0 s = s.
Proof.
  induction s as [|c s IH]; intros H; [reflexivity|].
  apply contains_cons in H. destruct H as (Hp & Hc).
  cbn [replace_from]. now rewrite Hp, IH.
Qed.

(** The last field of a split at a character is what follows the last
    occurrence. *)
Lemma split_char_last (o : ascii) (a b : string) :
  contains (str1 o) b = false ->
  forall cur,
    last (split_from (str1 o) 0 cur (a ++ str1 o ++ b)) EmptyString = b.
Proof.
  intros Hb. induction a as [|c a IH]; intros cur.
  - change (EmptyString ++ str1 o ++ b) with (String o b).
    cbn [split_from]. rewrite prefix_str1, Ascii.eqb_refl.
    change (String.length (str1 o) - 1) with 0.
    rewrite (split_none _ _ EmptyString Hb). reflexivity.
  - cbn [append split_from]. rewrite prefix_str1.
    destruct (Ascii.eqb c o).
    + change (String.length (str1 o) - 1) with 0.
      pose proof (split_from_nonempty (str1 o) (a ++ str1 o ++ b) 0 EmptyString) as N.
      specialize (IH EmptyString).
      destruct (split_from (str1 o) 0 EmptyString (a ++ str1 o ++ b)); [congruence|exact IH].
    + apply IH.
Qed.

Lemma last_Forall {A} (P : A -> Prop) (l : list A) (d : A) :
  Forall P l -> P d -> P (last l d).
Proof.
  induction 1 as [|x l Hx Hl IH]; intros Hd; [exact Hd|].
  destruct l; [exact Hx | now apply IH].
Qed.

End PyStrMore.

(** ** The repository acquirer *)

Module AcquirerFacts.
Import PyStr PyStrFacts PyStrMore Py Acquirer.

(** X1. The repository name taken from a URL never contains a slash,
    whatever the URL is; a URL that ends in a slash gives the empty name. *)
Theorem repo_name_has_no_slash :
  forall url : string,
    contains "/" (_extract_repo_name url) = false
    /\ _extract_repo_name (url ++ "/") = EmptyString.
Proof.
  intros url. unfold _extract_repo_name, replace, split. split.
  - apply remove_keeps_absent.
    apply (last_Forall (fun f => contains "/" f = false)); [|reflexivity].
    apply (split_char_fields "/"). reflexivity.
  - replace (url ++ "/") with (url ++ str1 "/" ++ EmptyString) by reflexivity.
    rewrite (split_char_last "/" url EmptyString eq_refl). reflexivity.
Qed.

(** X2. For a URL of the usual shape, anything up to a slash followed by a
    name and the suffix [.git], the repository name is that name, provided
    the name has no slash and [.git] does not occur in the name (nor
    across its end). *)
Theorem repo_name_of_git_url :
  forall base name : string,
    contains "/" name = false ->
    contains ".git" (name ++ ".gi") = false ->
    _extract_repo_name (base ++ "/" ++ name ++ ".git") = name
    /\ _extract_repo_name (base ++ "/" ++ name) = name.
Proof.
  intros base name Hslash Hgit.
  assert (Hn : contains ".git" name = false) by exact (contains_app_l_false _ _ _ Hgit).
  unfold _extract_repo_name, replace, split. split.
  - rewrite (split_char_last "/" base (name ++ ".git")).
    + etransitivity;
        [exact (replace_first ".gi" "t" EmptyString name EmptyString Hgit)|].
      cbn [append replace_from]. apply str_app_empty_r.
    + change "/" with (str1 "/"). rewrite contains_char_app.
      change (str1 "/") with "/". now rewrite Hslash.
  - rewrite (split_char_last "/" base name Hslash). now apply replace_none.
Qed.

Lemma repo_name_of_git_url_witness :
  _extract_repo_name "https://github.com/octo/demo.git" = "demo"
  /\ _extract_repo_name "https://github.com/octo/demo" = "demo".
Proof.
  exact (repo_name_of_git_url "https://github.com/octo" "demo" eq_refl eq_refl).
Defined.

Section DiskFacts.

Local Open Scope list_scope.

Variable fails : history -> op -> option exn.
Variable path_exists : history -> string -> bool.

(** X3. With [skip_clone] set, [clone_repository] never removes anything,
    however the run ends (the log line not changing what exists); and when
    the target path is present it returns the path having only written a
    log line: nothing is created or cloned either. *)
Theorem skip_clone_never_removes :
  forall (self : handler) (h : history),
    skip_clone self = true ->
    (forall h' l, path_exists (h' ++ [Info l]) (repo_path self)
                  = path_exists h' (repo_path self)) ->
    exists new,
      snd (clone_repository fails path_exists self h) = h ++ new
      /\ existsb is_rmtree new = false
      /\ (path_exists h (repo_path self) = true ->
          fst (clone_repository fails path_exists self h) = Ok (repo_path self)
          /\ filter is_effect new = []).
Proof.
  intros self h Hs Hlog. unfold clone_repository. rewrite Hs, andb_true_r.
  destruct (path_exists h (repo_path self)) eqn:He.
  - eexists. split; [reflexivity|]. split; [reflexivity|]. intros _. split; reflexivity.
  - unfold bind, note, logging_errors, perform, ret. rewrite Hlog, He.
    destruct (fails _ (MakeDirs _)) as [e2|].
    + destruct (is_Exception e2); eexists;
        (split; [cbn [snd]; rewrite <- !List.app_assoc; reflexivity|]);
        (split; [reflexivity | discriminate]).
    + destruct (fails _ (CloneFrom _ _)) as [e3|].
      * destruct (is_Exception e3); eexists;
          (split; [cbn [snd]; rewrite <- !List.app_assoc; reflexivity|]);
          (split; [reflexivity | discriminate]).
      * eexists;
          (split; [cbn [snd]; rewrite <- !List.app_assoc; reflexivity|]);
          (split; [reflexivity | discriminate]).
Qed.

(** X4. Without [skip_clone], a target path that exists is removed before
    anything else is done, and the repository is cloned afresh: when no
    operation fails the run is the removal, the creation of the parent
    directory and the clone, in this order, and the path is returned. *)
Theorem existing_checkout_is_removed :
  forall (self : handler) (h : history),
    skip_clone self = false ->
    path_exists h (repo_path self) = true ->
    (forall h' l, path_exists (h' ++ [Info l]) (repo_path self)
                  = path_exists h' (repo_path self)) ->
    (forall h' o, fails h' o = None) ->
    exists new,
      clone_repository fails path_exists self h = (Ok (repo_path self), h ++ new)
      /\ filter is_effect new
         = [Rmtree (repo_path self);
            MakeDirs (PyPath.dirname (repo_path self));
            CloneFrom (repo_url self) (repo_path self)].
Proof.
  intros self h Hs He Hlog Hf. unfold clone_repository.
  rewrite Hs, andb_false_r.
  unfold bind, note, logging_errors, perform, ret.
  rewrite Hlog, He, !Hf.
  eexists. split.
  - rewrite <- !List.app_assoc. reflexivity.
  - reflexivity.
Qed.

(** X5. An [Exception] raised while removing, creating the parent or
    cloning leaves [clone_repository] as the same exception, after an error
    line in the log; whatever failed, nothing is attempted after it. *)
Theorem failing_clone_is_logged_and_raised :
  forall (self : handler) (h : history) (e : exn) (h' : history),
    clone_repository fails path_exists self h = (Raise e, h') ->
    is_Exception e = true ->
    exists before o,
      h' = before ++ [o; Error (ErrorCloning e)]
      /\ fails before o = Some e.
Proof.
  intros self h e h' R He. unfold clone_repository in R.
  destruct (path_exists h (repo_path self) && skip_clone self); [discriminate|].
  unfold bind, note, logging_errors, perform, ret in R.
  set (h0 := h ++ [Info (Cloning (repo_url self) (repo_path self))]) in *.
  destruct (path_exists h0 (repo_path self)).
  - destruct (fails h0 (Rmtree (repo_path self))) as [e1|] eqn:F1.
    + destruct (is_Exception e1) eqn:X; injection R as <- <-; [|congruence].
      exists h0, (Rmtree (repo_path self)). split; [|exact F1].
      now rewrite <- List.app_assoc.
    + destruct (fails _ (MakeDirs _)) as [e2|] eqn:F2.
      * destruct (is_Exception e2) eqn:X; injection R as <- <-; [|congruence].
        eexists _, _. split; [|exact F2]. now rewrite <- List.app_assoc.
      * destruct (fails _ (CloneFrom _ _)) as [e3|] eqn:F3; [|discriminate].
        destruct (is_Exception e3) eqn:X; injection R as <- <-; [|congruence].
        eexists _, _. split; [|exact F3]. now rewrite <- List.app_assoc.
  - destruct (fails _ (MakeDirs _)) as [e2|] eqn:F2.
    + destruct (is_Exception e2) eqn:X; injection R as <- <-; [|congruence].
      eexists _, _. split; [|exact F2]. now rewrite <- List.app_assoc.
    + destruct (fails _ (CloneFrom _ _)) as [e3|] eqn:F3; [|discriminate].
      destruct (is_Exception e3) eqn:X; injection R as <- <-; [|congruence].
      eexists _, _. split; [|exact F3]. now rewrite <- List.app_assoc.
Qed.

End DiskFacts.

Import AcquirerExamples.

Lemma skip_clone_never_removes_witness :
  exists new,
    snd (clone_repository healthy present keeping []) = ([] ++ new)%list
    /\ existsb is_rmtree new = false
    /\ (present [] (repo_path keeping) = true ->
        fst (clone_repository healthy present keeping []) = Ok (repo_path keeping)
        /\ filter is_effect new = []).
Proof.
  exact (skip_clone_never_removes healthy present keeping [] eq_refl
           (fun _ _ => eq_refl)).
Defined.

Lemma existing_checkout_is_removed_witness :
  exists new,
    clone_repository healthy present refreshing []
    = (Ok (repo_path refreshing), ([] ++ new)%list)
    /\ filter is_effect new
       = [Rmtree "/work/repos/demo"; MakeDirs "/work/repos";
          CloneFrom "https://github.com/octo/demo.git" "/work/repos/demo"].
Proof.
  exact (existing_checkout_is_removed healthy present refreshing [] eq_refl eq_refl
           (fun _ _ => eq_refl) (fun _ _ => eq_refl)).
Defined.

Lemma failing_clone_is_logged_and_raised_witness :
  exists before o,
    snd (clone_repository offline present refreshing [])
    = (before ++ [o; Error (ErrorCloning (ApiError "could not resolve host"))])%list
    /\ offline before o = Some (ApiError "could not resolve host").
Proof.
  exact (failing_clone_is_logged_and_raised offline present refreshing []
           (ApiError "could not resolve host") _ eq_refl eq_refl).
Defined.

End AcquirerFacts.

(** ** The descriptor the classifier returns *)

Module DescriptorFacts.
Import PyStr PyStrFacts PyStrMore Py FS RepositoryHandler RepositoryHandlerFacts Descriptor.

Lemma language_count_incr (t k : string) (d : list (string * nat)) :
  language_count t (dict_incr k d)
  = language_count t d + (if k =? t then 1 else 0).
Proof.
  induction d as [|[k' n] d IH]; simpl.
  - destruct (k =? t); lia.
  - destruct (k' =? k) eqn:E; simpl.
    + apply String.eqb_eq in E. subst k'. destruct (k =? t); lia.
    + destruct (k' =? t) eqn:E'; [|exact IH].
      destruct (k =? t) eqn:E''; [|lia].
      apply String.eqb_eq in E', E''. subst. now rewrite String.eqb_refl in E.
Qed.

Lemma total_incr (k : string) (d : list (string * nat)) :
  total (dict_incr k d) = S (total d).
Proof.
  unfold total. induction d as [|[k' n] d IH]; simpl; [reflexivity|].
  destruct (k' =? k); simpl; [lia | rewrite IH; lia].
Qed.

Lemma keys_incr (k : string) (d : list (string * nat)) :
  forall x, In x (map fst (dict_incr k d)) -> x = k \/ In x (map fst d).
Proof.
  induction d as [|[k' n] d IH]; simpl; intros x H.
  - destruct H as [H|[]]. now left.
  - destruct (k' =? k); simpl in H; [tauto|].
    destruct H as [H|H]; [tauto|]. destruct (IH x H); tauto.
Qed.

Lemma NoDup_incr (k : string) (d : list (string * nat)) :
  NoDup (map fst d) -> NoDup (map fst (dict_incr k d)).
Proof.
  induction d as [|[k' n] d IH]; simpl; intros ND.
  - repeat constructor. simpl. tauto.
  - inversion ND as [|? ? Hn ND']; subst.
    destruct (k' =? k) eqn:E; simpl; constructor; auto.
    intros Hin. apply keys_incr in Hin. destruct Hin as [->|Hin]; [|tauto].
    now rewrite String.eqb_refl in E.
Qed.

Lemma records_of_type_snoc (t : string) (fs : list file_record) (r : file_record) :
  records_of_type t (fs ++ [r])%list
  = records_of_type t fs + (if file_type r =? t then 1 else 0).
Proof.
  unfold records_of_type. rewrite filter_app, List.length_app. simpl.
  destruct (file_type r =? t); reflexivity.
Qed.

Lemma visit_counted (st : list file_record * list (string * nat)) (e : entry) :
  counted st -> counted (visit st e).
Proof.
  intros (Hc & Hn & Ht). unfold visit.
  destruct (_is_binary_file (data e) || (getsize e >? 1000000)%Z); [now repeat split|].
  repeat split; cbn [fst snd].
  - intros t. rewrite language_count_incr, records_of_type_snoc, Hc. reflexivity.
  - now apply NoDup_incr.
  - rewrite total_incr, List.length_app, Ht. simpl. lia.
Qed.

Lemma fold_visit_counted (l : list entry) :
  forall st, counted st -> counted (fold_left visit l st).
Proof.
  induction l as [|e l IH]; intros st H; simpl; [exact H|].
  apply IH, visit_counted, H.
Qed.

(** X6. The language statistics of a descriptor count its file records: for
    every category the count is the number of records of that category (0
    for a category that is not a key), no category is listed twice, and the
    counts add up to the number of records. *)
Theorem languages_count_the_files :
  forall (h : handler) (s : repo_structure),
    analyze_repository_structure h = Ok s ->
    (forall t, language_count t (languages s) = records_of_type t (files s))
    /\ NoDup (map fst (languages s))
    /\ total (languages s) = List.length (files s).
Proof.
  intros h s. unfold analyze_repository_structure.
  destruct (_identify_dependencies h) as [d|e]; simpl; [|discriminate].
  intros E. injection E as <-. cbn [languages files].
  apply (fold_visit_counted _ ([], [])).
  repeat split; simpl; auto. constructor.
Qed.

Lemma languages_count_the_files_witness :
  exists s,
    analyze_repository_structure Examples.scenario_A = Ok s
    /\ languages s = [("text", 1); ("python", 1)]
    /\ total (languages s) = List.length (files s).
Proof.
  eexists. split; [reflexivity|]. split; [reflexivity|].
  exact (proj2 (proj2 (languages_count_the_files Examples.scenario_A _ eq_refl))).
Defined.

Lemma entry_points_incl (fs : list file_record) :
  incl (_identify_entry_points fs) (map file_path fs).
Proof.
  induction fs as [|f fs IH]; simpl; [apply incl_refl|].
  repeat match goal with
         | |- context [if ?b then _ else _] => destruct b
         end;
    try (apply incl_cons; [now left | now apply incl_tl]);
    now apply incl_tl.
Qed.

(** X7. Every entry point of a descriptor is the path of one of its file
    records, so of a walked file that decodes and is not over the size
    ceiling: a binary or oversized [main.py] is never an entry point. *)
Theorem entry_points_are_kept_files :
  forall (h : handler) (s : repo_structure) (p : string),
    analyze_repository_structure h = Ok s ->
    In p (entry_points s) ->
    In p (map file_path (files s))
    /\ exists e, In e (walk EmptyString (tree h))
                 /\ rel_path e = p
                 /\ _is_binary_file (data e) = false
                 /\ (getsize e <= 1000000)%Z.
Proof.
  intros h s p Hs Hp.
  apply files_of_structure in Hs. destruct Hs as (Hf & He & _).
  rewrite He in Hp. apply entry_points_incl in Hp. split; [exact Hp|].
  rewrite Hf, map_map in Hp. apply in_map_iff in Hp.
  destruct Hp as (e & Hpe & Hin). apply filter_In in Hin. destruct Hin as (Hw & Hk).
  exists e. split; [exact Hw|]. split; [exact Hpe|].
  unfold kept in Hk. apply negb_true_iff, orb_false_iff in Hk. destruct Hk as (Hb & Hz).
  split; [exact Hb|]. rewrite Z.gtb_ltb in Hz. now apply Z.ltb_ge in Hz.
Qed.

Lemma entry_points_are_kept_files_witness :
  In "main.py" (map file_path [mkFile "requirements.txt" "text" 40; mkFile "main.py" "python" 9])
  /\ exists e, In e (walk EmptyString (tree Examples.scenario_A))
               /\ rel_path e = "main.py"
               /\ _is_binary_file (data e) = false
               /\ (getsize e <= 1000000)%Z.
Proof.
  refine (entry_points_are_kept_files Examples.scenario_A _ "main.py" eq_refl _).
  simpl. tauto.
Defined.

End DescriptorFacts.

(** ** White space at the ends of a text *)

Module PyStripFacts.
Import PyStr PyStrFacts PyStrMore.

Lemma rstrip_cons (c : ascii) (s : string) :
  rstrip (String c s)
  = match rstrip s with
    | EmptyString => if isspace c then EmptyString else str1 c
    | t => String c t
    end.
Proof. reflexivity. Qed.

Lemma rstrip_idempotent (s : string) : rstrip (rstrip s) = rstrip s.
Proof.
  induction s as [|c s IH]; [reflexivity|].
  rewrite rstrip_cons. destruct (rstrip s) as [|d t] eqn:E.
  - destruct (isspace c) eqn:Ec; [reflexivity|].
    unfold str1. rewrite rstrip_cons. cbn [rstrip]. now rewrite Ec.
  - rewrite rstrip_cons, IH. reflexivity.
Qed.

Lemma lstrip_head (s : string) :
  lstrip s = EmptyString
  \/ exists c t, lstrip s = String c t /\ isspace c = false.
Proof.
  induction s as [|c s IH]; [now left|].
  cbn [lstrip]. destruct (isspace c) eqn:E; [exact IH|].
  right. now exists c, s.
Qed.

Lemma rstrip_head (c : ascii) (s : string) :
  isspace c = false -> exists t, rstrip (String c s) = String c t.
Proof.
  intros E. cbn [rstrip]. destruct (rstrip s).
  - rewrite E. now exists EmptyString.
  - eexists. reflexivity.
Qed.

Lemma strip_head (s : string) :
  strip s = EmptyString
  \/ exists c t, strip s = String c t /\ isspace c = false.
Proof.
  unfold strip. destruct (lstrip_head s) as [->|(c & t & -> & E)]; [now left|].
  right. destruct (rstrip_head c t E) as (u & ->). now exists c, u.
Qed.

Lemma lstrip_strip (s : string) : lstrip (strip s) = strip s.
Proof.
  destruct (strip_head s) as [->|(c & t & -> & E)]; [reflexivity|].
  cbn [lstrip]. now rewrite E.
Qed.

Lemma strip_idempotent (s : string) : strip (strip s) = strip s.
Proof.
  unfold strip at 1. rewrite lstrip_strip. unfold strip. apply rstrip_idempotent.
Qed.

Lemma rstrip_app_space (o : ascii) (s : string) :
  isspace o = true -> rstrip (s ++ str1 o) = rstrip s.
Proof.
  intros E. induction s as [|c s IH].
  - cbn. now rewrite E.
  - cbn [append rstrip]. now rewrite IH.
Qed.

Lemma strip_app_space (o : ascii) (s : string) :
  isspace o = true -> strip (s ++ str1 o) = strip s.
Proof.
  intros E. unfold strip. induction s as [|c s IH].
  - cbn. now rewrite E.
  - cbn [append lstrip]. destruct (isspace c); [exact IH|].
    change (String c (s ++ str1 o)) with (String c s ++ str1 o).
    now apply rstrip_app_space.
Qed.

(** Stripping adds no character. *)
Lemma lstrip_keeps_absent (o : ascii) (s : string) :
  contains (str1 o) s = false -> contains (str1 o) (lstrip s) = false.
Proof.
  induction s as [|c s IH]; intros H; [reflexivity|].
  cbn [lstrip]. destruct (isspace c); [|exact H].
  rewrite contains_char_cons in H. apply orb_false_iff in H. now apply IH.
Qed.

Lemma rstrip_keeps_absent (o : ascii) (s : string) :
  contains (str1 o) s = false -> contains (str1 o) (rstrip s) = false.
Proof.
  induction s as [|c s IH]; intros H; [reflexivity|].
  rewrite contains_char_cons in H. apply orb_false_iff in H. destruct H as (Hc & Hs).
  specialize (IH Hs). cbn [rstrip]. destruct (rstrip s) as [|d t].
  - destruct (isspace c); [reflexivity|].
    change (str1 c) with (String c EmptyString). now rewrite contains_char_cons, Hc.
  - now rewrite contains_char_cons, Hc, IH.
Qed.

Lemma strip_keeps_absent (o : ascii) (s : string) :
  contains (str1 o) s = false -> contains (str1 o) (strip s) = false.
Proof. intros H. now apply rstrip_keeps_absent, lstrip_keeps_absent. Qed.

(** The lines of a text hold a line feed at their end only. *)
Lemma lines_from_shape (s : string) :
  forall cur,
    contains nl cur = false ->
    Forall (fun l => exists b, contains nl b = false /\ (l = b \/ l = b ++ nl))
           (lines_from cur s).
Proof.
  induction s as [|c s IH]; intros cur H; cbn [lines_from].
  - destruct cur; constructor; [|constructor]. eexists. split; [exact H | now left].
  - destruct (Ascii.eqb c LF) eqn:E.
    + constructor; [|now apply IH]. exists cur. split; [exact H | now right].
    + apply IH. unfold nl in H |- *. rewrite contains_char_app, H.
      change (str1 c) with (String c EmptyString).
      now rewrite contains_char_cons, E.
Qed.

Lemma strip_line_no_nl (l : string) :
  (exists b, contains nl b = false /\ (l = b \/ l = b ++ nl)) ->
  contains nl (strip l) = false.
Proof.
  intros (b & Hb & [->| ->]).
  - now apply strip_keeps_absent.
  - unfold nl at 2. rewrite strip_app_space by reflexivity. now apply strip_keeps_absent.
Qed.

End PyStripFacts.

(** ** Dependencies and file categories *)

Module DependencyFacts.
Import PyStr PyStrFacts PyStrMore PyStripFacts Py FS RepositoryHandler RepositoryHandlerFacts.

Lemma requirement_lines_In (ls : list string) (x : string) :
  In x (requirement_lines ls) ->
  exists l, In l ls /\ x = strip l /\ nonempty x = true /\ startswith x "#" = false.
Proof.
  induction ls as [|l ls IH]; cbn [requirement_lines]; [intros []|].
  destruct (nonempty (strip l) && negb (startswith (strip l) "#")) eqn:E.
  - intros [<-|H].
    + apply andb_true_iff in E. destruct E as (E1 & E2).
      apply negb_true_iff in E2. exists l. repeat split; auto. now left.
    + destruct (IH H) as (l' & Hl & R). exists l'. split; [now right | exact R].
  - intros H. destruct (IH H) as (l' & Hl & R). exists l'. split; [now right | exact R].
Qed.

Lemma nonempty_true (x : string) : nonempty x = true -> x <> EmptyString.
Proof. destruct x; [discriminate | discriminate]. Qed.

(** X8. Every Python dependency of a descriptor is a line of the
    requirements file with the white space at both ends removed: stripping it
    again changes nothing, it is not empty, does not start with the comment
    marker and holds no line feed.  The system dependencies are always
    empty. *)
Theorem python_dependencies_are_stripped_lines :
  forall (h : handler) (d : dependencies),
    _identify_dependencies h = Ok d ->
    system d = []
    /\ forall x : string,
         In x (python d) ->
         strip x = x
         /\ x <> EmptyString
         /\ startswith x "#" = false
         /\ contains nl x = false.
Proof.
  intros h d. unfold _identify_dependencies.
  destruct (lookup "requirements.txt" (children (tree h))) as [f|].
  - destruct (read_text f) as [text|e]; cbn [rbind]; [|discriminate].
    match goal with
    | |- rbind ?m _ = _ -> _ => destruct m as [rd|e]; cbn [rbind]; [|discriminate]
    end.
    intros E. injection E as <-. cbn [python system]. split; [reflexivity|].
    intros x Hx.
    apply requirement_lines_In in Hx. destruct Hx as (l & Hl & -> & Hn & Hc).
    repeat split; auto.
    + apply strip_idempotent.
    + now apply nonempty_true.
    + apply strip_line_no_nl.
      pose proof (lines_from_shape text EmptyString eq_refl) as F.
      rewrite Forall_forall in F. now apply F.
  - cbn [rbind].
    match goal with
    | |- rbind ?m _ = _ -> _ => destruct m as [rd|e]; cbn [rbind]; [|discriminate]
    end.
    intros E. injection E as <-. cbn [python system]. split; [reflexivity|].
    intros x [].
Qed.

Lemma python_dependencies_are_stripped_lines_witness :
  system (mkDeps ["numpy"; "pandas>=1.0"] [] []) = []
  /\ forall x : string,
       In x ["numpy"; "pandas>=1.0"] ->
       strip x = x
       /\ x <> EmptyString
       /\ startswith x "#" = false
       /\ contains nl x = false.
Proof.
  exact (python_dependencies_are_stripped_lines Examples.scenario_A _ eq_refl).
Defined.

Lemma before_comma_no_comma (s : string) : contains "," (before_comma s) = false.
Proof.
  induction s as [|c s IH]; [reflexivity|].
  cbn [before_comma]. destruct (Ascii.eqb c ",") eqn:E; [reflexivity|].
  change ","%string with (str1 ","). now rewrite contains_char_cons, E.
Qed.

Lemma before_comma_keeps_absent (o : ascii) (s : string) :
  contains (str1 o) s = false -> contains (str1 o) (before_comma s) = false.
Proof.
  induction s as [|c s IH]; intros H; [reflexivity|].
  rewrite contains_char_cons in H. apply orb_false_iff in H. destruct H as (Hc & Hs).
  cbn [before_comma]. destruct (Ascii.eqb c ","); [reflexivity|].
  now rewrite contains_char_cons, Hc, IH.
Qed.

Lemma before_comma_lstrip (s : string) :
  lstrip s = s -> lstrip (before_comma s) = before_comma s.
Proof.
  destruct s as [|c s]; [reflexivity|].
  cbn [lstrip before_comma]. destruct (isspace c) eqn:E.
  - intros H. exfalso.
    assert (L : forall t, String.length (lstrip t) <= String.length t).
    { induction t as [|a t IHt]; cbn [lstrip]; [lia|].
      destruct (isspace a); cbn [String.length] in *; lia. }
    specialize (L s). rewrite H in L. cbn [String.length] in L. lia.
  - intros _. destruct (Ascii.eqb c ","); [reflexivity|].
    cbn [lstrip]. now rewrite E.
Qed.

Lemma split_two (sep s : string) :
  sep <> EmptyString ->
  contains sep s = true ->
  forall cur, exists a b rest, split_from sep 0 cur s = a :: b :: rest.
Proof.
  intros Hsep. induction s as [|c s IH]; intros H cur.
  - destruct sep; [congruence | discriminate].
  - cbn [contains] in H. cbn [split_from].
    destruct (prefix sep (String c s)) eqn:P.
    + pose proof (split_from_nonempty sep s (String.length sep - 1) EmptyString) as N.
      destruct (split_from sep (String.length sep - 1) EmptyString s) as [|b rest];
        [congruence|].
      now exists cur, b, rest.
    + apply IH. exact H.
Qed.

Lemma imports_section_defined (content : string) :
  contains "Imports:" content = true ->
  exists section, imports_section content = Ok section.
Proof.
  intros H. unfold imports_section, split.
  destruct (split_two "Imports:" content ltac:(discriminate) H EmptyString)
    as (a & b & rest & ->).
  eexists. reflexivity.
Qed.

(** X9. Whenever the text of [DESCRIPTION] holds the marker [Imports:], the
    index 1 the code takes of the split is in range: the section is found,
    and no [IndexError] can arise there. *)
Theorem imports_section_is_found :
  forall content : string,
    contains "Imports:" content = true ->
    exists section, imports_section content = Ok section.
Proof. exact imports_section_defined. Qed.

Lemma imports_section_is_found_witness :
  exists section, imports_section Examples.description_text = Ok section.
Proof. exact (imports_section_is_found Examples.description_text eq_refl). Defined.

(** X10. Every R dependency of a descriptor is the text of a line of the
    imports section before its first comma: it is not empty, holds neither a
    comma nor a line feed and has no white space at its start.  White space
    before the comma is kept, since the line is stripped before it is split. *)
Theorem r_dependencies_are_first_entries :
  forall (h : handler) (d : dependencies) (x : string),
    _identify_dependencies h = Ok d ->
    In x (r d) ->
    x <> EmptyString
    /\ contains "," x = false
    /\ contains nl x = false
    /\ lstrip x = x.
Proof.
  intros h d x. unfold _identify_dependencies.
  match goal with
  | |- rbind ?m _ = _ -> _ => destruct m as [py|e]; cbn [rbind]; [|discriminate]
  end.
  destruct (lookup "DESCRIPTION" (children (tree h))) as [f|]; cbn [rbind].
  - destruct (read_text f) as [content|e]; cbn [rbind]; [|discriminate].
    destruct (contains "Imports:" content).
    + destruct (imports_section content) as [section|e]; cbn [rbind]; [|discriminate].
      intros E. injection E as <-. cbn [r]. rewrite import_lines_spec.
      intros Hx. apply filter_In in Hx. destruct Hx as (Hx & Hn).
      apply in_map_iff in Hx. destruct Hx as (l & <- & Hl).
      repeat split.
      * now apply nonempty_true.
      * apply before_comma_no_comma.
      * apply before_comma_keeps_absent, strip_keeps_absent.
        pose proof (split_char_fields LF section EmptyString eq_refl) as F.
        rewrite Forall_forall in F. now apply F.
      * apply before_comma_lstrip, lstrip_strip.
    + cbn [rbind]. intros E. injection E as <-. intros [].
  - intros E. injection E as <-. intros [].
Qed.

Lemma r_dependencies_are_first_entries_witness :
  (exists d, _identify_dependencies DescriptorExamples.spaced_package = Ok d
             /\ r d = ["dplyr "; "tidyr"])
  /\ "dplyr " <> EmptyString
  /\ contains "," "dplyr " = false
  /\ contains nl "dplyr " = false
  /\ lstrip "dplyr " = "dplyr ".
Proof.
  split; [eexists; split; reflexivity|].
  refine (r_dependencies_are_first_entries DescriptorExamples.spaced_package _ _ eq_refl _).
  simpl. tauto.
Defined.

(** X11. The analysis of a repository fails only on a manifest it cannot
    read: when it raises, the exception is the one that opening or decoding
    [requirements.txt] or [DESCRIPTION] at the root raised.  Files the walk
    cannot decode are skipped, but an undecodable manifest aborts the
    analysis; the lookup of the imports section never fails. *)
Theorem analysis_fails_only_on_unreadable_manifest :
  forall (h : handler) (e : exn),
    analyze_repository_structure h = Raise e ->
    (e = UnicodeDecodeError \/ e = IsADirectoryError)
    /\ exists name f,
         (name = "requirements.txt" \/ name = "DESCRIPTION")
         /\ lookup name (children (tree h)) = Some f
         /\ read_text f = Raise e.
Proof.
  intros h e. unfold analyze_repository_structure.
  destruct (_identify_dependencies h) as [d|e'] eqn:D; cbn [rbind]; [discriminate|].
  intros E. injection E as ->. revert D. unfold _identify_dependencies.
  assert (R : forall f, read_text f = Raise e ->
                        e = UnicodeDecodeError \/ e = IsADirectoryError).
  { intros [name size [s|ok lossy]|name cs]; cbn; intros Q; inversion Q; auto. }
  destruct (lookup "requirements.txt" (children (tree h))) as [f|] eqn:L1.
  - destruct (read_text f) as [text|e1] eqn:R1; cbn [rbind].
    + destruct (lookup "DESCRIPTION" (children (tree h))) as [g|] eqn:L2; cbn [rbind];
        [|discriminate].
      destruct (read_text g) as [content|e2] eqn:R2; cbn [rbind].
      * destruct (contains "Imports:" content) eqn:C; cbn [rbind]; [|discriminate].
        destruct (imports_section_defined content C) as (section & ->). discriminate.
      * intros Q. injection Q as ->. split; [now apply (R g)|].
        exists "DESCRIPTION", g. auto.
    + intros Q. injection Q as ->. split; [now apply (R f)|].
      exists "requirements.txt", f. auto.
  - cbn [rbind].
    destruct (lookup "DESCRIPTION" (children (tree h))) as [g|] eqn:L2; cbn [rbind];
      [|discriminate].
    destruct (read_text g) as [content|e2] eqn:R2; cbn [rbind].
    + destruct (contains "Imports:" content) eqn:C; cbn [rbind]; [|discriminate].
      destruct (imports_section_defined content C) as (section & ->). discriminate.
    + intros Q. injection Q as ->. split; [now apply (R g)|].
      exists "DESCRIPTION", g. auto.
Qed.

Lemma analysis_fails_only_on_unreadable_manifest_witness :
  (UnicodeDecodeError = UnicodeDecodeError \/ UnicodeDecodeError = IsADirectoryError)
  /\ exists name f,
       (name = "requirements.txt" \/ name = "DESCRIPTION")
       /\ lookup name (children (tree DescriptorExamples.binary_manifest)) = Some f
       /\ read_text f = Raise UnicodeDecodeError.
Proof.
  exact (analysis_fails_only_on_unreadable_manifest
           DescriptorExamples.binary_manifest UnicodeDecodeError eq_refl).
Defined.

End DependencyFacts.

(** ** File categories *)

Module FileTypeFacts.
Import PyStr PyStrFacts PyStrMore Py FS RepositoryHandler WorkflowAnalyzer Descriptor.

Lemma lower_char_slash (c : ascii) : Ascii.eqb (lower_char c) "/" = Ascii.eqb c "/".
Proof. destruct c as [[] [] [] [] [] [] [] []]; reflexivity. Qed.

Lemma lower_char_dot (c : ascii) : Ascii.eqb (lower_char c) "." = Ascii.eqb c ".".
Proof. destruct c as [[] [] [] [] [] [] [] []]; reflexivity. Qed.

Lemma rfind_from_map (f : ascii -> ascii) (c : ascii) (s : string) :
  (forall d, Ascii.eqb (f d) c = Ascii.eqb d c) ->
  forall i, rfind_from c i (map_chars f s) = rfind_from c i s.
Proof.
  intros H. induction s as [|d s IH]; intros i; [reflexivity|].
  cbn [map_chars rfind_from]. now rewrite IH, H.
Qed.

Lemma substring_map (f : ascii -> ascii) (s : string) :
  forall n m, substring n m (map_chars f s) = map_chars f (substring n m s).
Proof.
  induction s as [|c s IH]; intros [|n] [|m]; cbn [map_chars substring];
    try reflexivity; now rewrite ?IH.
Qed.

Lemma drop_map (f : ascii -> ascii) (s : string) :
  forall n, drop n (map_chars f s) = map_chars f (drop n s).
Proof.
  induction s as [|c s IH]; intros [|n]; cbn [map_chars drop]; try reflexivity.
  apply IH.
Qed.

Lemma existsb_map_chars (p : ascii -> bool) (f : ascii -> ascii) (s : string) :
  (forall c, p (f c) = p c) ->
  existsb p (list_ascii_of_string (map_chars f s)) = existsb p (list_ascii_of_string s).
Proof.
  intros H. induction s as [|c s IH]; [reflexivity|].
  cbn [map_chars list_ascii_of_string existsb]. now rewrite H, IH.
Qed.

(** Lowering the case of a name lowers the case of its extension. *)
Lemma splitext_ext_lower (p : string) :
  splitext_ext (lower p) = lower (splitext_ext p).
Proof.
  unfold splitext_ext, rfind, lower.
  rewrite !rfind_from_map by (apply lower_char_slash || apply lower_char_dot).
  destruct (rfind_from "." 0 p >? rfind_from "/" 0 p)%Z; [|reflexivity].
  rewrite substring_map, existsb_map_chars
    by (intros c; now rewrite lower_char_dot).
  destruct (existsb _ _); [apply drop_map | reflexivity].
Qed.

(** X12. The category of a file and the code-file test depend on the name
    only up to the case of its letters. *)
Theorem file_type_ignores_case :
  forall a b : string,
    lower a = lower b ->
    _determine_file_type a = _determine_file_type b
    /\ _is_code_file a = _is_code_file b.
Proof.
  intros a b H.
  assert (E : lower (splitext_ext a) = lower (splitext_ext b))
    by now rewrite <- !splitext_ext_lower, H.
  unfold _determine_file_type, _is_code_file. now rewrite E.
Qed.

Lemma file_type_ignores_case_witness :
  _determine_file_type "Model.RMD" = _determine_file_type "model.rmd"
  /\ _is_code_file "Model.RMD" = _is_code_file "model.rmd".
Proof. apply file_type_ignores_case. reflexivity. Defined.

Ltac by_extension ext :=
  repeat match goal with
         | |- context [String.eqb ext ?lit] =>
             destruct (String.eqb_spec ext lit) as [->|?]
         end.

Lemma code_file_iff (filename : string) :
  _is_code_file filename = true
  <-> (In (_determine_file_type filename) code_categories
       /\ lower (splitext_ext filename) <> ".cc").
Proof.
  unfold _is_code_file, _determine_file_type, mem, code_categories.
  generalize (lower (splitext_ext filename)). intros ext. cbn [existsb].
  by_extension ext; cbn;
    (split;
     [intros Q; first [discriminate Q | split; [tauto | discriminate]]
     | intros (Q & N);
       first [reflexivity | congruence
             | exfalso; repeat destruct Q as [Q|Q]; first [discriminate Q | exact Q]]]).
Qed.

(** X13. The inferrer's code-file test and the classifier's categories agree
    except on one extension: a file is a code file exactly when its category
    is one of the six programming languages and its extension is not [.cc],
    which the classifier counts as C++ and the inferrer leaves out. *)
Theorem code_files_and_categories :
  forall filename : string,
    _is_code_file filename = true
    <-> (In (_determine_file_type filename) code_categories
         /\ lower (splitext_ext filename) <> ".cc").
Proof. exact code_file_iff. Qed.

Lemma rfind_from_range (c : ascii) (s : string) :
  forall i, (rfind_from c i s = -1 \/ i <= rfind_from c i s)%Z.
Proof.
  induction s as [|d s IH]; intros i; cbn [rfind_from]; [now left|].
  destruct (IH (i + 1)%Z) as [E|E].
  - rewrite E. cbn. destruct (Ascii.eqb d c); [right; lia | now left].
  - destruct (0 <=? rfind_from c (i + 1) s)%Z; [right; lia|].
    destruct (Ascii.eqb d c); [right; lia | now left].
Qed.

Lemma rfind_from_absent (c : ascii) (s : string) :
  contains (str1 c) s = false -> forall i, rfind_from c i s = (-1)%Z.
Proof.
  induction s as [|d s IH]; intros H i; [reflexivity|].
  rewrite contains_char_cons in H. apply orb_false_iff in H. destruct H as (Hd & Hs).
  cbn [rfind_from]. rewrite (IH Hs), Hd. reflexivity.
Qed.

Lemma splitext_ext_no_dot (name : string) :
  contains "." name = false -> splitext_ext name = EmptyString.
Proof.
  intros H. unfold splitext_ext, rfind.
  rewrite (rfind_from_absent "." name H).
  destruct (rfind_from_range "/" name 0) as [E|E].
  - now rewrite E.
  - destruct (-1 >? rfind_from "/" 0 name)%Z eqn:G; [|reflexivity].
    rewrite Z.gtb_ltb in G. apply Z.ltb_lt in G. lia.
Qed.

Lemma splitext_ext_hidden (name : string) :
  contains "." name = false -> splitext_ext ("." ++ name) = EmptyString.
Proof.
  intros H. unfold splitext_ext, rfind. cbn [append rfind_from].
  rewrite (rfind_from_absent "." name H). cbn.
  destruct (rfind_from_range "/" name 1) as [E|E].
  - rewrite E. reflexivity.
  - destruct (0 <=? rfind_from "/" 1 name)%Z eqn:G; [|apply Z.leb_gt in G; lia].
    destruct (0 >? rfind_from "/" 1 name)%Z eqn:G'; [|reflexivity].
    rewrite Z.gtb_ltb in G'. apply Z.ltb_lt in G'. lia.
Qed.

(** X14. A name without a dot, and a name whose only dot is its first
    character (a hidden file such as [.py] or [.bashrc]), has no extension:
    its category is [other] and it is not a code file. *)
Theorem names_without_extension_are_other :
  forall name : string,
    contains "." name = false ->
    _determine_file_type name = "other"
    /\ _is_code_file name = false
    /\ _determine_file_type ("." ++ name) = "other"
    /\ _is_code_file ("." ++ name) = false.
Proof.
  intros name H. unfold _determine_file_type, _is_code_file.
  rewrite (splitext_ext_no_dot name H), (splitext_ext_hidden name H).
  repeat split.
Qed.

Lemma names_without_extension_are_other_witness :
  _determine_file_type "py" = "other"
  /\ _is_code_file "py" = false
  /\ _determine_file_type ".py" = "other"
  /\ _is_code_file ".py" = false.
Proof. apply (names_without_extension_are_other "py"). reflexivity. Defined.

End FileTypeFacts.

(** ** The model client, continued *)

Module LLMAgentMore.
Import PyStr PyStrFacts PyStrMore Py Json Effects LLMAgent LLMAgentText.

Section RetryFacts.

Variable endpoint : state -> prompt -> outcome.
Local Open Scope list_scope.

Lemma count_attempts_app (a b : list event) :
  count_attempts (a ++ b) = count_attempts a + count_attempts b.
Proof. unfold count_attempts. now rewrite filter_app, List.length_app. Qed.

Lemma count_sleeps_app (a b : list event) :
  count_sleeps (a ++ b) = count_sleeps a + count_sleeps b.
Proof. unfold count_sleeps. now rewrite filter_app, List.length_app. Qed.

Ltac only_attempt :=
  try solve [ auto | lia | discriminate
            | intros ? ?; repeat match goal with
                                 | H : _ \/ _ |- _ => destruct H
                                 | H : False |- _ => destruct H
                                 | H : In _ [] |- _ => destruct H
                                 | H : _ = Sleep _ |- _ => discriminate H
                                 end ].

(** One failed attempt: the wait and the next attempt, or the last error. *)
Lemma attempts_failure (self : agent) (p : prompt) (i : nat) (rest : list nat)
    (st : state) (e : exn) :
  endpoint st p = Failure e ->
  is_Exception e = true ->
  attempts endpoint self p (i :: rest) st
  = if (i <? max_retries self - 1)%nat
    then attempts endpoint self p rest
           ((((st ++ [Attempt p])
              ++ [Log WARNING (ErrorQueryingLLM (i + 1) (max_retries self) e)])
             ++ [Log INFO (RetryingIn (retry_delay self))])
            ++ [Sleep (retry_delay self)])
    else (Raise e,
          ((st ++ [Attempt p])
           ++ [Log WARNING (ErrorQueryingLLM (i + 1) (max_retries self) e)])
          ++ [Log ERROR MaximumRetryAttemptsReached]).
Proof.
  intros E X. cbn [attempts]. rewrite E, X.
  destruct (i <? max_retries self - 1)%nat; reflexivity.
Qed.

(** The attempts from number [i] on, [k] of them being left. *)
Lemma attempts_bound (self : agent) (p : prompt) (k : nat) :
  forall i st,
    i + k = max_retries self ->
    exists new,
      snd (attempts endpoint self p (seq i k) st) = st ++ new
      /\ count_attempts new <= k
      /\ (0 < k -> count_sleeps new + 1 = count_attempts new)
      /\ (k = 0 -> new = [] /\ fst (attempts endpoint self p (seq i k) st) = Ok None)
      /\ (forall seconds, In (Sleep seconds) new -> seconds = retry_delay self)
      /\ (forall e, fst (attempts endpoint self p (seq i k) st) = Raise e ->
                    is_Exception e = true -> count_attempts new = k).
Proof.
  induction k as [|k IH]; intros i st Hik.
  - exists []. cbn. rewrite List.app_nil_r. repeat split; only_attempt.
  - cbn [seq].
    destruct (endpoint st p) as [content|e] eqn:E.
    { cbn [attempts]. rewrite E.
      exists [Attempt p]. cbn. repeat split; only_attempt. }
    destruct (is_Exception e) eqn:X.
    2:{ cbn [attempts]. rewrite E, X.
        exists [Attempt p]. cbn. repeat split; only_attempt.
        intros e' Q. injection Q as <-. congruence. }
    rewrite (attempts_failure self p i (seq (S i) k) st e E X).
    destruct (i <? max_retries self - 1)%nat eqn:L.
    + apply Nat.ltb_lt in L. assert (Hk : 0 < k) by lia.
      match goal with
      | |- context [attempts endpoint self p (seq (S i) k) ?s] =>
          destruct (IH (S i) s ltac:(lia)) as (new & Hs & Ha & Hsl & _ & Hd & Hr)
      end.
      exists ([Attempt p; Log WARNING (ErrorQueryingLLM (i + 1) (max_retries self) e);
               Log INFO (RetryingIn (retry_delay self)); Sleep (retry_delay self)] ++ new).
      destruct (attempts endpoint self p (seq (S i) k) _) as [res st1] eqn:A.
      cbn [fst snd] in *. subst st1.
      split; [now rewrite <- !List.app_assoc|].
      rewrite count_attempts_app, count_sleeps_app.
      change (count_attempts [Attempt p; _; _; _]) with 1.
      change (count_sleeps [Attempt p; _; _; _]) with 1.
      specialize (Hsl Hk).
      split; [lia|]. split; [lia|]. split; [lia|]. split.
      * intros seconds H. apply in_app_or in H. destruct H as [H|H]; [|now apply Hd].
        cbn in H. destruct H as [Q|[Q|[Q|[Q|[]]]]]; try discriminate Q.
        now injection Q as <-.
      * intros e' Q X'. rewrite (Hr e' Q X'). lia.
    + apply Nat.ltb_ge in L. assert (Hk : k = 0) by lia. subst k.
      exists [Attempt p; Log WARNING (ErrorQueryingLLM (i + 1) (max_retries self) e);
              Log ERROR MaximumRetryAttemptsReached].
      split; [cbn [snd]; now rewrite <- !List.app_assoc|].
      cbn. repeat split; only_attempt.
Qed.


End RetryFacts.

Lemma contains_app_r (p a b : string) : contains p (a ++ p ++ b) = true.
Proof.
  induction a as [|c a IH].
  - change (EmptyString ++ p ++ b) with (p ++ b).
    apply contains_prefix, prefix_app_self.
  - cbn [append contains]. rewrite IH. apply orb_true_r.
Qed.

Lemma split_fence_first (a b : string) :
  contains fence (a ++ "``") = false ->
  split fence (a ++ fence ++ b) = a :: split fence b.
Proof.
  intros H. unfold split.
  exact (split_first "``" "`" a b EmptyString H).
Qed.

Lemma split_fence_none (b : string) :
  contains fence b = false -> split fence b = [b].
Proof. intros H. unfold split. now rewrite (split_none _ _ EmptyString H). Qed.

(** X16. A response with at most one code fence is returned as it is, the
    fence included. *)
Theorem response_without_fence_pair_is_unchanged :
  forall pre post : string,
    contains fence (pre ++ "``") = false ->
    contains fence post = false ->
    extract_code post = Ok post
    /\ extract_code (pre ++ fence ++ post) = Ok (pre ++ fence ++ post).
Proof.
  intros pre post Hpre Hpost. unfold extract_code. split.
  - now rewrite Hpost.
  - rewrite contains_app_r, split_fence_first, split_fence_none by assumption.
    reflexivity.
Qed.

Lemma response_without_fence_pair_is_unchanged_witness :
  extract_code "x = 1" = Ok "x = 1"
  /\ extract_code ("See " ++ fence ++ "x = 1") = Ok ("See " ++ fence ++ "x = 1").
Proof.
  apply (response_without_fence_pair_is_unchanged "See " "x = 1"); reflexivity.
Defined.

(** X17. For a response with exactly one pair of fences: when the fenced
    block starts with a language tag ([python], [r], [bash] or [sh], in any
    case), what comes back is the stripped text after the closing fence, not
    the block, so a response that ends with its closing fence gives the
    empty text; otherwise the stripped block comes back. *)
Theorem fenced_block_extraction :
  forall pre code post : string,
    contains fence (pre ++ "``") = false ->
    contains fence (code ++ "``") = false ->
    contains fence post = false ->
    extract_code (pre ++ fence ++ code ++ fence ++ post)
    = Ok (if tagged code then strip post else strip code).
Proof.
  intros pre code post Hpre Hcode Hpost. unfold extract_code.
  rewrite contains_app_r, !split_fence_first, split_fence_none by assumption.
  cbn [List.length Nat.leb tl first_tagged nth].
  destruct (tagged code); reflexivity.
Qed.

Lemma fenced_block_extraction_witness :
  extract_code (fence ++ ("python" ++ nl ++ "x = 1  # one" ++ nl) ++ fence ++ EmptyString)
  = Ok EmptyString
  /\ extract_code (fence ++ (nl ++ "x = 1  # one" ++ nl) ++ fence ++ EmptyString)
     = Ok "x = 1  # one".
Proof.
  split.
  - exact (fenced_block_extraction EmptyString ("python" ++ nl ++ "x = 1  # one" ++ nl)
             EmptyString eq_refl eq_refl eq_refl).
  - exact (fenced_block_extraction EmptyString (nl ++ "x = 1  # one" ++ nl)
             EmptyString eq_refl eq_refl eq_refl).
Defined.

(** X18. When the first fenced block carries no language tag and a third
    fence opens a tagged block that is never closed, the index after that
    block is out of range and the extraction raises [IndexError]. *)
Theorem unclosed_tagged_block_raises :
  forall pre code mid last : string,
    contains fence (pre ++ "``") = false ->
    contains fence (code ++ "``") = false ->
    contains fence (mid ++ "``") = false ->
    contains fence last = false ->
    tagged code = false ->
    tagged last = true ->
    extract_code (pre ++ fence ++ code ++ fence ++ mid ++ fence ++ last)
    = Raise IndexError.
Proof.
  intros pre code mid last Hpre Hcode Hmid Hlast Tc Tl. unfold extract_code.
  rewrite contains_app_r, !split_fence_first, split_fence_none by assumption.
  cbn [List.length Nat.leb tl first_tagged]. now rewrite Tc, Tl.
Qed.

Lemma unclosed_tagged_block_raises_witness :
  extract_code (EmptyString ++ fence ++ (nl ++ "x = 1" ++ nl) ++ fence ++ " then "
                ++ fence ++ "python" ++ nl ++ "y = 2")
  = Raise IndexError.
Proof.
  apply (unclosed_tagged_block_raises
           EmptyString (nl ++ "x = 1" ++ nl) " then " ("python" ++ nl ++ "y = 2"));
    reflexivity.
Defined.

End LLMAgentMore.

(** ** The workflow inferrer, continued *)

Module WorkflowAnalyzerMore.
Import PyStr Py FS Json Effects LLMAgent LLMAgentFacts WorkflowAnalyzer.
Import RepositoryHandlerFacts WorkflowAnalyzerFacts FileTypeFacts Descriptor Inferrer.
Local Open Scope list_scope.

Lemma analysis_files_In (l : list entry) (f : analysis_file) :
  In f (_get_analysis_files l) ->
  exists e, In e l
            /\ RepositoryHandler.kept e = true
            /\ _is_code_file (base_name e) = true
            /\ af_path f = rel_path e
            /\ af_content f = read_ignore (data e).
Proof.
  induction l as [|e l IH]; cbn [_get_analysis_files]; [intros []|].
  destruct (_is_binary_file (data e) || (getsize e >? 1000000)%Z) eqn:K.
  - intros H. destruct (IH H) as (e' & He' & R). exists e'. split; [now right | exact R].
  - destruct (_is_code_file (base_name e)) eqn:C.
    + intros [<-|H].
      * exists e. split; [now left|]. split; [|now repeat split].
        unfold RepositoryHandler.kept.
        change (RepositoryHandler._is_binary_file (data e)) with (_is_binary_file (data e)).
        now rewrite K.
      * destruct (IH H) as (e' & He' & R). exists e'. split; [now right | exact R].
    + intros H. destruct (IH H) as (e' & He' & R). exists e'. split; [now right | exact R].
Qed.

(** X19. Every file the inferrer analyses is a file the classifier recorded,
    under the same path, and its category there is one of the six
    programming languages: the inferrer reads nothing the classifier
    skipped and nothing the classifier does not count as code. *)
Theorem analysis_files_are_classified_code :
  forall (h : RepositoryHandler.handler) (s : RepositoryHandler.repo_structure)
         (f : analysis_file),
    RepositoryHandler.analyze_repository_structure h = Ok s ->
    In f (_get_analysis_files (walk EmptyString (RepositoryHandler.tree h))) ->
    exists r,
      In r (RepositoryHandler.files s)
      /\ RepositoryHandler.file_path r = af_path f
      /\ In (RepositoryHandler.file_type r) code_categories.
Proof.
  intros h s f Hs Hf.
  apply files_of_structure in Hs. destruct Hs as (Hfiles & _).
  apply analysis_files_In in Hf. destruct Hf as (e & He & Hk & Hc & Hp & _).
  exists (RepositoryHandler.record_of e). rewrite Hfiles. split.
  - apply in_map, filter_In. now split.
  - split; [now rewrite Hp|]. cbn. now apply code_file_iff.
Qed.

Lemma analysis_files_are_classified_code_witness :
  exists r,
    In r [RepositoryHandler.mkFile "main.py" "python" 120]
    /\ RepositoryHandler.file_path r = "main.py"
    /\ In (RepositoryHandler.file_type r) code_categories.
Proof.
  refine (analysis_files_are_classified_code Examples.mixed_handler _
            (mkAnalysisFile "main.py" "print(1)") eq_refl _).
  simpl. tauto.
Defined.

Section LoopFacts.

Variable endpoint : state -> prompt -> outcome.
Variable json_loads : string -> option value.

Local Abbreviation query' := (query endpoint llm_agent).

Lemma entry_point_of_length (file : analysis_file) (reply : value) (found : list entry_point) :
  entry_point_of file reply = Some found -> List.length found <= 1.
Proof.
  unfold entry_point_of. destruct reply; simpl; try discriminate.
  destruct (truthy _); intros E; injection E as <-; simpl; lia.
Qed.

Lemma entry_points_loop_length (cands : list analysis_file) :
  forall acc st eps st',
    entry_points_loop endpoint json_loads cands acc st = (Ok eps, st') ->
    List.length eps <= List.length acc + List.length cands.
Proof.
  induction cands as [|file rest IH]; intros acc st eps st' E.
  - injection E as <- <-. simpl. lia.
  - cbn [entry_points_loop] in E. unfold bind at 1 in E.
    destruct (query' _ st) as [[reply|e] st1]; [|discriminate].
    assert (W : forall st2,
      entry_points_loop endpoint json_loads rest acc st2 = (Ok eps, st') ->
      List.length eps <= List.length acc + List.length (file :: rest)).
    { intros st2 E2. apply IH in E2. simpl. lia. }
    destruct (loads json_loads reply) as [v|]; [|exact (W _ E)].
    destruct (entry_point_of file v) as [found|] eqn:F; [|exact (W _ E)].
    apply IH in E. apply entry_point_of_length in F.
    rewrite List.length_app in E. simpl. lia.
Qed.

(** X20. The entry points the inferrer reports come from its candidates:
    there are at most as many as candidates, and the path of each one is the
    path of a candidate, hence of an analysis file; one query is made per
    candidate. *)
Theorem entry_points_come_from_candidates :
  forall (analysis_files : list analysis_file) (st st' : state) (eps : list entry_point),
    _analyze_entry_points endpoint json_loads analysis_files st = (Ok eps, st') ->
    List.length eps <= List.length (potential_entry_points analysis_files)
    /\ (forall ep, In ep eps ->
          In (ep_path ep) (map af_path (potential_entry_points analysis_files))
          /\ In (ep_path ep) (map af_path analysis_files))
    /\ count_queries st'
       = count_queries st + List.length (potential_entry_points analysis_files).
Proof.
  intros files st st' eps E. unfold _analyze_entry_points in E.
  pose proof (entry_points_loop_length _ _ _ _ _ E) as L.
  apply entry_points_loop_count in E. destruct E as (C & P).
  split; [simpl in L; lia|]. split; [|exact C].
  intros ep H. destruct (P ep H) as [[]|H']. split; [exact H'|].
  apply in_map_iff in H'. destruct H' as (f & <- & Hf).
  apply in_map. now apply potential_entry_points_incl.
Qed.

Lemma assoc_set_same (k : string) (x : value) (d : list (string * value)) :
  assoc k (assoc_set k x d) = Some x.
Proof.
  induction d as [|[k' v] d IH]; cbn [assoc_set assoc].
  - now rewrite String.eqb_refl.
  - destruct (k' =? k)%string eqn:E; cbn [assoc]; rewrite E; [reflexivity | exact IH].
Qed.

Lemma setitem_get (reply workflow : value) (k : string) (x : value) :
  setitem reply k x = Some workflow ->
  forall default, get workflow k default = Some x.
Proof.
  destruct reply; cbn; try discriminate.
  intros E default. injection E as <-. cbn. now rewrite assoc_set_same.
Qed.

Lemma find_file_In (files : list analysis_file) (path : string) (f : analysis_file) :
  find_file files path = Some f -> In f files /\ af_path f = path.
Proof.
  unfold find_file. intros H. apply find_some in H. destruct H as (H & E).
  split; [exact H|]. now apply String.eqb_eq.
Qed.

Lemma workflows_loop_tied (files : list analysis_file) (eps : list entry_point) :
  forall wfs st wfs' st',
    workflows_loop endpoint json_loads files eps wfs st = (Ok wfs', st') ->
    List.length wfs' <= List.length wfs + List.length eps
    /\ forall w, In w wfs' -> In w wfs \/ tied files eps w.
Proof.
  induction eps as [|ep rest IH]; intros wfs st wfs' st' E.
  - injection E as <- <-. split; [simpl; lia | auto].
  - cbn [workflows_loop] in E.
    assert (W : forall wfs0 st2,
      workflows_loop endpoint json_loads files rest wfs0 st2 = (Ok wfs', st') ->
      List.length wfs0 <= List.length wfs + 1 ->
      (forall w, In w wfs0 -> In w wfs \/ tied files (ep :: rest) w) ->
      List.length wfs' <= List.length wfs + List.length (ep :: rest)
      /\ forall w, In w wfs' -> In w wfs \/ tied files (ep :: rest) w).
    { intros wfs0 st2 E2 L0 T0. apply IH in E2. destruct E2 as (L & T). split.
      - simpl. lia.
      - intros w H. destruct (T w H) as [H'|(ep' & H1 & H2)]; [now apply T0|].
        right. exists ep'. split; [now right | exact H2]. }
    destruct (find_file files (ep_path ep)) as [f|] eqn:F.
    2:{ apply (W _ _ E); [lia | auto]. }
    apply find_file_In in F. destruct F as (Fin & Fp).
    unfold bind at 1 in E.
    destruct (query' _ st) as [[reply|e] st1]; [|discriminate].
    destruct (loads json_loads reply) as [v|].
    2:{ apply (W _ _ E); [lia | auto]. }
    destruct (setitem v _ _) as [workflow|] eqn:S.
    2:{ apply (W _ _ E); [lia | auto]. }
    apply (W _ _ E).
    + rewrite List.length_app. simpl. lia.
    + intros w H. apply in_app_or in H. destruct H as [H|[<-|[]]]; [now left|].
      right. exists ep. split; [now left|]. split.
      * rewrite <- Fp. now apply in_map.
      * intros default. eapply setitem_get. exact S.
Qed.

(** X21. Every workflow the inferrer returns is a JSON object whose key
    [entry_point] holds the path of one of the entry points it was given,
    that path being the path of an analysis file; there are at most as many
    workflows as entry points. *)
Theorem workflows_are_tied_to_entry_points :
  forall (analysis_files : list analysis_file) (eps : list entry_point)
         (st st' : state) (wfs : list value),
    _analyze_workflows endpoint json_loads analysis_files eps st = (Ok wfs, st') ->
    List.length wfs <= List.length eps
    /\ forall w, In w wfs ->
         exists ep,
           In ep eps
           /\ In (ep_path ep) (map af_path analysis_files)
           /\ forall default, get w "entry_point" default = Some (JStr (ep_path ep)).
Proof.
  intros files eps st st' wfs E. unfold _analyze_workflows in E.
  apply workflows_loop_tied in E. destruct E as (L & T). split; [simpl in L; lia|].
  intros w H. destruct (T w H) as [[]|R]. exact R.
Qed.

Local Abbreviation from_endpoint := (Inferrer.from_endpoint endpoint).

Lemma attempts_raise (self : agent) (p : prompt) (range : list nat) :
  forall st e st',
    attempts endpoint self p range st = (Raise e, st') -> from_endpoint e.
Proof.
  induction range as [|i rest IH]; intros st e st' E; [discriminate|].
  cbn [attempts] in E.
  destruct (endpoint st p) as [content|e0] eqn:Q; [discriminate|].
  destruct (is_Exception e0).
  - unfold bind at 1, log at 1, emit at 1 in E.
    destruct (i <? max_retries self - 1)%nat.
    + unfold bind at 1, log at 1, emit at 1 in E.
      unfold bind at 1, emit at 1 in E.
      now apply IH in E.
    + unfold bind, log, emit, raise in E. injection E as <- _. now exists st, p.
  - injection E as <- _. now exists st, p.
Qed.

Lemma query_raise (p : prompt) (st : state) (e : exn) (st' : state) :
  query' p st = (Raise e, st') -> from_endpoint e.
Proof.
  unfold query, bind at 1, log, emit. intros E. now apply attempts_raise in E.
Qed.

Lemma entry_points_loop_raise (cands : list analysis_file) :
  forall acc st e st',
    entry_points_loop endpoint json_loads cands acc st = (Raise e, st') ->
    from_endpoint e.
Proof.
  induction cands as [|file rest IH]; intros acc st e st' E; [discriminate|].
  cbn [entry_points_loop] in E. unfold bind at 1 in E.
  destruct (query' _ st) as [[reply|e0] st1] eqn:Q.
  - destruct (loads json_loads reply) as [v|]; [|now apply IH in E].
    destruct (entry_point_of file v); now apply IH in E.
  - injection E as <- _. now apply query_raise in Q.
Qed.

Lemma workflows_loop_raise (files : list analysis_file) (eps : list entry_point) :
  forall wfs st e st',
    workflows_loop endpoint json_loads files eps wfs st = (Raise e, st') ->
    from_endpoint e.
Proof.
  induction eps as [|ep rest IH]; intros wfs st e st' E; [discriminate|].
  cbn [workflows_loop] in E.
  destruct (find_file files (ep_path ep)); [|now apply IH in E].
  unfold bind at 1 in E.
  destruct (query' _ st) as [[reply|e0] st1] eqn:Q.
  - destruct (loads json_loads reply) as [v|]; [|now apply IH in E].
    destruct (setitem v _ _); now apply IH in E.
  - injection E as <- _. now apply query_raise in Q.
Qed.

Lemma scaling_raise (wfs : list value) (st : state) (e : exn) (st' : state) :
  _analyze_scaling_limitations endpoint json_loads wfs st = (Raise e, st') ->
  from_endpoint e.
Proof.
  destruct wfs as [|w wfs]; cbn [_analyze_scaling_limitations]; [discriminate|].
  unfold bind at 1. destruct (query' _ st) as [[reply|e0] st1] eqn:Q.
  - destruct (loads json_loads reply); discriminate.
  - intros E. injection E as <- _. now apply query_raise in Q.
Qed.

Lemma bottlenecks_raise (wfs : list value) (st : state) (e : exn) (st' : state) :
  _analyze_bottlenecks endpoint json_loads wfs st = (Raise e, st') ->
  from_endpoint e.
Proof.
  destruct wfs as [|w wfs]; cbn [_analyze_bottlenecks]; [discriminate|].
  unfold bind at 1. destruct (query' _ st) as [[reply|e0] st1] eqn:Q.
  - destruct (loads json_loads reply); discriminate.
  - intros E. injection E as <- _. now apply query_raise in Q.
Qed.



End LoopFacts.

Import RunExamples RunMoreExamples.

Lemma entry_points_come_from_candidates_witness :
  exists eps st',
    _analyze_entry_points (scripted prose_then_yes) example_loads [main_file; app_file] []
    = (Ok eps, st')
    /\ map ep_path eps = ["app.py"]
    /\ count_queries st' = 0 + 2.
Proof.
  eexists. eexists. split; [reflexivity|]. split; [reflexivity|].
  exact (proj2 (proj2 (entry_points_come_from_candidates (scripted prose_then_yes)
                         example_loads [main_file; app_file] [] _ _ eq_refl))).
Defined.

Lemma workflows_are_tied_to_entry_points_witness :
  exists wfs st',
    _analyze_workflows (scripted one_workflow) example_loads [main_file] [main_entry] []
    = (Ok wfs, st')
    /\ wfs = [JDict [("workflow_name", JStr "demo"); ("entry_point", JStr "main.py")]]
    /\ List.length wfs <= 1.
Proof.
  eexists. eexists. split; [reflexivity|]. split; [reflexivity|].
  exact (proj1 (workflows_are_tied_to_entry_points (scripted one_workflow) example_loads
                  [main_file] [main_entry] [] _ _ eq_refl)).
Defined.



End WorkflowAnalyzerMore.

(** ** The command line program, continued *)

Module MainMore.
Import PyStr Py Main.

Section ProgramMore.

Variable world : Type.
Variables logger_error logger_info : log_line -> world -> world.
Variables repo_structure workflow_analysis output_analysis documentation : Type.
Variable clone_repository :
  string -> bool -> world -> result string * world.
Variable analyze_repository_structure :
  string -> bool -> world -> result repo_structure * world.
Variable analyze_workflow :
  string -> string -> string -> float -> world -> result workflow_analysis * world.
Variable analyze_outputs :
  string -> string -> string -> float -> world -> result output_analysis * world.
Variable generate_documentation :
  string -> repo_structure -> workflow_analysis -> output_analysis ->
  string -> string -> float -> world -> result documentation * world.
Variable publish_documentation :
  string -> string -> documentation -> world -> result unit * world.

Local Abbreviation run :=
  (main world logger_error logger_info
     repo_structure workflow_analysis output_analysis documentation
     clone_repository analyze_repository_structure analyze_workflow analyze_outputs
     generate_documentation publish_documentation).

Local Abbreviation steps :=
  (pipeline world logger_info
     repo_structure workflow_analysis output_analysis documentation
     clone_repository analyze_repository_structure analyze_workflow analyze_outputs
     generate_documentation publish_documentation).


(** X25. When the clone raises an [Exception], the run ends there: [main]
    returns normally, and the world it leaves is the one the clone left plus
    one error line that names the exception.  No other component was
    called. *)
Theorem failing_clone_ends_the_run :
  forall (a : args) (getenv : option string) (w w1 : world) (e : exn),
    supplied (or_else (api_key a) getenv) = true ->
    clone_repository (repo_url a) (skip_clone a) w = (Raise e, w1) ->
    is_Exception e = true ->
    run a getenv w = (Ok tt, logger_error (ErrorInDocumentationProcess e) w1).
Proof.
  intros a getenv w w1 e K C X. unfold main.
  destruct (or_else (api_key a) getenv) as [k|]; [|discriminate].
  cbn [supplied] in K. rewrite K.
  unfold pipeline, bind at 1. rewrite C, X. reflexivity.
Qed.

End ProgramMore.

Import MainExamples MainMoreExamples.

Lemma failing_clone_ends_the_run_witness :
  program_offline with_key None fresh
  = (Ok tt, mkWorld 0 0 0 [ErrorInDocumentationProcess (ApiError "repository not found")]).
Proof.
  exact (failing_clone_ends_the_run world logger logger unit unit unit unit
           failing_clone classify ask ask generate publish
           with_key None fresh fresh (ApiError "repository not found")
           eq_refl eq_refl eq_refl).
Defined.

End MainMore.

(** ** The file-name sanitizer, continued *)

Module SanitizerFacts.
Import PyStr PyStrFacts PyStrMore Py Publisher PublisherFacts.

Lemma contains_char_map (o : ascii) (f : ascii -> ascii) (s : string) :
  (forall c, Ascii.eqb (f c) o = false) ->
  contains (str1 o) (map_chars f s) = false.
Proof.
  intros H. induction s as [|c s IH]; [reflexivity|].
  cbn [map_chars]. now rewrite contains_char_cons, H, IH.
Qed.

Lemma sanitize_char_safe (c : ascii) : unsafe_char (sanitize_char c) = false.
Proof. destruct c as [[] [] [] [] [] [] [] []]; reflexivity. Qed.

Lemma unsafe_char_false (c : ascii) :
  unsafe_char c = false ->
  Ascii.eqb c " " = false /\ Ascii.eqb c "/" = false
  /\ Ascii.eqb c backslash = false /\ Ascii.eqb c ":" = false.
Proof.
  unfold unsafe_char. intros H.
  apply orb_false_iff in H. destruct H as (H & H4).
  apply orb_false_iff in H. destruct H as (H & H3).
  apply orb_false_iff in H. destruct H as (H1 & H2). auto.
Qed.

Lemma sanitize_fixed_iff (s : string) :
  map_chars sanitize_char s = s
  <-> (contains " " s = false /\ contains "/" s = false
       /\ contains (str1 backslash) s = false /\ contains ":" s = false).
Proof.
  change " "%string with (str1 " "). change "/"%string with (str1 "/").
  change ":"%string with (str1 ":").
  induction s as [|c s IH]; [now repeat split|].
  cbn [map_chars]. rewrite !contains_char_cons. split.
  - intros E. injection E as Ec Es. apply IH in Es. destruct Es as (S1 & S2 & S3 & S4).
    rewrite S1, S2, S3, S4, !orb_false_r.
    assert (U : unsafe_char c = false).
    { rewrite <- Ec. apply sanitize_char_safe. }
    now apply unsafe_char_false.
  - intros (H1 & H2 & H3 & H4).
    apply orb_false_iff in H1, H2, H3, H4.
    destruct H1 as (C1 & S1), H2 as (C2 & S2), H3 as (C3 & S3), H4 as (C4 & S4).
    f_equal.
    + unfold sanitize_char, unsafe_char. now rewrite C1, C2, C3, C4.
    + apply IH. auto.
Qed.

(** X26. The name the sanitizer returns holds no space, slash, backslash or
    colon; and the sanitizer leaves a name as it is exactly when the name
    holds none of them. *)
Theorem safe_filename_output_is_safe :
  forall s : string,
    (contains " " (_safe_filename s) = false
     /\ contains "/" (_safe_filename s) = false
     /\ contains (str1 backslash) (_safe_filename s) = false
     /\ contains ":" (_safe_filename s) = false)
    /\ (_safe_filename s = s
        <-> (contains " " s = false /\ contains "/" s = false
             /\ contains (str1 backslash) s = false /\ contains ":" s = false)).
Proof.
  intros s. rewrite safe_filename_charwise. unfold sanitize_spec.
  split; [|apply sanitize_fixed_iff].
  change " "%string with (str1 " "). change "/"%string with (str1 "/").
  change ":"%string with (str1 ":").
  repeat split; apply contains_char_map; intros c;
    pose proof (unsafe_char_false _ (sanitize_char_safe c)); tauto.
Qed.

(** X27. The sanitizer does not tell the four characters and the underscore
    apart: two names that differ only in which of them stands at some place
    get the same file name, so the document of one overwrites the document
    of the other. *)
Theorem safe_filename_collisions :
  forall (a b : string) (c : ascii),
    unsafe_char c = true ->
    _safe_filename (a ++ str1 c ++ b) = _safe_filename (a ++ "_" ++ b)
    /\ _safe_filename (a ++ str1 c ++ b) = _safe_filename a ++ "_" ++ _safe_filename b.
Proof.
  intros a b c U. rewrite !safe_filename_charwise. unfold sanitize_spec.
  rewrite !map_chars_app. cbn [str1 map_chars].
  assert (E : sanitize_char c = "_"%char) by (unfold sanitize_char; now rewrite U).
  rewrite E. split; reflexivity.
Qed.

Lemma safe_filename_collisions_witness :
  _safe_filename ("Data" ++ str1 "/" ++ "Import") = _safe_filename ("Data" ++ "_" ++ "Import")
  /\ _safe_filename ("Data" ++ str1 "/" ++ "Import")
     = _safe_filename "Data" ++ "_" ++ _safe_filename "Import".
Proof. apply (safe_filename_collisions "Data" "Import" "/"). reflexivity. Defined.

End SanitizerFacts.

(** ** Paths *)

Module PyPathFacts.
Import PyStr PyStrFacts PyStrMore Py PyPath.

Lemma drop_app_length (a b : string) : drop (String.length a) (a ++ b) = b.
Proof. induction a as [|c a IH]; [now destruct b | exact IH]. Qed.

Lemma take_length (s : string) : take (String.length s) s = s.
Proof. induction s as [|c s IH]; [reflexivity|]. cbn. now rewrite IH. Qed.

(** A text that ends with [p] is some text followed by [p]. *)
Lemma endswith_inv (s p : string) :
  endswith s p = true -> exists a, s = a ++ p.
Proof.
  unfold endswith. intros H. apply andb_true_iff in H. destruct H as (_ & H).
  apply String.eqb_eq in H.
  set (n := String.length s - String.length p) in *. clearbody n.
  exists (take n s). rewrite <- H. clear H. revert n.
  induction s as [|c s IH]; intros [|n]; cbn [take drop append]; try reflexivity.
  now rewrite <- IH.
Qed.

Lemma rfind_from_last (c : ascii) (x : string) :
  forall i, (0 <= i)%Z ->
    rfind_from c i (x ++ str1 c) = (i + Z.of_nat (String.length x))%Z.
Proof.
  induction x as [|d x IH]; intros i Hi.
  - cbn. rewrite Ascii.eqb_refl. lia.
  - cbn [append rfind_from String.length]. rewrite IH by lia.
    destruct (0 <=? i + 1 + Z.of_nat (String.length x))%Z eqn:G; [lia|].
    apply Z.leb_gt in G. lia.
Qed.

Lemma all_slashes_app (a b : string) :
  all_slashes (a ++ b) = all_slashes a && all_slashes b.
Proof.
  unfold all_slashes. induction a as [|c a IH]; [reflexivity|].
  cbn [append list_ascii_of_string forallb]. now rewrite IH, andb_assoc.
Qed.

Lemma rstrip_slashes_app (a t : string) :
  rstrip_slashes t <> EmptyString ->
  rstrip_slashes (a ++ t) = a ++ rstrip_slashes t.
Proof.
  intros H. induction a as [|c a IH]; [reflexivity|].
  cbn [append rstrip_slashes]. rewrite IH.
  destruct (a ++ rstrip_slashes t) eqn:E; [|reflexivity].
  destruct a; [now destruct H | discriminate].
Qed.

(** The directory of checkouts, and the path a name that is empty gives. *)
Lemma join_repos (cwd : string) : exists pre, join cwd "repos" = pre ++ "repos".
Proof.
  unfold join. cbn [startswith prefix].
  destruct (negb (nonempty cwd) || endswith cwd "/").
  - now exists cwd.
  - exists (cwd ++ "/"). now rewrite str_app_assoc.
Qed.

Lemma join_empty_name (pre : string) :
  join (pre ++ "repos") EmptyString = pre ++ "repos/".
Proof.
  unfold join. cbn [startswith prefix].
  assert (N : nonempty (pre ++ "repos") = true) by now destruct pre.
  assert (E : endswith (pre ++ "repos") "/" = false).
  { unfold endswith. rewrite str_length_app.
    replace (String.length pre + String.length "repos" - String.length "/")
      with (String.length pre + 4) by (simpl; lia).
    assert (D : forall p, drop (String.length p + 4) (p ++ "repos") = "s").
    { induction p as [|c p IHp]; [reflexivity | exact IHp]. }
    rewrite D. apply andb_false_r. }
  rewrite N, E. cbn [negb orb]. now rewrite str_app_assoc.
Qed.

Lemma dirname_of_repos_slash (pre : string) :
  dirname (pre ++ "repos/") = pre ++ "repos".
Proof.
  unfold dirname, rfind.
  change (pre ++ "repos/") with (pre ++ "repos" ++ str1 "/").
  rewrite <- str_app_assoc, rfind_from_last by lia.
  replace (Z.to_nat (0 + Z.of_nat (String.length (pre ++ "repos")) + 1))
    with (String.length ((pre ++ "repos") ++ str1 "/"))
    by (rewrite (str_length_app (pre ++ "repos")); simpl; lia).
  rewrite !take_length.
  assert (N : nonempty ((pre ++ "repos") ++ str1 "/") = true) by now destruct pre.
  rewrite N, !all_slashes_app.
  replace (all_slashes "repos") with false by reflexivity.
  rewrite andb_false_r. cbn [andb negb].
  rewrite str_app_assoc. rewrite rstrip_slashes_app; [reflexivity | discriminate].
Qed.

End PyPathFacts.

(** ** The acquirer and a URL that ends with a slash *)

Module TrailingSlashFacts.
Import PyStr PyStrFacts PyStrMore Py Acquirer PyPathFacts.

Section DiskFacts.

Local Open Scope list_scope.

Variable fails : history -> op -> option exn.
Variable path_exists : history -> string -> bool.

(** X28. A URL that ends with a slash gives the empty repository name, and
    the path of the checkout is then the directory of all checkouts itself.
    Without [skip_clone], when that directory exists and nothing fails, the
    run removes it whole, creates it again and clones into it. *)
Theorem trailing_slash_url_removes_the_repos_directory :
  forall (cwd url : string) (h : history),
    path_exists h (repo_path (new_handler cwd (url ++ "/") false)) = true ->
    (forall h' l p, path_exists (h' ++ [Info l]) p = path_exists h' p) ->
    (forall h' o, fails h' o = None) ->
    exists repos new,
      repos = PyPath.join cwd "repos"
      /\ repo_path (new_handler cwd (url ++ "/") false) = (repos ++ "/")%string
      /\ clone_repository fails path_exists (new_handler cwd (url ++ "/") false) h
         = (Ok (repos ++ "/")%string, h ++ new)
      /\ filter is_effect new
         = [Rmtree (repos ++ "/")%string; MakeDirs repos;
            CloneFrom (url ++ "/")%string (repos ++ "/")%string].
Proof.
  intros cwd url h He Hlog Hf.
  assert (P : repo_path (new_handler cwd (url ++ "/") false)
              = (PyPath.join cwd "repos" ++ "/")%string
              /\ PyPath.dirname (repo_path (new_handler cwd (url ++ "/") false))
                 = PyPath.join cwd "repos").
  { unfold new_handler. cbn [repo_path].
    assert (N : _extract_repo_name (url ++ "/") = EmptyString).
    { unfold _extract_repo_name, split.
      change "/"%string with (str1 "/").
      rewrite <- (str_app_empty_r (url ++ str1 "/")), str_app_assoc.
      now rewrite split_char_last. }
    rewrite N. destruct (join_repos cwd) as (pre & ->).
    rewrite join_empty_name, dirname_of_repos_slash.
    split; [|reflexivity]. now rewrite str_app_assoc. }
  destruct P as (Pp & Pd).
  exists (PyPath.join cwd "repos"). eexists. split; [reflexivity|]. split; [exact Pp|].
  unfold clone_repository. rewrite andb_false_r.
  unfold bind, note, logging_errors, perform, ret.
  rewrite Hlog, He, !Hf, Pd, Pp. cbn [repo_url new_handler].
  split; [rewrite <- !List.app_assoc; reflexivity | reflexivity].
Qed.

End DiskFacts.

Import AcquirerExamples.

Lemma trailing_slash_url_removes_the_repos_directory_witness :
  exists new,
    clone_repository healthy present
      (new_handler "/work" ("https://github.com/octo/demo" ++ "/") false) []
    = (Ok "/work/repos/", ([] ++ new)%list)
    /\ filter is_effect new
       = [Rmtree "/work/repos/"; MakeDirs "/work/repos";
          CloneFrom "https://github.com/octo/demo/" "/work/repos/"].
Proof.
  destruct (trailing_slash_url_removes_the_repos_directory healthy present
              "/work" "https://github.com/octo/demo" []
              eq_refl (fun _ _ _ => eq_refl) (fun _ _ => eq_refl))
    as (repos & new & -> & _ & C & F).
  exists new. split; [exact C | exact F].
Defined.

End TrailingSlashFacts.

(** ** The two name tests for entry points *)

Module NameTestFacts.
Import PyStr PyStrFacts PyStrMore Py FS RepositoryHandler WorkflowAnalyzer.
Import PyPathFacts LLMAgentMore.

Lemma lower_app (a b : string) : lower (a ++ b) = lower a ++ lower b.
Proof. apply map_chars_app. Qed.

Lemma looks_like_of_ending (file : analysis_file) :
  endswith (af_path file) "main.py" || endswith (af_path file) "run.py"
  || endswith (af_path file) "app.py" = true ->
  looks_like_entry_point file = true.
Proof.
  intros H. unfold looks_like_entry_point.
  apply orb_true_iff in H. destruct H as [H|H]; [apply orb_true_iff in H; destruct H as [H|H]|];
    apply endswith_inv in H; destruct H as (a & ->); rewrite lower_app.
  - change (lower "main.py") with ("main" ++ ".py").
    now rewrite (contains_app_r "main" (lower a) ".py").
  - change (lower "run.py") with ("run" ++ ".py").
    rewrite (contains_app_r "run" (lower a) ".py"). now rewrite orb_true_r.
  - change (lower "app.py") with ("app" ++ ".py").
    rewrite (contains_app_r "app" (lower a) ".py"). now rewrite !orb_true_r.
Qed.

(** X29. The inferrer's name test is looser than the classifier's first
    rule: an analysis file whose path ends with [main.py], [run.py] or
    [app.py] always passes it, so it is always among the candidates the
    inferrer submits to the model. *)
Theorem named_entry_points_are_candidates :
  forall (analysis_files : list analysis_file) (file : analysis_file),
    In file analysis_files ->
    endswith (af_path file) "main.py" || endswith (af_path file) "run.py"
    || endswith (af_path file) "app.py" = true ->
    looks_like_entry_point file = true
    /\ In file (potential_entry_points analysis_files).
Proof.
  intros files file Hin H.
  pose proof (looks_like_of_ending file H) as L.
  split; [exact L|].
  unfold potential_entry_points.
  assert (F : In file (filter looks_like_entry_point files)) by (apply filter_In; auto).
  destruct (filter looks_like_entry_point files); [destruct F | exact F].
Qed.

Lemma named_entry_points_are_candidates_witness :
  looks_like_entry_point RunExamples.app_file = true
  /\ In RunExamples.app_file
       (potential_entry_points [RunExamples.main_file; RunExamples.app_file]).
Proof.
  refine (named_entry_points_are_candidates
            [RunExamples.main_file; RunExamples.app_file] RunExamples.app_file _ eq_refl).
  simpl. tauto.
Defined.

End NameTestFacts.

(** ** Version-control metadata *)

Module GitFacts.
Import PyStr Py FS RepositoryHandler WorkflowAnalyzer.
Local Open Scope list_scope.

Lemma files_in_git (rel : string) (before after : list node) (meta : list node) :
  files_in rel (before ++ Dir ".git" meta :: after)
  = files_in rel before ++ files_in rel after.
Proof.
  induction before as [|[name size c|name cs] before IH]; cbn [app files_in];
    [reflexivity | now rewrite IH | exact IH].
Qed.

(** Up to the first directory named [.git] every sub-directory is entered;
    that directory is not, whatever it holds. *)
Lemma subdirs_git {A} (enter : string -> node -> list A)
    (before after : list node) (meta : list node) :
  (forall m, ~ In (Dir ".git" m) before) ->
  subdirs enter (before ++ Dir ".git" meta :: after) false
  = all_subdirs enter before ++ subdirs enter after true.
Proof.
  induction before as [|[name size c|name cs] before IH]; intros H;
    cbn [app subdirs all_subdirs].
  - reflexivity.
  - apply IH. intros m Hm. apply (H m). now right.
  - destruct (String.eqb_spec name ".git") as [->|N].
    + destruct (H cs). now left.
    + cbn [andb]. rewrite IH; [apply List.app_assoc|].
      intros m Hm. apply (H m). now right.
Qed.

Lemma walk_git (rel root : string) (before after meta meta' : list node) :
  (forall m, ~ In (Dir ".git" m) before) ->
  walk rel (Dir root (before ++ Dir ".git" meta :: after))
  = walk rel (Dir root (before ++ Dir ".git" meta' :: after)).
Proof.
  intros H. cbn [walk]. now rewrite !files_in_git, !subdirs_git.
Qed.

Lemma lookup_git (name : string) (before after meta meta' : list node) :
  name <> ".git" ->
  lookup name (before ++ Dir ".git" meta :: after)
  = lookup name (before ++ Dir ".git" meta' :: after).
Proof.
  intros N. induction before as [|n before IH]; cbn [app lookup].
  - cbn [node_name]. destruct (String.eqb_spec ".git" name) as [E|_]; [|reflexivity].
    now destruct N.
  - now rewrite IH.
Qed.

(** X30. What the first directory named [.git] under the root holds has no
    influence: replacing its content by any other leaves the descriptor of
    the classifier and the analysis files of the inferrer as they are. *)
Theorem version_control_metadata_is_ignored :
  forall (name path root : string) (before after meta meta' : list node),
    (forall m, ~ In (Dir ".git" m) before) ->
    analyze_repository_structure
      (mkHandler name path (Dir root (before ++ Dir ".git" meta :: after)))
    = analyze_repository_structure
        (mkHandler name path (Dir root (before ++ Dir ".git" meta' :: after)))
    /\ _get_analysis_files
         (walk EmptyString (Dir root (before ++ Dir ".git" meta :: after)))
       = _get_analysis_files
           (walk EmptyString (Dir root (before ++ Dir ".git" meta' :: after))).
Proof.
  intros name path root before after meta meta' H.
  pose proof (walk_git EmptyString root before after meta meta' H) as W.
  split; [|now rewrite W].
  unfold analyze_repository_structure, _identify_dependencies.
  cbn [tree repo_name repo_path children]. rewrite W.
  rewrite (lookup_git "requirements.txt" before after meta meta') by discriminate.
  rewrite (lookup_git "DESCRIPTION" before after meta meta') by discriminate.
  reflexivity.
Qed.

Lemma version_control_metadata_is_ignored_witness :
  analyze_repository_structure Examples.scenario_A
  = analyze_repository_structure
      (mkHandler "demo" "/work/repos/demo"
         (Dir "demo"
            [File "requirements.txt" 40 (Text Examples.two_requirements);
             Dir ".git" [File "main.py" 1 (Text "decoy")];
             File "main.py" 9 (Text "print(1)")]))
  /\ _get_analysis_files (walk EmptyString (tree Examples.scenario_A))
     = _get_analysis_files
         (walk EmptyString
            (Dir "demo"
               [File "requirements.txt" 40 (Text Examples.two_requirements);
                Dir ".git" [File "main.py" 1 (Text "decoy")];
                File "main.py" 9 (Text "print(1)")])).
Proof.
  refine (version_control_metadata_is_ignored "demo" "/work/repos/demo" "demo"
            [File "requirements.txt" 40 (Text Examples.two_requirements)]
            [File "main.py" 9 (Text "print(1)")]
            [File "HEAD" 23 (Text "ref: refs/heads/main")]
            [File "main.py" 1 (Text "decoy")] _).
  intros m [Q|[]]. discriminate Q.
Defined.

End GitFacts.

(** ** The program as shipped *)

Module StartupFacts.
Import PyStr Py Startup.

Section InterpreterFacts.

Variable available : string -> bool.
Variable run_module : string -> option failure.

Lemma find_spec_src_missing (name : string) :
  startswith name "src." = true ->
  existsb (String.eqb (module_file name)) repository = false ->
  find_spec available name = None.
Proof. intros S M. unfold find_spec. now rewrite M, S. Qed.

Lemma find_spec_outside (name : string) :
  startswith name "src." = false ->
  existsb (String.eqb (module_file name)) repository = false ->
  find_spec available name = if available name then Some External else None.
Proof. intros S M. unfold find_spec. now rewrite M, S. Qed.

End InterpreterFacts.

(** C9 on the code as shipped.  [main.py] imports [src.workflow_analyzer],
    [src.output_analyzer] and [src.documentation_publisher]; none of the
    three is a file of the repository under [src/].  So, whatever is
    installed and whatever the modules imported before do, the run ends
    with a traceback at line 8 at the latest, and at line 8 exactly, with
    [ModuleNotFoundError], when the six imports before it succeed.  The rest
    of the file is never executed: logging is not configured and [main] is
    not called, so nothing is reported, with or without a credential. *)
Theorem shipped_program_stops_at_its_imports :
  forall (available : string -> bool) (run_module : string -> option failure)
         (A : Type) (body : A),
    find_spec available "src.workflow_analyzer" = None
    /\ find_spec available "src.output_analyzer" = None
    /\ find_spec available "src.documentation_publisher" = None
    /\ (exists line e,
          main_py available run_module body = Traceback line e /\ line <= 8)
    /\ (forallb available ["os"; "argparse"; "logging"; "dotenv"] = true ->
        run_module "src/repository_handler.py" = None ->
        run_module "src/documentation_generator.py" = None ->
        main_py available run_module body
        = Traceback 8 (ModuleNotFoundError "src.workflow_analyzer"))
    /\ main_py (fun _ => true) (fun _ => None)
         (MainExamples.program MainExamples.no_key None MainExamples.fresh)
       = Traceback 8 (ModuleNotFoundError "src.workflow_analyzer").
Proof.
  intros available run_module A body.
  split; [now apply find_spec_src_missing|].
  split; [now apply find_spec_src_missing|].
  split; [now apply find_spec_src_missing|].
  unfold main_py, main_imports. cbn [import_all].
  rewrite (find_spec_outside available "os"), (find_spec_outside available "argparse"),
    (find_spec_outside available "logging"), (find_spec_outside available "dotenv")
    by reflexivity.
  rewrite (find_spec_src_missing available "src.workflow_analyzer") by reflexivity.
  change (find_spec available "src.repository_handler")
    with (Some (Source "src/repository_handler.py")).
  change (find_spec available "src.documentation_generator")
    with (Some (Source "src/documentation_generator.py")).
  split; [|split; [|reflexivity]].
  - destruct (available "os"); [|exists 2; eexists; split; [reflexivity | lia]].
    destruct (available "argparse"); [|exists 3; eexists; split; [reflexivity | lia]].
    destruct (available "logging"); [|exists 4; eexists; split; [reflexivity | lia]].
    destruct (available "dotenv"); [|exists 5; eexists; split; [reflexivity | lia]].
    destruct (run_module "src/repository_handler.py");
      [exists 6; eexists; split; [reflexivity | lia]|].
    destruct (run_module "src/documentation_generator.py");
      [exists 7; eexists; split; [reflexivity | lia]|].
    exists 8. eexists. split; [reflexivity | lia].
  - cbn [forallb]. intros Hav H6 H7. rewrite H6, H7.
    destruct (available "os"); [|discriminate].
    destruct (available "argparse"); [|discriminate].
    destruct (available "logging"); [|discriminate].
    destruct (available "dotenv"); [|discriminate].
    reflexivity.
Qed.

End StartupFacts.
